(** * ServerKit.AcceptLoadBalancer: accept bursts and round-robin dispatch

    A shallow embedding of [src/ext/common/ServerKit/AcceptLoadBalancer.h].
    The class is a record, its methods are computations in a small
    state-and-exception monad over a [World] made of the object, the
    operating system seen through the system calls the class makes, the
    global [errno] and the chronological trace of observable effects
    (system calls, log lines, hand-offs to workers, thread operations). *)

From Stdlib Require Import ZArith List Bool Lia.
From stdpp Require Import base list gmap.
Import ListNotations.

Local Open Scope Z_scope.

(** ** Constants supplied by system headers and by [Constants.h] *)

(** The values of the [errno] codes, of [POLLIN] and [O_NONBLOCK] come from
    the platform's headers; [SERVER_KIT_MAX_SERVER_ENDPOINTS] comes from
    [Constants.h], which is not part of the source under study.  All of them
    are taken as parameters. *)
Class Platform := {
  EAGAIN : Z;
  EWOULDBLOCK : Z;
  ENOSYS : Z;
  EINVAL : Z;
  POLLIN : Z;
  O_NONBLOCK : Z;
  SERVER_KIT_MAX_SERVER_ENDPOINTS : Z
}.

(** [static const unsigned int ACCEPT_BURST_COUNT = 16;] *)
Definition ACCEPT_BURST_COUNT : Z := 16.

(** Storing [v] into an unsigned bit-field of [w] bits keeps [v] modulo
    [2^w]. *)
Definition bitfield (w v : Z) : Z := v mod 2 ^ w.

(** Arithmetic on [unsigned int] wraps modulo [2^32]. *)
Definition uint (v : Z) : Z := v mod 2 ^ 32.

(** ** Data *)

(** [struct pollfd] *)
Record pollfd := { pfd : Z; events : Z; revents : Z }.

#[global] Instance pollfd_inhabited : Inhabited pollfd :=
  populate {| pfd := 0; events := 0; revents := 0 |}.

(** The fields of [class AcceptLoadBalancer], in declaration order.
    [nEndpoints] is a 2-bit field and [newClientCount] a 4-bit field; every
    store into them goes through [bitfield].  A worker ([Server *]) is
    represented by an opaque handle. *)
Record AcceptLoadBalancer := {
  endpoints : list Z;
  pollers : list pollfd;
  newClients : list Z;
  nEndpoints : Z;
  accept4Available : bool;
  quit : bool;
  newClientCount : Z;
  nextServer : Z;
  exitPipe : Z * Z;
  thread : option Z;
  servers : list Z
}.

Definition set_endpoints v (o : AcceptLoadBalancer) : AcceptLoadBalancer :=
  {| endpoints := v; pollers := pollers o; newClients := newClients o;
     nEndpoints := nEndpoints o; accept4Available := accept4Available o;
     quit := quit o; newClientCount := newClientCount o;
     nextServer := nextServer o; exitPipe := exitPipe o; thread := thread o;
     servers := servers o |}.

Definition set_pollers v (o : AcceptLoadBalancer) : AcceptLoadBalancer :=
  {| endpoints := endpoints o; pollers := v; newClients := newClients o;
     nEndpoints := nEndpoints o; accept4Available := accept4Available o;
     quit := quit o; newClientCount := newClientCount o;
     nextServer := nextServer o; exitPipe := exitPipe o; thread := thread o;
     servers := servers o |}.

Definition set_newClients v (o : AcceptLoadBalancer) : AcceptLoadBalancer :=
  {| endpoints := endpoints o; pollers := pollers o; newClients := v;
     nEndpoints := nEndpoints o; accept4Available := accept4Available o;
     quit := quit o; newClientCount := newClientCount o;
     nextServer := nextServer o; exitPipe := exitPipe o; thread := thread o;
     servers := servers o |}.

Definition set_nEndpoints v (o : AcceptLoadBalancer) : AcceptLoadBalancer :=
  {| endpoints := endpoints o; pollers := pollers o; newClients := newClients o;
     nEndpoints := v; accept4Available := accept4Available o;
     quit := quit o; newClientCount := newClientCount o;
     nextServer := nextServer o; exitPipe := exitPipe o; thread := thread o;
     servers := servers o |}.

Definition set_accept4Available v (o : AcceptLoadBalancer) : AcceptLoadBalancer :=
  {| endpoints := endpoints o; pollers := pollers o; newClients := newClients o;
     nEndpoints := nEndpoints o; accept4Available := v;
     quit := quit o; newClientCount := newClientCount o;
     nextServer := nextServer o; exitPipe := exitPipe o; thread := thread o;
     servers := servers o |}.

Definition set_quit v (o : AcceptLoadBalancer) : AcceptLoadBalancer :=
  {| endpoints := endpoints o; pollers := pollers o; newClients := newClients o;
     nEndpoints := nEndpoints o; accept4Available := accept4Available o;
     quit := v; newClientCount := newClientCount o;
     nextServer := nextServer o; exitPipe := exitPipe o; thread := thread o;
     servers := servers o |}.

Definition set_newClientCount v (o : AcceptLoadBalancer) : AcceptLoadBalancer :=
  {| endpoints := endpoints o; pollers := pollers o; newClients := newClients o;
     nEndpoints := nEndpoints o; accept4Available := accept4Available o;
     quit := quit o; newClientCount := v;
     nextServer := nextServer o; exitPipe := exitPipe o; thread := thread o;
     servers := servers o |}.

Definition set_nextServer v (o : AcceptLoadBalancer) : AcceptLoadBalancer :=
  {| endpoints := endpoints o; pollers := pollers o; newClients := newClients o;
     nEndpoints := nEndpoints o; accept4Available := accept4Available o;
     quit := quit o; newClientCount := newClientCount o;
     nextServer := v; exitPipe := exitPipe o; thread := thread o;
     servers := servers o |}.

Definition set_exitPipe v (o : AcceptLoadBalancer) : AcceptLoadBalancer :=
  {| endpoints := endpoints o; pollers := pollers o; newClients := newClients o;
     nEndpoints := nEndpoints o; accept4Available := accept4Available o;
     quit := quit o; newClientCount := newClientCount o;
     nextServer := nextServer o; exitPipe := v; thread := thread o;
     servers := servers o |}.

Definition set_thread v (o : AcceptLoadBalancer) : AcceptLoadBalancer :=
  {| endpoints := endpoints o; pollers := pollers o; newClients := newClients o;
     nEndpoints := nEndpoints o; accept4Available := accept4Available o;
     quit := quit o; newClientCount := newClientCount o;
     nextServer := nextServer o; exitPipe := exitPipe o; thread := v;
     servers := servers o |}.

Definition set_servers v (o : AcceptLoadBalancer) : AcceptLoadBalancer :=
  {| endpoints := endpoints o; pollers := pollers o; newClients := newClients o;
     nEndpoints := nEndpoints o; accept4Available := accept4Available o;
     quit := quit o; newClientCount := newClientCount o;
     nextServer := nextServer o; exitPipe := exitPipe o; thread := thread o;
     servers := v |}.

(** ** The operating system, as the class sees it *)

(** What the next [accept] on a listening descriptor finds at the head of
    its queue: a connection, delivered on descriptor [fd] (a descriptor is
    never negative), or a failure with the given error code. *)
Inductive pending :=
| Conn (fd : N)
| Fault (code : Z).

(** What one return of [poll] reports: a failure, or the [revents] of the
    watched entries in order (entries not listed get 0). *)
Inductive wakeup :=
| PollFail (code : Z)
| PollEvents (rs : list Z).

(** - [backlog]: per listening descriptor, the queue [accept] draws from;
      the listeners are non-blocking, so an empty queue answers "would
      block", with [EWOULDBLOCK] when [wouldblock_alt] and [EAGAIN]
      otherwise;
    - [accept4_reject]: when [Some e], the combined accept-and-flags entry
      point fails with [e] without touching the queue;
    - [fcntl_fault]: the descriptors on which setting [O_NONBLOCK] fails,
      with the error code;
    - [nonblocking]: the descriptors currently in non-blocking mode;
    - [wakeups]: what the successive returns of [poll] report; with none
      left, a wait without timeout never returns and a wait with a timeout
      times out;
    - [write_fault]: when [Some e], writing to the exit pipe fails with [e];
    - [pipe_fault] and [pipe_fds]: what [pipe] answers. *)
Record Kernel := {
  backlog : gmap Z (list pending);
  wouldblock_alt : bool;
  accept4_reject : option Z;
  fcntl_fault : gmap Z Z;
  nonblocking : gset Z;
  wakeups : list wakeup;
  write_fault : option Z;
  pipe_fault : option Z;
  pipe_fds : Z * Z
}.

(** The queue of a listening descriptor; a descriptor the kernel holds no
    queue for has nothing pending. *)
Definition queue (k : Kernel) (serverFd : Z) : list pending :=
  default [] (backlog k !! serverFd).

Definition set_backlog v (k : Kernel) : Kernel :=
  {| backlog := v; wouldblock_alt := wouldblock_alt k;
     accept4_reject := accept4_reject k; fcntl_fault := fcntl_fault k;
     nonblocking := nonblocking k; wakeups := wakeups k;
     write_fault := write_fault k; pipe_fault := pipe_fault k;
     pipe_fds := pipe_fds k |}.

Definition set_nonblocking v (k : Kernel) : Kernel :=
  {| backlog := backlog k; wouldblock_alt := wouldblock_alt k;
     accept4_reject := accept4_reject k; fcntl_fault := fcntl_fault k;
     nonblocking := v; wakeups := wakeups k;
     write_fault := write_fault k; pipe_fault := pipe_fault k;
     pipe_fds := pipe_fds k |}.

Definition set_wakeups v (k : Kernel) : Kernel :=
  {| backlog := backlog k; wouldblock_alt := wouldblock_alt k;
     accept4_reject := accept4_reject k; fcntl_fault := fcntl_fault k;
     nonblocking := nonblocking k; wakeups := v;
     write_fault := write_fault k; pipe_fault := pipe_fault k;
     pipe_fds := pipe_fds k |}.

(** Severity of a log line ([P_ERROR], [P_WARN], [P_NOTICE], [P_DEBUG]). *)
Inductive level := LError | LWarn | LNotice | LDebug.

(** Observable effects, recorded in the order in which they happen. *)
Inductive event :=
| SysAccept4 (serverFd flags : Z)
| SysAccept (serverFd : Z)
| SysSetNonBlocking (fd : Z)
| SysClose (fd : Z)
| SysPoll (fds : list Z) (timeout : Z)
| SysWrite (fd nbytes : Z)
| SysPipe
| Log (l : level) (code : Z)
| RunLater (worker : Z) (server : Z) (fd : Z)
| ThreadStart (t : Z)
| ThreadJoin (t : Z)
| ThreadDelete (t : Z).

Record World := {
  lb : AcceptLoadBalancer;
  kernel : Kernel;
  errno : Z;
  trace : list event
}.

Definition with_lb (f : AcceptLoadBalancer -> AcceptLoadBalancer) (w : World) : World :=
  {| lb := f (lb w); kernel := kernel w; errno := errno w; trace := trace w |}.

Definition with_kernel (f : Kernel -> Kernel) (w : World) : World :=
  {| lb := lb w; kernel := f (kernel w); errno := errno w; trace := trace w |}.

Definition with_errno (e : Z) (w : World) : World :=
  {| lb := lb w; kernel := kernel w; errno := e; trace := trace w |}.

Definition record (e : event) (w : World) : World :=
  {| lb := lb w; kernel := kernel w; errno := errno w; trace := trace w ++ [e] |}.

(** ** The monad *)

(** Ways in which a call fails to return a value: a thrown
    [SystemException] carrying an error code, a failed [assert], undefined
    behaviour (an array read out of bounds, a remainder by zero), a thread
    that stays blocked in a system call, and a model loop that was not given
    enough iterations. *)
Inductive failure :=
| SystemException (code : Z)
| AssertionFailed
| Undefined
| Blocked
| OutOfFuel.

Inductive outcome (A : Type) :=
| Ret (a : A)
| Raise (f : failure).
Arguments Ret {A} a.
Arguments Raise {A} f.

Definition M (A : Type) : Type := World -> outcome A * World.

Definition ret {A} (a : A) : M A := fun w => (Ret a, w).

Definition bind {A B} (m : M A) (k : A -> M B) : M B :=
  fun w => match m w with
           | (Ret a, w') => k a w'
           | (Raise f, w') => (Raise f, w')
           end.

Notation "x <- m ;; k" := (bind m (fun x => k))
  (at level 62, m at next level, right associativity).
Notation "m ;;; k" := (bind m (fun _ => k))
  (at level 62, right associativity).

Definition raise {A} (f : failure) : M A := fun w => (Raise f, w).

Definition gets {A} (f : World -> A) : M A := fun w => (Ret (f w), w).

Definition modify (f : World -> World) : M unit := fun w => (Ret tt, f w).

Definition emit (e : event) : M unit := modify (record e).

(** [try { m } catch (const SystemException &e) { h e.code() }] *)
Definition try_catch {A} (m : M A) (h : Z -> M A) : M A :=
  fun w => match m w with
           | (Raise (SystemException e), w') => h e w'
           | r => r
           end.

(** C++ array accesses: inside the bounds they read or overwrite one
    element; outside, the behaviour of the program is undefined. *)
Definition array_get {A} (arr : World -> list A) (i : Z) : M A :=
  fun w => match arr w !! Z.to_nat i with
           | Some v => (Ret v, w)
           | None => (Raise Undefined, w)
           end.

Definition array_upd {A} (arr : AcceptLoadBalancer -> list A)
    (store : list A -> AcceptLoadBalancer -> AcceptLoadBalancer)
    (i : Z) (f : A -> A) : M unit :=
  fun w => match arr (lb w) !! Z.to_nat i with
           | Some v => (Ret tt, with_lb (store (<[Z.to_nat i := f v]> (arr (lb w)))) w)
           | None => (Raise Undefined, w)
           end.

Section Methods.
Context `{Platform}.

(** ** System calls *)

Definition would_block (k : Kernel) : Z :=
  if wouldblock_alt k then EWOULDBLOCK else EAGAIN.

(** The kernel side of [accept] and [accept4]: take the head of the
    listener's queue.  [nb] tells whether the new descriptor is created in
    non-blocking mode. *)
Definition dequeue (serverFd : Z) (nb : bool) : M Z :=
  fun w =>
    let k := kernel w in
    match queue k serverFd with
    | [] => (Ret (-1), with_errno (would_block k) w)
    | Conn fd :: q =>
        let c := Z.of_N fd in
        (Ret c,
         with_kernel (fun k =>
           set_nonblocking (if nb then {[c]} ∪ nonblocking k else nonblocking k ∖ {[c]})
             (set_backlog (<[serverFd := q]> (backlog k)) k)) w)
    | Fault e :: q =>
        (Ret (-1),
         with_errno e (with_kernel (fun k => set_backlog (<[serverFd := q]> (backlog k)) k) w))
    end.

Definition callAccept4 (serverFd flags : Z) : M Z :=
  emit (SysAccept4 serverFd flags);;;
  rej <- gets (fun w => accept4_reject (kernel w));;
  match rej with
  | Some e => modify (with_errno e);;; ret (-1)
  | None => dequeue serverFd (bool_decide (flags = O_NONBLOCK))
  end.

Definition sys_accept (serverFd : Z) : M Z :=
  emit (SysAccept serverFd);;;
  dequeue serverFd false.

(** [setNonBlocking] of [Utils/IOUtils.h]: sets [O_NONBLOCK] on the
    descriptor, or throws a [SystemException] with the error code. *)
Definition setNonBlocking (fd : Z) : M unit :=
  emit (SysSetNonBlocking fd);;;
  flt <- gets (fun w => fcntl_fault (kernel w) !! fd);;
  match flt with
  | Some e => raise (SystemException e)
  | None => modify (with_kernel (fun k => set_nonblocking ({[fd]} ∪ nonblocking k) k))
  end.

Definition sys_close (fd : Z) : M unit := emit (SysClose fd).

(** [revents] of the first [n] entries are overwritten with what the
    wake-up reports. *)
Fixpoint fill_revents (n : nat) (ps : list pollfd) (rs : list Z) : list pollfd :=
  match n, ps with
  | S n', p :: ps' =>
      {| pfd := pfd p; events := events p; revents := hd 0 rs |}
        :: fill_revents n' ps' (tl rs)
  | _, _ => ps
  end.

(** The value [poll] returns: the number of entries with events. *)
Definition ready_count (ps : list pollfd) : Z :=
  Z.of_nat (length (List.filter (fun p => negb (revents p =? 0)) ps)).

(** [poll(pollers, nfds, timeout)] *)
Definition sys_poll (nfds timeout : Z) : M Z :=
  ps <- gets (fun w => pollers (lb w));;
  emit (SysPoll (map pfd (take (Z.to_nat nfds) ps)) timeout);;;
  ws <- gets (fun w => wakeups (kernel w));;
  match ws with
  | [] =>
      if timeout <? 0 then raise Blocked
      else
        modify (with_lb (set_pollers (fill_revents (Z.to_nat nfds) ps [])));;;
        ret 0
  | PollFail e :: rest =>
      modify (with_kernel (set_wakeups rest));;;
      modify (with_errno e);;;
      ret (-1)
  | PollEvents rs :: rest =>
      modify (with_kernel (set_wakeups rest));;;
      let ps' := fill_revents (Z.to_nat nfds) ps rs in
      modify (with_lb (set_pollers ps'));;;
      ret (ready_count (take (Z.to_nat nfds) ps'))
  end.

Definition sys_write (fd nbytes : Z) : M Z :=
  emit (SysWrite fd nbytes);;;
  flt <- gets (fun w => write_fault (kernel w));;
  match flt with
  | Some e => modify (with_errno e);;; ret (-1)
  | None => ret nbytes
  end.

Definition sys_pipe : M (Z * (Z * Z)) :=
  emit SysPipe;;;
  flt <- gets (fun w => pipe_fault (kernel w));;
  fds <- gets (fun w => pipe_fds (kernel w));;
  match flt with
  | Some e => modify (with_errno e);;; ret (-1, fds)
  | None => ret (0, fds)
  end.

(** ** Private methods *)

(** [pollers[i].fd = fd; pollers[i].events = POLLIN;] *)
Definition watch (i fd : Z) : M unit :=
  array_upd pollers set_pollers i
    (fun p => {| pfd := fd; events := POLLIN; revents := revents p |}).

(** The [for] loop of [pollAllEndpoints], with [n] iterations left. *)
Fixpoint watch_endpoints (n : nat) (i : Z) : M unit :=
  match n with
  | O => ret tt
  | S n' =>
      ep <- array_get (fun w => endpoints (lb w)) i;;
      watch (i + 1) ep;;;
      watch_endpoints n' (i + 1)
  end.

Definition pollAllEndpoints : M unit :=
  rfd <- gets (fun w => fst (exitPipe (lb w)));;
  watch 0 rfd;;;
  n <- gets (fun w => nEndpoints (lb w));;
  watch_endpoints (Z.to_nat n) 0;;;
  r <- sys_poll (n + 1) (-1);;
  if r =? -1 then
    e <- gets errno;;
    raise (SystemException e)
  else ret tt.

(** [acceptNonBlockingSocket], with a bound [depth] on the nesting of its
    calls to itself. *)
Fixpoint acceptNonBlockingSocket_rec (depth : nat) (serverFd : Z) : M Z :=
  match depth with
  | O => raise OutOfFuel
  | S depth' =>
      avail <- gets (fun w => accept4Available (lb w));;
      if avail then
        fd <- callAccept4 serverFd O_NONBLOCK;;
        e <- gets errno;;
        if (fd =? -1) && ((e =? ENOSYS) || (e =? EINVAL)) then
          modify (with_lb (set_accept4Available false));;;
          acceptNonBlockingSocket_rec depth' serverFd
        else ret fd
      else
        fd <- sys_accept serverFd;;
        if fd =? -1 then ret (-1)
        else
          try_catch
            (setNonBlocking fd;;; ret fd)
            (fun code =>
               emit (Log LDebug code);;;
               modify (with_errno code);;;
               sys_close fd;;;
               ret (-1))
  end.

(** The method as the loop calls it: two levels are all it ever uses (its
    totality is proved among the properties below). *)
Definition acceptNonBlockingSocket (serverFd : Z) : M Z :=
  acceptNonBlockingSocket_rec 2 serverFd.

(** The [for] loop of [acceptNewClients], with [n] iterations left; it
    returns the final [i], [error] and [errcode]. *)
Fixpoint accept_burst (n : nat) (i : Z) (endpoint : Z) : M (Z * bool * Z) :=
  match n with
  | O => ret (i, false, 0)
  | S n' =>
      fd <- acceptNonBlockingSocket endpoint;;
      if fd =? -1 then
        e <- gets errno;;
        ret (i, true, e)
      else
        array_upd newClients set_newClients i (fun _ => fd);;;
        accept_burst n' (i + 1) endpoint
  end.

Definition acceptNewClients (endpoint : Z) : M bool :=
  r <- accept_burst (Z.to_nat ACCEPT_BURST_COUNT) 0 endpoint;;
  let '(i, error, errcode) := r in
  modify (with_lb (set_newClientCount (bitfield 4 i)));;;
  if error && negb (errcode =? EAGAIN) && negb (errcode =? EWOULDBLOCK) then
    emit (Log LError errcode);;;
    rfd <- gets (fun w => fst (exitPipe (lb w)));;
    watch 0 rfd;;;
    n <- sys_poll 1 3;;
    (if n =? 1 then modify (with_lb (set_quit true))
     else emit (Log LNotice 0));;;
    ret false
  else ret true.

(** The [for] loop of [distributeNewClients], with [n] iterations left. *)
Fixpoint distribute_loop (n : nat) (i : Z) : M unit :=
  match n with
  | O => ret tt
  | S n' =>
      next <- gets (fun w => nextServer (lb w));;
      srv <- array_get (fun w => servers (lb w)) next;;
      fd <- array_get (fun w => newClients (lb w)) i;;
      emit (RunLater next srv fd);;;
      size <- gets (fun w => Z.of_nat (length (servers (lb w))));;
      if size =? 0 then raise Undefined
      else
        modify (with_lb (set_nextServer (uint (uint (next + 1) mod size))));;;
        distribute_loop n' (i + 1)
  end.

Definition distributeNewClients : M unit :=
  cnt <- gets (fun w => newClientCount (lb w));;
  distribute_loop (Z.to_nat cnt) 0;;;
  modify (with_lb (set_newClientCount 0)).

(** The [for] loop over the endpoints in [mainLoop], with [n] iterations
    left. *)
Fixpoint scan_endpoints (n : nat) (i : Z) : M unit :=
  match n with
  | O => ret tt
  | S n' =>
      p <- array_get (fun w => pollers (lb w)) (i + 1);;
      if negb (Z.land (revents p) POLLIN =? 0) then
        ep <- array_get (fun w => endpoints (lb w)) i;;
        ok <- acceptNewClients ep;;
        if ok then scan_endpoints n' (i + 1) else ret tt
      else scan_endpoints n' (i + 1)
  end.

(** One pass through the body of the [while] loop of [mainLoop]; the
    result tells whether the loop goes round again ([false]: it left through
    [break]). *)
Definition mainLoop_iteration : M bool :=
  pollAllEndpoints;;;
  p0 <- array_get (fun w => pollers (lb w)) 0;;
  if negb (Z.land (revents p0) POLLIN =? 0) then
    modify (with_lb (set_quit true));;;
    ret false
  else
    n <- gets (fun w => nEndpoints (lb w));;
    scan_endpoints (Z.to_nat n) 0;;;
    distributeNewClients;;;
    ret true.

(** [mainLoop], given [fuel] passes through its [while] loop. *)
Fixpoint mainLoop (fuel : nat) : M unit :=
  match fuel with
  | O => raise OutOfFuel
  | S fuel' =>
      q <- gets (fun w => quit (lb w));;
      if q then ret tt
      else
        again <- mainLoop_iteration;;
        if again then mainLoop fuel' else ret tt
  end.

(** ** Public methods *)

(** The constructor.  It runs on storage whose content is indeterminate:
    the fields it does not initialise ([nextServer] and the three arrays)
    keep whatever the storage held. *)
Definition AcceptLoadBalancer_ctor : M unit :=
  modify (with_lb (fun o =>
    set_servers []
      (set_thread None
        (set_newClientCount 0
          (set_quit false
            (set_accept4Available true
              (set_nEndpoints 0 o)))))));;;
  r <- sys_pipe;;
  if fst r =? -1 then
    e <- gets errno;;
    raise (SystemException e)
  else
    modify (with_lb (set_exitPipe (snd r)));;;
    try_catch
      (setNonBlocking (fst (snd r));;;
       setNonBlocking (snd (snd r)))
      (fun code =>
         sys_close (snd (snd r));;;
         sys_close (fst (snd r));;;
         raise (SystemException code)).

Definition listen (fd : Z) : M unit :=
  n <- gets (fun w => nEndpoints (lb w));;
  if n <? SERVER_KIT_MAX_SERVER_ENDPOINTS then
    setNonBlocking fd;;;
    array_upd endpoints set_endpoints n (fun _ => fd);;;
    modify (with_lb (set_nEndpoints (bitfield 2 (n + 1))))
  else raise AssertionFailed.

(** [start]; [t] is the thread object that [new oxt::thread] creates. *)
Definition start (t : Z) : M unit :=
  emit (ThreadStart t);;;
  modify (with_lb (set_thread (Some t))).

Definition shutdown : M unit :=
  th <- gets (fun w => thread (lb w));;
  match th with
  | Some t =>
      wfd <- gets (fun w => snd (exitPipe (lb w)));;
      r <- sys_write wfd 1;;
      (if r =? -1 then
         e <- gets errno;;
         if negb (e =? EAGAIN) && negb (e =? EWOULDBLOCK)
         then emit (Log LWarn e)
         else ret tt
       else ret tt);;;
      emit (ThreadJoin t);;;
      emit (ThreadDelete t);;;
      modify (with_lb (set_thread None))
  | None => ret tt
  end.


End Methods.

(** * Vocabulary of the properties *)

(** The events a computation added to the trace. *)
Definition emitted (w w' : World) : list event :=
  drop (length (trace w)) (trace w').

(** The events of the accept path. *)
Definition accept_path (e : event) : bool :=
  match e with
  | SysAccept4 _ _ | SysAccept _ | SysSetNonBlocking _ | SysClose _
  | Log LDebug _ => true
  | _ => false
  end.

(** The events that are calls of the combined accept-and-flags primitive. *)
Definition uses_accept4 (e : event) : bool :=
  match e with
  | SysAccept4 _ _ => true
  | _ => false
  end.

(** What an accept attempt leaves alone: in the object it changes at most
    the capability flag, from true to false; in the kernel at most the
    queues and the modes of descriptors; and it adds only events of the
    accept path to the trace, none of them a call of the combined primitive
    when the flag was already cleared. *)
Record accept_frame (w w' : World) : Prop := {
  af_lb : lb w' = lb w \/
          (accept4Available (lb w) = true /\
           lb w' = set_accept4Available false (lb w));
  af_reject : accept4_reject (kernel w') = accept4_reject (kernel w);
  af_fcntl : fcntl_fault (kernel w') = fcntl_fault (kernel w);
  af_alt : wouldblock_alt (kernel w') = wouldblock_alt (kernel w);
  af_wakeups : wakeups (kernel w') = wakeups (kernel w);
  af_write : write_fault (kernel w') = write_fault (kernel w);
  af_trace : exists evs,
      trace w' = trace w ++ evs /\
      forallb accept_path evs = true /\
      (accept4Available (lb w) = false ->
       forallb (fun e => negb (uses_accept4 e)) evs = true)
}.

(** The events that are calls of an accept primitive, combined or plain. *)
Definition accept_call (e : event) : bool :=
  match e with
  | SysAccept4 _ _ | SysAccept _ => true
  | _ => false
  end.

(** The combined primitive is out of use since the trace [t0]: the flag is
    cleared and no call of the primitive was recorded after [t0]. *)
Definition accept4_retired (t0 : list event) (w : World) : Prop :=
  accept4Available (lb w) = false /\
  exists evs, trace w = t0 ++ evs /\
              forallb (fun e => negb (uses_accept4 e)) evs = true.

(** What a burst leaves alone: in the object it changes at most the
    content of the burst buffer and the capability flag; in the kernel at
    most the queues and the modes of descriptors; and it adds only events of
    the accept path to the trace. *)
Record burst_frame (w w' : World) : Prop := {
  bf_lb : exists nc b,
      lb w' = set_newClients nc (set_accept4Available b (lb w)) /\
      length nc = length (newClients (lb w));
  bf_reject : accept4_reject (kernel w') = accept4_reject (kernel w);
  bf_fcntl : fcntl_fault (kernel w') = fcntl_fault (kernel w);
  bf_alt : wouldblock_alt (kernel w') = wouldblock_alt (kernel w);
  bf_wakeups : wakeups (kernel w') = wakeups (kernel w);
  bf_write : write_fault (kernel w') = write_fault (kernel w);
  bf_trace : exists evs,
      trace w' = trace w ++ evs /\ forallb accept_path evs = true
}.

(** The events that are waits. *)
Definition is_wait (e : event) : bool :=
  match e with
  | SysPoll _ _ => true
  | _ => false
  end.

(** The events of a cooldown: the error log line, a wait, the recovery
    notice. *)
Definition cooldown_event (e : event) : bool :=
  match e with
  | SysPoll _ _ | Log LError _ | Log LNotice _ => true
  | _ => false
  end.

(** The wake-up that the next [poll] returns reports an event on the first
    watched entry. *)
Definition control_fires (k : Kernel) : bool :=
  match wakeups k with
  | PollEvents (r :: _) :: _ => negb (r =? 0)
  | _ => false
  end.

(** The events that close a descriptor. *)
Definition is_close (e : event) : bool :=
  match e with
  | SysClose _ => true
  | _ => false
  end.

(** The events on which the placement of connections and the use of the
    combined primitive are read. *)
Definition key_event (e : event) : bool :=
  match e with
  | SysAccept4 _ _ | RunLater _ _ _ => true
  | _ => false
  end.

(** A step that touches neither the capability flag, nor the rotation
    cursor, nor the workers, and adds no key event to the trace. *)
Record quiet_step (w w' : World) : Prop := {
  qs_flag : accept4Available (lb w') = accept4Available (lb w);
  qs_next : nextServer (lb w') = nextServer (lb w);
  qs_servers : servers (lb w') = servers (lb w);
  qs_trace : exists evs, trace w' = trace w ++ evs /\
                         forallb (fun e => negb (key_event e)) evs = true
}.

(** One hand-off of [distributeNewClients]: the connection [fd] goes to
    the worker [srv] under the cursor, and the cursor moves on. *)
Definition dispatch_step (srv fd : Z) (w : World) : World :=
  let next := nextServer (lb w) in
  let size := Z.of_nat (length (servers (lb w))) in
  with_lb (set_nextServer (uint (uint (next + 1) mod size)))
    (record (RunLater next srv fd) w).

(** The hand-offs recorded in a trace, oldest first: the index of the
    worker and the connection. *)
Fixpoint dispatches (t : list event) : list (Z * Z) :=
  match t with
  | [] => []
  | RunLater i _ fd :: t' => (i, fd) :: dispatches t'
  | _ :: t' => dispatches t'
  end.

(** The connections worker [i] was handed, oldest first. *)
Definition received (i : Z) (t : list event) : list Z :=
  map snd (List.filter (fun p => fst p =? i) (dispatches t)).

(** The elements of [l] at positions [skip], [skip + n], [skip + 2n], ... *)
Fixpoint positions {A} (n skip : nat) (l : list A) : list A :=
  match l with
  | [] => []
  | x :: l' =>
      match skip with
      | O => x :: positions n (n - 1) l'
      | S s => positions n s l'
      end
  end.

(** The workers [ws] are taken in rotation among [N], starting at [off]. *)
Fixpoint rotation (N off : Z) (ws : list Z) : Prop :=
  match ws with
  | [] => True
  | x :: ws' => x = off /\ rotation N ((off + 1) mod N) ws'
  end.

(** The state of the rotation over the workers [srvs]: the hand-offs made
    so far went to workers 0, 1, 2, ... modulo the number of workers, and
    the cursor is the number of hand-offs modulo the number of workers. *)
Definition round_robin (srvs : list Z) (w : World) : Prop :=
  let N := Z.of_nat (length srvs) in
  let ds := dispatches (trace w) in
  servers (lb w) = srvs /\
  nextServer (lb w) = Z.of_nat (length ds) mod N /\
  map fst ds = map (fun k => Z.of_nat k mod N) (seq 0 (length ds)).

(** Setting the non-blocking flag succeeds on each of the descriptors. *)
Definition flags_settable (k : Kernel) (cs : list N) : Prop :=
  forall c, c ∈ cs -> fcntl_fault k !! Z.of_N c = None.

Section Vocabulary.
Context `{Platform}.

(** The body of [acceptNonBlockingSocket], with the call to itself left as
    a parameter. *)
Definition accept_attempt (retry : Z -> M Z) (serverFd : Z) : M Z :=
  avail <- gets (fun w => accept4Available (lb w));;
  if avail then
    fd <- callAccept4 serverFd O_NONBLOCK;;
    e <- gets errno;;
    if (fd =? -1) && ((e =? ENOSYS) || (e =? EINVAL)) then
      modify (with_lb (set_accept4Available false));;;
      retry serverFd
    else ret fd
  else acceptNonBlockingSocket_rec 1 serverFd.

(** The layout of the object: the sizes of its three arrays and the ranges
    of its two bit-fields, with no more endpoints than the arrays hold. *)
Definition well_formed (o : AcceptLoadBalancer) : Prop :=
  length (endpoints o) = Z.to_nat SERVER_KIT_MAX_SERVER_ENDPOINTS /\
  length (pollers o) = S (Z.to_nat SERVER_KIT_MAX_SERVER_ENDPOINTS) /\
  length (newClients o) = Z.to_nat ACCEPT_BURST_COUNT /\
  0 <= nEndpoints o < 2 ^ 2 /\
  nEndpoints o <= SERVER_KIT_MAX_SERVER_ENDPOINTS /\
  0 <= newClientCount o < 2 ^ 4.

(** The wake-up that the next [poll] returns reports the first watched
    entry readable. *)
Definition control_readable (k : Kernel) : Prop :=
  exists r rs rest,
    wakeups k = PollEvents (r :: rs) :: rest /\ Z.land r POLLIN <> 0.

(** The combined primitive either works or is rejected as unsupported. *)
Definition accept4_usable (k : Kernel) : Prop :=
  match accept4_reject k with
  | None => True
  | Some e => e = ENOSYS \/ e = EINVAL
  end.

(** The combined primitive was rejected as unsupported. *)
Definition unsupported (r : outcome Z * World) : Prop :=
  fst r = Ret (-1) /\ (errno (snd r) = ENOSYS \/ errno (snd r) = EINVAL).

(** The warning [shutdown] logs when the write to the exit pipe fails for
    another reason than a full pipe. *)
Definition write_warning (k : Kernel) : list event :=
  match write_fault k with
  | Some e =>
      if negb (e =? EAGAIN) && negb (e =? EWOULDBLOCK)
      then [Log LWarn e] else []
  | None => []
  end.

End Vocabulary.

(** ** Concrete platform and worlds *)

(** The values of Linux on x86-64, with four endpoints at most. *)
Definition linux : Platform :=
  {| EAGAIN := 11; EWOULDBLOCK := 11; ENOSYS := 38; EINVAL := 22;
     POLLIN := 1; O_NONBLOCK := 2048;
     SERVER_KIT_MAX_SERVER_ENDPOINTS := 4 |}.

(** Storage for an object, sized for [linux], every cell holding [g]. *)
Definition raw_object (g : Z) : AcceptLoadBalancer :=
  {| endpoints := replicate 4 g;
     pollers := replicate 5 {| pfd := g; events := g; revents := g |};
     newClients := replicate 16 g;
     nEndpoints := g mod 4; accept4Available := false; quit := true;
     newClientCount := g mod 16; nextServer := g; exitPipe := (g, g);
     thread := Some g; servers := [g] |}.

(** A kernel with the given queues, combined-primitive status and
    wake-ups, and no other fault. *)
Definition kernel_of (q : gmap Z (list pending)) (rej : option Z)
    (ws : list wakeup) : Kernel :=
  {| backlog := q; wouldblock_alt := false; accept4_reject := rej;
     fcntl_fault := ∅; nonblocking := ∅; wakeups := ws;
     write_fault := None; pipe_fault := None; pipe_fds := (3, 4) |}.

Definition world_of (o : AcceptLoadBalancer) (k : Kernel) : World :=
  {| lb := o; kernel := k; errno := 0; trace := [] |}.

(** An object as the constructor leaves it on [raw_object 7], with the
    given workers. *)
Definition fresh_object (workers : list Z) : AcceptLoadBalancer :=
  set_servers workers
    (set_exitPipe (3, 4)
      (set_thread None
        (set_newClientCount 0
          (set_quit false
            (set_accept4Available true
              (set_nEndpoints 0 (set_nextServer 0 (raw_object 7)))))))).

(** Two endpoints registered, both reported readable by the next wake-up:
    two connections wait on the first, one on the second. *)
Definition two_readable_endpoints : World :=
  world_of
    (set_nEndpoints 2
       (set_endpoints [10; 11; 7; 7] (fresh_object [100; 101; 102])))
    (kernel_of {[ 10 := [Conn 20%N; Conn 22%N]; 11 := [Conn 21%N] ]} None
       [PollEvents [0; 1; 1]]).

(** * Further vocabulary *)


(** A caller that registers the descriptors of a list, in order. *)
Fixpoint listen_all `{Platform} (fds : list Z) : M unit :=
  match fds with
  | [] => ret tt
  | fd :: fds' => listen fd;;; listen_all fds'
  end.

(** A kernel whose [pipe] fails with [e]. *)
Definition kernel_without_pipe (e : Z) : Kernel :=
  {| backlog := ∅; wouldblock_alt := false; accept4_reject := None;
     fcntl_fault := ∅; nonblocking := ∅; wakeups := [];
     write_fault := None; pipe_fault := Some e; pipe_fds := (3, 4) |}.

(** A kernel with the given queues and wake-ups on which setting the
    non-blocking flag fails, with [e], on the descriptor [fd]. *)
Definition kernel_with_flag_fault (q : gmap Z (list pending))
    (ws : list wakeup) (fd e : Z) : Kernel :=
  {| backlog := q; wouldblock_alt := false; accept4_reject := None;
     fcntl_fault := {[ fd := e ]}; nonblocking := ∅; wakeups := ws;
     write_fault := None; pipe_fault := None; pipe_fds := (3, 4) |}.

(** The poll entries [ps] once their first cells are armed for the
    descriptors [fds]: each such cell watches its descriptor for input and
    keeps its [revents]. *)
Fixpoint arm `{Platform} (fds : list Z) (ps : list pollfd) : list pollfd :=
  match fds, ps with
  | fd :: fds', p :: ps' =>
      {| pfd := fd; events := POLLIN; revents := revents p |} :: arm fds' ps'
  | _, _ => ps
  end.

(** What the primary wait watches: the read end of the exit pipe, then the
    registered endpoints in registration order. *)
Definition watched (o : AcceptLoadBalancer) : list Z :=
  fst (exitPipe o) :: take (Z.to_nat (nEndpoints o)) (endpoints o).

(** The wake-up [rs] reports entry [j] of the poll set readable. *)
Definition reports `{Platform} (rs : list Z) (j : nat) : bool :=
  negb (Z.land (nth j rs 0) POLLIN =? 0).

(** The endpoints registered with an object. *)
Definition registered (o : AcceptLoadBalancer) : list Z :=
  take (Z.to_nat (nEndpoints o)) (endpoints o).

(** The events the loop of the object [o] may add to the trace: accepts on
    the registered endpoints of [o], hand-overs to the worker that [o] holds
    at the recorded index, waits, changes of mode, closes and log lines; no
    write, no pipe, no thread operation. *)
Definition loop_event (o : AcceptLoadBalancer) (e : event) : bool :=
  match e with
  | SysAccept4 fd _ | SysAccept fd => bool_decide (fd ∈ registered o)
  | RunLater i srv _ => bool_decide (servers o !! Z.to_nat i = Some srv)
  | SysSetNonBlocking _ | SysClose _ | SysPoll _ _ | Log _ _ => true
  | SysWrite _ _ | SysPipe | ThreadStart _ | ThreadJoin _ | ThreadDelete _ =>
      false
  end.

(** A step that leaves the registration of the object alone (endpoints and
    their count, exit pipe, thread, workers) and adds only loop events of
    [o] to the trace. *)
Record loop_step (o : AcceptLoadBalancer) (w w' : World) : Prop := {
  ls_endpoints : endpoints (lb w') = endpoints (lb w);
  ls_nEndpoints : nEndpoints (lb w') = nEndpoints (lb w);
  ls_exitPipe : exitPipe (lb w') = exitPipe (lb w);
  ls_thread : thread (lb w') = thread (lb w);
  ls_servers : servers (lb w') = servers (lb w);
  ls_trace : exists evs, trace w' = trace w ++ evs /\
                         forallb (loop_event o) evs = true
}.

(** The events that are operations on the thread. *)
Definition is_thread_op (e : event) : bool :=
  match e with
  | ThreadStart _ | ThreadJoin _ | ThreadDelete _ => true
  | _ => false
  end.

(** * Properties *)

(** ** Reasoning principles for the monad *)

Lemma bind_gets {A B} (f : World -> A) (k : A -> M B) w :
  bind (gets f) k w = k (f w) w.
Proof. reflexivity. Qed.

Lemma bind_modify {B} (f : World -> World) (k : unit -> M B) w :
  bind (modify f) k w = k tt (f w).
Proof. reflexivity. Qed.

Lemma bind_emit {B} (e : event) (k : unit -> M B) w :
  bind (emit e) k w = k tt (record e w).
Proof. reflexivity. Qed.

Lemma bind_ret {A B} (a : A) (k : A -> M B) w : bind (ret a) k w = k a w.
Proof. reflexivity. Qed.

Lemma bind_raise {A B} (f : failure) (k : A -> M B) w :
  bind (raise f) k w = (Raise f, w).
Proof. reflexivity. Qed.

Lemma bind_assoc {A B C} (m : M A) (k : A -> M B) (h : B -> M C) w :
  bind (bind m k) h w = bind m (fun a => bind (k a) h) w.
Proof. unfold bind. destruct (m w) as [[a|f] w']; reflexivity. Qed.

(** When [m] returns, [bind m k] continues with [k]. *)
Lemma bind_Ret {A B} (m : M A) (k : A -> M B) w a w' :
  m w = (Ret a, w') -> bind m k w = k a w'.
Proof. intros E. unfold bind. rewrite E. reflexivity. Qed.

Lemma bind_Raise {A B} (m : M A) (k : A -> M B) w f w' :
  m w = (Raise f, w') -> bind m k w = (Raise f, w').
Proof. intros E. unfold bind. rewrite E. reflexivity. Qed.

(** A property of worlds kept by [m] and by every continuation is kept by
    [bind m k], whatever the outcome. *)
Lemma bind_keeps {A B} (I : World -> Prop) (m : M A) (k : A -> M B) w :
  I (snd (m w)) ->
  (forall a w', I w' -> I (snd (k a w'))) ->
  I (snd (bind m k w)).
Proof.
  intros Hm Hk. unfold bind. destruct (m w) as [[a|f] w']; cbn in *; auto.
Qed.

Lemma try_catch_keeps {A} (I : World -> Prop) (m : M A) (h : Z -> M A) w :
  I (snd (m w)) ->
  (forall e w', I w' -> I (snd (h e w'))) ->
  I (snd (try_catch m h w)).
Proof.
  intros Hm Hh. unfold try_catch.
  destruct (m w) as [[a|[e| | | |]] w']; cbn in *; auto.
Qed.


Lemma array_get_ok {A} (arr : World -> list A) i w v :
  arr w !! Z.to_nat i = Some v -> array_get arr i w = (Ret v, w).
Proof. intros E. unfold array_get. rewrite E. reflexivity. Qed.

Lemma emitted_app w w' evs : trace w' = trace w ++ evs -> emitted w w' = evs.
Proof. intros E. unfold emitted. rewrite E. apply drop_app_length. Qed.

Lemma filter_none {A} (P : A -> bool) l :
  forallb (fun e => negb (P e)) l = true -> List.filter P l = [].
Proof.
  induction l as [|a l IH]; cbn; [reflexivity|].
  intros [Ha Hl]%andb_prop. destruct (P a); [discriminate|auto].
Qed.

Ltac mstep :=
  first [ rewrite bind_assoc | rewrite bind_gets | rewrite bind_emit
        | rewrite bind_modify | rewrite bind_ret ];
  cbv beta.

Ltac mrun := repeat mstep.

Ltac trace_ext :=
  cbn [trace record with_lb with_kernel with_errno];
  first
    [ exists []; rewrite app_nil_r; repeat split; reflexivity
    | repeat rewrite <- app_assoc; cbn [app];
      eexists; split; [reflexivity|];
      first [ reflexivity
            | split; [reflexivity | intros; first [reflexivity | congruence]] ] ].

Section SingleAccept.
Context `{Platform}.

(** *** One accept attempt *)


Ltac accept_cases :=
  unfold callAccept4, sys_accept, dequeue, setNonBlocking, sys_close,
    try_catch, bind, gets, modify, emit, ret, raise;
  cbn;
  repeat (match goal with
          | |- context [match ?x with _ => _ end] =>
              lazymatch x with
              | context [match _ with _ => _ end] => fail
              | _ => destruct x eqn:?
              end
          end; cbn).

Lemma plain_accept_frame serverFd w :
  accept4Available (lb w) = false ->
  (exists fd, fst (acceptNonBlockingSocket_rec 1 serverFd w) = Ret fd) /\
  accept_frame w (snd (acceptNonBlockingSocket_rec 1 serverFd w)).
Proof.
  intros Hf. cbn [acceptNonBlockingSocket_rec]. rewrite bind_gets, Hf.
  accept_cases; (split; [eauto | split; auto; trace_ext]).
Qed.


Lemma accept_frame_refl w : accept_frame w w.
Proof. split; auto. exists []. rewrite app_nil_r. auto. Qed.


Lemma accept_frame_trans w1 w2 w3 :
  accept_frame w1 w2 -> accept_frame w2 w3 -> accept_frame w1 w3.
Proof.
  intros [L1 R1 F1 A1 W1 X1 (e1 & T1 & P1 & Q1)] [L2 R2 F2 A2 W2 X2 (e2 & T2 & P2 & Q2)].
  split; try congruence.
  - destruct L1 as [L1|[L1 L1']], L2 as [L2|[L2 L2']].
    + left. congruence.
    + right. rewrite <- L1. auto.
    + right. split; congruence.
    + rewrite L1' in L2. discriminate L2.
  - exists (e1 ++ e2). rewrite T2, T1, app_assoc, !forallb_app, P1, P2.
    repeat split. intros Hf. rewrite Q1, Q2; auto.
    destruct L1 as [L1|[L1 _]]; congruence.
Qed.


Lemma acceptNonBlockingSocket_rec_S d serverFd w :
  acceptNonBlockingSocket_rec (S d) serverFd w =
  accept_attempt (acceptNonBlockingSocket_rec d) serverFd w.
Proof.
  cbn [acceptNonBlockingSocket_rec]. unfold accept_attempt.
  rewrite !bind_gets. destruct (accept4Available (lb w)) eqn:Hf; [reflexivity|].
  cbn [acceptNonBlockingSocket_rec]. rewrite bind_gets, Hf. reflexivity.
Qed.

(** The combined primitive always returns, and leaves the object alone. *)
Lemma callAccept4_returns serverFd flags w :
  (exists fd, fst (callAccept4 serverFd flags w) = Ret fd) /\
  lb (snd (callAccept4 serverFd flags w)) = lb w.
Proof. accept_cases; eauto. Qed.

Lemma callAccept4_frame serverFd flags w :
  accept4Available (lb w) = true ->
  accept_frame w (snd (callAccept4 serverFd flags w)).
Proof.
  intros Hf. accept_cases; (split; auto; trace_ext).
Qed.

(** With the flag set, an attempt is the combined primitive, followed by
    the retry exactly when the primitive was rejected as unsupported. *)
Lemma accept_attempt_available retry serverFd w :
  accept4Available (lb w) = true ->
  let r := callAccept4 serverFd O_NONBLOCK w in
  (unsupported r /\
   accept_attempt retry serverFd w =
   retry serverFd (with_lb (set_accept4Available false) (snd r)))
  \/
  (~ unsupported r /\ accept_attempt retry serverFd w = r).
Proof.
  intros Hf. cbv zeta. unfold accept_attempt, unsupported. rewrite bind_gets, Hf.
  destruct (callAccept4_returns serverFd O_NONBLOCK w) as [[fd Hfd] _].
  destruct (callAccept4 serverFd O_NONBLOCK w) as [o w1] eqn:E.
  cbn [fst snd] in *. subst o. rewrite (bind_Ret _ _ _ _ _ E), bind_gets.
  destruct ((fd =? -1) && ((errno w1 =? ENOSYS) || (errno w1 =? EINVAL))) eqn:Ht.
  - left. rewrite bind_modify. split; [|reflexivity].
    apply andb_prop in Ht as [Ha Hb]. apply orb_prop in Hb.
    split; [f_equal; lia | lia].
  - right. split; [|reflexivity]. intros [Ha Hb].
    inversion Ha; subst fd. cbn in Ht.
    apply orb_false_elim in Ht. lia.
Qed.


Lemma acceptNonBlockingSocket_rec_plain d serverFd w :
  accept4Available (lb w) = false ->
  acceptNonBlockingSocket_rec (S d) serverFd w =
  acceptNonBlockingSocket_rec 1 serverFd w.
Proof.
  intros Hf. rewrite acceptNonBlockingSocket_rec_S. unfold accept_attempt.
  rewrite bind_gets, Hf. reflexivity.
Qed.

Lemma acceptNonBlockingSocket_frame serverFd w :
  (exists fd, fst (acceptNonBlockingSocket serverFd w) = Ret fd) /\
  accept_frame w (snd (acceptNonBlockingSocket serverFd w)).
Proof.
  unfold acceptNonBlockingSocket.
  destruct (accept4Available (lb w)) eqn:Hf.
  - rewrite acceptNonBlockingSocket_rec_S.
    destruct (callAccept4_returns serverFd O_NONBLOCK w) as (Hret & Hlb).
    pose proof (callAccept4_frame serverFd O_NONBLOCK w Hf) as Hfr.
    destruct (accept_attempt_available (acceptNonBlockingSocket_rec 1) serverFd w Hf)
      as [[_ ->]|[_ ->]]; [|auto].
    set (w1 := with_lb _ _).
    assert (Hf1 : accept4Available (lb w1) = false) by reflexivity.
    destruct (plain_accept_frame serverFd w1 Hf1) as [Hr Hp].
    split; [exact Hr|].
    eapply accept_frame_trans; [exact Hfr|].
    eapply accept_frame_trans; [|exact Hp].
    split; try reflexivity.
    + right. split; [congruence|reflexivity].
    + exists []. rewrite app_nil_r. auto.
  - rewrite acceptNonBlockingSocket_rec_plain by exact Hf.
    apply plain_accept_frame, Hf.
Qed.


(** C10: the single-accept operation returns from every world, whatever the
    capability flag: two nested levels of the method are always enough and
    more change nothing, that is, the call to itself is made at most once;
    with the flag cleared one level is enough, the plain-accept branch
    making no call to itself. *)
Theorem acceptNonBlockingSocket_rec_total serverFd w :
  (exists fd, fst (acceptNonBlockingSocket_rec 2 serverFd w) = Ret fd) /\
  (forall depth, (2 <= depth)%nat ->
     acceptNonBlockingSocket_rec depth serverFd w =
     acceptNonBlockingSocket_rec 2 serverFd w) /\
  (accept4Available (lb w) = false ->
   (exists fd, fst (acceptNonBlockingSocket_rec 1 serverFd w) = Ret fd) /\
   forall depth, (1 <= depth)%nat ->
     acceptNonBlockingSocket_rec depth serverFd w =
     acceptNonBlockingSocket_rec 1 serverFd w).
Proof.
  split; [apply (acceptNonBlockingSocket_frame serverFd w)|]. split.
  - intros [|[|d]] Hd; try lia.
    destruct (accept4Available (lb w)) eqn:Hf.
    + rewrite !acceptNonBlockingSocket_rec_S.
      destruct (accept_attempt_available
                  (acceptNonBlockingSocket_rec (S d)) serverFd w Hf)
        as [[Hu ->]|[Hu ->]];
      destruct (accept_attempt_available
                  (acceptNonBlockingSocket_rec 1) serverFd w Hf)
        as [[Hu' ->]|[Hu' ->]]; try tauto;
        apply acceptNonBlockingSocket_rec_plain; reflexivity.
    + rewrite (acceptNonBlockingSocket_rec_plain (S d)),
        (acceptNonBlockingSocket_rec_plain 1) by exact Hf.
      reflexivity.
  - intros Hf. split; [apply plain_accept_frame, Hf|].
    intros [|d] Hd; [lia|]. apply acceptNonBlockingSocket_rec_plain, Hf.
Qed.

End SingleAccept.

(** On a kernel without the combined primitive, a call made with ten
    levels behaves as with two. *)
Lemma acceptNonBlockingSocket_rec_total_witness :
  let w := world_of (fresh_object [100]) (kernel_of {[ 10 := [Conn 20%N] ]} (Some 38) []) in
  (2 <= 10)%nat /\
  @acceptNonBlockingSocket_rec linux 10 10 w = @acceptNonBlockingSocket_rec linux 2 10 w.
Proof.
  intros w. split; [lia|].
  apply (proj1 (proj2 (@acceptNonBlockingSocket_rec_total linux 10 w))). lia.
Defined.

(** ** Properties kept by the whole loop *)

Ltac destruct_inner :=
  match goal with
  | |- context [match ?x with _ => _ end] =>
      lazymatch x with
      | context [match _ with _ => _ end] => fail
      | _ => destruct x eqn:?
      end
  end.

Ltac quiet :=
  split; cbn [lb trace record with_lb with_kernel with_errno
              accept4Available nextServer servers
              set_pollers set_newClients set_newClientCount set_quit
              set_endpoints set_nEndpoints set_thread set_exitPipe];
  try reflexivity; trace_ext.

Lemma quiet_step_refl w : quiet_step w w.
Proof. split; auto. exists []. rewrite app_nil_r. auto. Qed.

Section LoopInvariant.
Context `{Platform}.
Variable I : World -> Prop.
Hypothesis I_quiet : forall w w', I w -> quiet_step w w' -> I w'.
Hypothesis I_accept :
  forall serverFd w, I w -> I (snd (acceptNonBlockingSocket serverFd w)).
Hypothesis I_dispatch :
  forall srv fd w, I w ->
    servers (lb w) !! Z.to_nat (nextServer (lb w)) = Some srv ->
    I (dispatch_step srv fd w).

Ltac prim :=
  intros;
  match goal with
  | HI : I ?w |- I _ => apply (I_quiet w); [exact HI|]
  end;
  unfold sys_poll, watch, array_upd, array_get, sys_write, sys_pipe, sys_close,
    setNonBlocking, try_catch, bind, gets, modify, emit, ret, raise;
  cbn -[Z.to_nat fill_revents ready_count take];
  repeat (destruct_inner; cbn -[Z.to_nat fill_revents ready_count take]);
  try first [apply quiet_step_refl | quiet].

Lemma sys_poll_keeps nfds timeout w : I w -> I (snd (sys_poll nfds timeout w)).
Proof. prim. Qed.

Lemma watch_keeps i fd w : I w -> I (snd (watch i fd w)).
Proof. prim. Qed.

Lemma store_newClient_keeps i fd w :
  I w -> I (snd (array_upd newClients set_newClients i (fun _ => fd) w)).
Proof. prim. Qed.

Lemma array_get_keeps {A} (arr : World -> list A) i w :
  I w -> I (snd (array_get arr i w)).
Proof. prim. Qed.

Lemma setNonBlocking_keeps fd w : I w -> I (snd (setNonBlocking fd w)).
Proof. prim. Qed.


Ltac keeps_step :=
  match goal with
  | |- I (snd (bind (gets _) _ _)) => rewrite bind_gets
  | |- I (snd (bind _ _ _)) => apply bind_keeps; [|intros ? ? ?]
  | |- I (snd ((if ?b then _ else _) _)) => destruct b
  | |- I (snd ((let '(_, _) := ?x in _) _)) => destruct x
  | |- I (snd (ret _ _)) => assumption
  | |- I (snd (raise _ _)) => assumption
  | |- I (snd (modify _ _)) => prim
  | |- I (snd (emit _ _)) => prim
  | |- I (snd (sys_close _ _)) => prim
  | |- I (snd (sys_poll _ _ _)) => apply sys_poll_keeps
  | |- I (snd (watch _ _ _)) => apply watch_keeps
  | |- I (snd (array_get _ _ _)) => apply array_get_keeps
  | |- I (snd (array_upd newClients _ _ _ _)) => apply store_newClient_keeps
  | |- I (snd (setNonBlocking _ _)) => apply setNonBlocking_keeps
  | |- I (snd (acceptNonBlockingSocket _ _)) => apply I_accept
  | |- I _ => assumption
  end.

Ltac keeps := intros; repeat keeps_step.

Lemma accept_burst_keeps n i endpoint w :
  I w -> I (snd (accept_burst n i endpoint w)).
Proof.
  revert i w. induction n as [|n IH]; intros i w HI; cbn [accept_burst].
  - exact HI.
  - keeps. apply IH. assumption.
Qed.

Lemma acceptNewClients_keeps endpoint w :
  I w -> I (snd (acceptNewClients endpoint w)).
Proof.
  intros HI. unfold acceptNewClients.
  apply bind_keeps; [apply accept_burst_keeps, HI|].
  intros [[i error] errcode] w1 H1. keeps.
Qed.

Lemma watch_endpoints_keeps n i w : I w -> I (snd (watch_endpoints n i w)).
Proof.
  revert i w. induction n as [|n IH]; intros i w HI; cbn [watch_endpoints].
  - exact HI.
  - keeps. apply IH. assumption.
Qed.

Lemma pollAllEndpoints_keeps w : I w -> I (snd (pollAllEndpoints w)).
Proof.
  intros HI. unfold pollAllEndpoints. keeps.
  apply watch_endpoints_keeps. assumption.
Qed.

Lemma distribute_loop_keeps n i w : I w -> I (snd (distribute_loop n i w)).
Proof.
  revert i w. induction n as [|n IH]; intros i w HI; cbn [distribute_loop].
  - exact HI.
  - rewrite bind_gets. unfold array_get at 1. unfold bind at 1.
    destruct (servers (lb w) !! Z.to_nat (nextServer (lb w))) as [srv|] eqn:Hs;
      [|exact HI].
    unfold array_get at 1. unfold bind at 1.
    destruct (newClients (lb w) !! Z.to_nat i) as [fd|]; [|exact HI].
    rewrite bind_emit, bind_gets.
    cbn [lb record].
    destruct (Z.of_nat (length (servers (lb w))) =? 0) eqn:Hz.
    + apply lookup_lt_Some in Hs. lia.
    + rewrite bind_modify. apply IH.
      apply (I_dispatch srv fd w HI Hs).
Qed.

Lemma distributeNewClients_keeps w : I w -> I (snd (distributeNewClients w)).
Proof.
  intros HI. unfold distributeNewClients. keeps.
  apply distribute_loop_keeps. assumption.
Qed.

Lemma scan_endpoints_keeps n i w : I w -> I (snd (scan_endpoints n i w)).
Proof.
  revert i w. induction n as [|n IH]; intros i w HI; cbn [scan_endpoints].
  - exact HI.
  - keeps; try (apply IH; assumption).
    apply acceptNewClients_keeps. assumption.
Qed.

Lemma mainLoop_iteration_keeps w : I w -> I (snd (mainLoop_iteration w)).
Proof.
  intros HI. unfold mainLoop_iteration. keeps.
  - apply pollAllEndpoints_keeps. assumption.
  - apply scan_endpoints_keeps. assumption.
  - apply distributeNewClients_keeps. assumption.
Qed.

Lemma mainLoop_keeps fuel w : I w -> I (snd (mainLoop fuel w)).
Proof.
  revert w. induction fuel as [|fuel IH]; intros w HI; cbn [mainLoop].
  - exact HI.
  - keeps; try (apply IH; assumption).
    apply mainLoop_iteration_keeps. assumption.
Qed.

End LoopInvariant.

(** ** The capability flag *)

Section CapabilityFlag.
Context `{Platform}.

Lemma AcceptLoadBalancer_ctor_flag w :
  accept4Available (lb (snd (AcceptLoadBalancer_ctor w))) = true.
Proof.
  unfold AcceptLoadBalancer_ctor, sys_pipe, setNonBlocking, sys_close,
    try_catch, bind, gets, modify, emit, ret, raise.
  cbn. repeat (destruct_inner; cbn); reflexivity.
Qed.

(** The plain path calls the plain accept once, first, and no accept
    primitive after it. *)
Lemma plain_accept_calls serverFd w :
  accept4Available (lb w) = false ->
  exists evs,
    trace (snd (acceptNonBlockingSocket_rec 1 serverFd w)) =
      trace w ++ SysAccept serverFd :: evs /\
    forallb (fun e => negb (accept_call e)) evs = true.
Proof.
  intros Hf. cbn [acceptNonBlockingSocket_rec]. rewrite bind_gets, Hf.
  unfold sys_accept, dequeue, setNonBlocking, sys_close,
    try_catch, bind, gets, modify, emit, ret, raise.
  cbn. repeat (destruct_inner; cbn).
  all: repeat rewrite <- app_assoc; cbn [app]; eexists; split; reflexivity.
Qed.

Lemma callAccept4_trace serverFd flags w :
  trace (snd (callAccept4 serverFd flags w)) =
  trace w ++ [SysAccept4 serverFd flags].
Proof.
  unfold callAccept4, dequeue, bind, gets, modify, emit, ret.
  cbn. repeat (destruct_inner; cbn); reflexivity.
Qed.

Lemma accept4_retired_quiet t0 w w' :
  accept4_retired t0 w -> quiet_step w w' -> accept4_retired t0 w'.
Proof.
  intros [Hf (evs & Ht & Hn)] [Qf _ _ (evs' & Ht' & Hn')]. split; [congruence|].
  exists (evs ++ evs'). rewrite Ht', Ht, app_assoc, forallb_app, Hn.
  split; [reflexivity|]. cbn.
  rewrite forallb_forall in Hn' |- *. intros e He.
  specialize (Hn' e He). destruct e; cbn in *; auto.
Qed.

Lemma accept4_retired_accept t0 serverFd w :
  accept4_retired t0 w ->
  accept4_retired t0 (snd (acceptNonBlockingSocket serverFd w)).
Proof.
  intros [Hf (evs & Ht & Hn)].
  destruct (acceptNonBlockingSocket_frame serverFd w)
    as [_ [L _ _ _ _ _ (evs' & Ht' & _ & Hn')]].
  split; [destruct L as [L|[L _]]; congruence|].
  exists (evs ++ evs'). rewrite Ht', Ht, app_assoc, forallb_app, Hn, Hn'; auto.
Qed.

Lemma accept4_retired_dispatch t0 srv fd w :
  accept4_retired t0 w -> accept4_retired t0 (dispatch_step srv fd w).
Proof.
  intros [Hf (evs & Ht & Hn)]. split; [exact Hf|].
  exists (evs ++ [RunLater (nextServer (lb w)) srv fd]).
  unfold dispatch_step. cbn. rewrite Ht, app_assoc, forallb_app, Hn.
  split; reflexivity.
Qed.

(** C6: the capability flag is true after construction; an accept attempt
    made with the flag set clears it exactly when the combined primitive
    fails with ENOSYS or EINVAL, and then completes as one run of the
    plain-accept path, so that the accept calls of the attempt are the
    rejected combined call followed by one plain accept; once the flag is
    cleared, a burst or any number of passes of the main loop leave it
    cleared and add no call of the combined primitive to the trace. *)
Theorem capability_flag_lifecycle :
  (forall w, accept4Available (lb (snd (AcceptLoadBalancer_ctor w))) = true) /\
  (forall serverFd w,
     accept4Available (lb w) = true ->
     let r := callAccept4 serverFd O_NONBLOCK w in
     let w' := snd (acceptNonBlockingSocket serverFd w) in
     (accept4Available (lb w') = false <-> unsupported r) /\
     (unsupported r ->
        acceptNonBlockingSocket serverFd w =
          acceptNonBlockingSocket_rec 1 serverFd
            (with_lb (set_accept4Available false) (snd r)) /\
        List.filter accept_call (emitted w w') =
          [SysAccept4 serverFd O_NONBLOCK; SysAccept serverFd]) /\
     (~ unsupported r -> acceptNonBlockingSocket serverFd w = r)) /\
  (forall w,
     accept4Available (lb w) = false ->
     (forall endpoint,
        accept4_retired (trace w) (snd (acceptNewClients endpoint w))) /\
     (forall fuel, accept4_retired (trace w) (snd (mainLoop fuel w)))).
Proof.
  split; [exact AcceptLoadBalancer_ctor_flag|]. split.
  - intros serverFd w Hf r w'. subst r w'. unfold acceptNonBlockingSocket.
    rewrite acceptNonBlockingSocket_rec_S.
    destruct (callAccept4_returns serverFd O_NONBLOCK w) as [_ Hlb].
    pose proof (callAccept4_trace serverFd O_NONBLOCK w) as Htr.
    destruct (accept_attempt_available
                (acceptNonBlockingSocket_rec 1) serverFd w Hf)
      as [[Hu E]|[Hu E]]; rewrite E.
    + set (w1 := with_lb _ _) in *.
      assert (Hf1 : accept4Available (lb w1) = false) by reflexivity.
      split; [|split; [|tauto]].
      * split; [intros _; exact Hu|intros _].
        destruct (plain_accept_frame serverFd w1 Hf1) as [_ [[L|[L _]] _ _ _ _ _ _]];
          congruence.
      * intros _. split; [reflexivity|].
        destruct (plain_accept_calls serverFd w1 Hf1) as (evs & Ht & Hn).
        rewrite (emitted_app w _
                   (SysAccept4 serverFd O_NONBLOCK :: SysAccept serverFd :: evs)).
        -- cbn. rewrite (filter_none _ _ Hn). reflexivity.
        -- rewrite Ht. subst w1. cbn [trace with_lb]. rewrite Htr.
           rewrite <- app_assoc. reflexivity.
    + split; [|split; [tauto|auto]].
      split; [|tauto]. rewrite Hlb, Hf. discriminate.
  - intros w Hf.
    assert (H0 : accept4_retired (trace w) w).
    { split; [exact Hf|]. exists []. rewrite app_nil_r. auto. }
    split.
    + intros endpoint.
      apply (acceptNewClients_keeps _
               (accept4_retired_quiet _) (accept4_retired_accept _)), H0.
    + intros fuel.
      apply (mainLoop_keeps _
               (accept4_retired_quiet _) (accept4_retired_accept _)); [|exact H0].
      intros srv fd w0 Hw0 _. apply accept4_retired_dispatch, Hw0.
Qed.

End CapabilityFlag.

(** With the flag cleared and two connections waiting on a readable
    endpoint, the loop serves them without the combined primitive. *)
Lemma capability_flag_lifecycle_witness :
  let w := world_of
             (set_accept4Available false
                (set_nEndpoints 1 (set_endpoints [10; 7; 7; 7] (fresh_object [100; 101]))))
             (kernel_of {[ 10 := [Conn 20%N; Conn 21%N] ]} None [PollEvents [0; 1]]) in
  accept4Available (lb w) = false /\
  accept4_retired (trace w) (snd (@mainLoop linux 2 w)).
Proof.
  intros w. split; [reflexivity|].
  apply (proj2 (proj2 (proj2 (@capability_flag_lifecycle linux)) w eq_refl)).
Defined.

(** ** Round-robin placement *)

Lemma positions_lookup {A} (n i j : nat) (l : list A) :
  (0 < n)%nat -> positions n i l !! j = l !! (i + j * n)%nat.
Proof.
  intros Hn. revert i j. induction l as [|x l IH]; intros i j; cbn [positions].
  - rewrite !lookup_nil. reflexivity.
  - destruct i as [|s].
    + destruct j as [|j]; [reflexivity|].
      cbn [lookup list_lookup]. rewrite IH.
      replace (0 + S j * n)%nat with (S (n - 1 + j * n)) by lia. reflexivity.
    + rewrite IH. reflexivity.
Qed.

Lemma mod_sub_cases N a b :
  0 <= a < N -> 0 <= b < N ->
  (a - b) mod N = if b <=? a then a - b else a - b + N.
Proof.
  intros Ha Hb. destruct (b <=? a) eqn:E.
  - apply Z.mod_small. lia.
  - symmetry. apply (Z.mod_unique _ _ (-1)); lia.
Qed.

Lemma mod_succ_cases N a :
  0 <= a < N -> (a + 1) mod N = if a + 1 <? N then a + 1 else 0.
Proof.
  intros Ha. destruct (a + 1 <? N) eqn:E.
  - apply Z.mod_small. lia.
  - symmetry. apply (Z.mod_unique _ _ 1); lia.
Qed.

Lemma received_positions N off i (ds : list (Z * Z)) :
  0 <= off < N -> 0 <= i < N ->
  rotation N off (map fst ds) ->
  map snd (List.filter (fun p => fst p =? i) ds) =
  positions (Z.to_nat N) (Z.to_nat ((i - off) mod N)) (map snd ds).
Proof.
  intros Hoff Hi. revert off Hoff.
  induction ds as [|[x c] ds IH]; intros off Hoff Hr; [reflexivity|].
  cbn in Hr. destruct Hr as [-> Hr].
  assert (Hoff' : 0 <= (off + 1) mod N < N) by (apply Z.mod_pos_bound; lia).
  specialize (IH _ Hoff' Hr).
  cbn [List.filter map fst snd positions].
  rewrite (mod_sub_cases N i off) by lia.
  rewrite (mod_sub_cases N i ((off + 1) mod N)) in IH by lia.
  rewrite (mod_succ_cases N off) in IH by lia.
  destruct (off =? i) eqn:E.
  - assert (off = i) by lia. subst off.
    rewrite Z.leb_refl, Z.sub_diag. cbn [Z.to_nat map snd]. f_equal.
    rewrite IH. f_equal.
    destruct (i + 1 <? N) eqn:E1.
    + replace (i + 1 <=? i) with false by lia. lia.
    + replace (0 <=? i) with true by lia. lia.
  - rewrite IH.
    destruct (off <=? i) eqn:E2.
    + replace (Z.to_nat (i - off)) with (S (Z.to_nat (i - off - 1))) by lia.
      f_equal. destruct (off + 1 <? N) eqn:E1.
      * replace (off + 1 <=? i) with true by lia. lia.
      * lia.
    + replace (Z.to_nat (i - off + N)) with (S (Z.to_nat (i - off + N - 1))) by lia.
      f_equal. destruct (off + 1 <? N) eqn:E1.
      * replace (off + 1 <=? i) with false by lia. lia.
      * replace (0 <=? i) with true by lia. lia.
Qed.

Lemma rotation_seq N a len :
  0 < N ->
  rotation N (Z.of_nat a mod N)
    (map (fun k => Z.of_nat k mod N) (seq a len)).
Proof.
  intros HN. revert a. induction len as [|len IH]; intros a; cbn; [exact Logic.I|].
  split; [reflexivity|].
  rewrite Zplus_mod_idemp_l.
  replace (Z.of_nat a + 1) with (Z.of_nat (S a)) by lia. apply IH.
Qed.

Lemma dispatches_app t1 t2 :
  dispatches (t1 ++ t2) = dispatches t1 ++ dispatches t2.
Proof.
  induction t1 as [|e t1 IH]; [reflexivity|].
  destruct e; cbn; rewrite ?IH; reflexivity.
Qed.

Lemma dispatches_quiet evs :
  forallb (fun e => negb (key_event e)) evs = true -> dispatches evs = [].
Proof.
  induction evs as [|e evs IH]; [reflexivity|].
  cbn [forallb]. intros [He Hevs]%andb_prop.
  destruct e; cbn in *; auto; discriminate.
Qed.

Lemma dispatches_accept_path evs :
  forallb accept_path evs = true -> dispatches evs = [].
Proof.
  induction evs as [|e evs IH]; [reflexivity|].
  cbn [forallb]. intros [He Hevs]%andb_prop.
  destruct e; cbn in *; auto; discriminate.
Qed.

(** The cursor arithmetic of [distributeNewClients]: on a cursor inside
    the workers, one more modulo their number. *)
Lemma cursor_advance N K :
  0 < N <= 2 ^ 32 -> 0 <= K ->
  uint (uint (K mod N + 1) mod N) = (K + 1) mod N.
Proof.
  intros HN HK. unfold uint.
  pose proof (Z.mod_pos_bound K N ltac:(lia)) as Hb.
  assert (E : (K + 1) mod N = (K mod N + 1) mod N)
    by (rewrite Zplus_mod_idemp_l; reflexivity).
  rewrite E.
  destruct (Z.eq_dec (K mod N + 1) (2 ^ 32)) as [Hw|Hw].
  - rewrite Hw, Z.mod_same by lia. assert (N = 2 ^ 32) by lia. subst N.
    rewrite Z.mod_same by lia. reflexivity.
  - rewrite (Z.mod_small (K mod N + 1) (2 ^ 32)) by lia.
    apply Z.mod_small.
    pose proof (Z.mod_pos_bound (K mod N + 1) N ltac:(lia)). lia.
Qed.

Lemma set_nextServer_same o : set_nextServer (nextServer o) o = o.
Proof. destruct o; reflexivity. Qed.

(** The loop of [distributeNewClients] hands the connections over in the
    order of the buffer, to consecutive slots of the rotation. *)
Lemma distribute_loop_order n i w :
  let N := Z.of_nat (length (servers (lb w))) in
  let c := nextServer (lb w) in
  0 < N <= 2 ^ 32 -> 0 <= c < N -> 0 <= i ->
  (Z.to_nat i + n <= length (newClients (lb w)))%nat ->
  exists w',
    distribute_loop n i w = (Ret tt, w') /\
    lb w' = set_nextServer ((c + Z.of_nat n) mod N) (lb w) /\
    exists evs,
      trace w' = trace w ++ evs /\
      dispatches evs =
        imap (fun j fd => ((c + Z.of_nat j) mod N, fd))
          (take n (drop (Z.to_nat i) (newClients (lb w)))).
Proof.
  cbv zeta. revert i w.
  induction n as [|n IH]; intros i w HN Hc Hi Hlen; cbn [distribute_loop].
  - exists w. split; [reflexivity|]. split.
    + rewrite Z.add_0_r, Z.mod_small by lia. symmetry. apply set_nextServer_same.
    + exists []. rewrite app_nil_r. split; reflexivity.
  - rewrite bind_gets. unfold array_get at 1. unfold bind at 1.
    destruct (servers (lb w) !! Z.to_nat (nextServer (lb w))) as [srv|] eqn:Hs.
    2:{ apply lookup_ge_None in Hs. exfalso. lia. }
    unfold array_get at 1. unfold bind at 1.
    destruct (newClients (lb w) !! Z.to_nat i) as [fd|] eqn:Hfd.
    2:{ apply lookup_ge_None in Hfd. exfalso. lia. }
    rewrite bind_emit, bind_gets. cbn [lb record].
    replace (Z.of_nat (length (servers (lb w))) =? 0) with false by lia.
    rewrite bind_modify. fold (dispatch_step srv fd w).
    set (w1 := dispatch_step srv fd w).
    assert (Hc1 : nextServer (lb w1) =
                  (nextServer (lb w) + 1) mod Z.of_nat (length (servers (lb w)))).
    { subst w1. unfold dispatch_step. cbn.
      rewrite <- (Z.mod_small (nextServer (lb w)) (Z.of_nat (length (servers (lb w))))) at 1 by lia.
      apply cursor_advance; lia. }
    assert (Hsv : servers (lb w1) = servers (lb w)) by reflexivity.
    assert (Hnc : newClients (lb w1) = newClients (lb w)) by reflexivity.
    destruct (IH (i + 1) w1) as (w' & E & Hlb & evs & Ht & Hd).
    + rewrite Hsv. exact HN.
    + rewrite Hsv, Hc1. apply Z.mod_pos_bound. lia.
    + lia.
    + rewrite Hnc. lia.
    + rewrite Hsv, Hnc in *. exists w'. split; [exact E|]. split.
      * rewrite Hlb, Hc1, Zplus_mod_idemp_l.
        replace (nextServer (lb w) + 1 + Z.of_nat n)
          with (nextServer (lb w) + Z.of_nat (S n)) by lia.
        subst w1. unfold dispatch_step. cbn. reflexivity.
      * exists (RunLater (nextServer (lb w)) srv fd :: evs). split.
        -- rewrite Ht. subst w1. unfold dispatch_step. cbn.
           rewrite <- app_assoc. reflexivity.
        -- cbn [dispatches]. rewrite Hd.
           rewrite (drop_S _ _ _ Hfd). cbn [take imap].
           rewrite Z.add_0_r, Z.mod_small by lia. f_equal.
           replace (Z.to_nat (i + 1)) with (S (Z.to_nat i)) by lia.
           apply imap_ext. intros j x _. unfold compose. cbn beta.
           rewrite Hc1, Zplus_mod_idemp_l. do 2 f_equal. lia.
Qed.

Section RoundRobin.
Context `{Platform}.
Variable srvs : list Z.
Hypothesis workers : 0 < Z.of_nat (length srvs) <= 2 ^ 32.

Lemma round_robin_quiet w w' :
  round_robin srvs w -> quiet_step w w' -> round_robin srvs w'.
Proof.
  unfold round_robin. intros (Hs & Hn & Hd) [_ Qn Qs (evs & Ht & Hq)].
  rewrite Ht, dispatches_app, (dispatches_quiet _ Hq), app_nil_r.
  repeat split; congruence.
Qed.

Lemma round_robin_accept serverFd w :
  round_robin srvs w ->
  round_robin srvs (snd (acceptNonBlockingSocket serverFd w)).
Proof.
  unfold round_robin. intros (Hs & Hn & Hd).
  destruct (acceptNonBlockingSocket_frame serverFd w)
    as [_ [L _ _ _ _ _ (evs & Ht & Hp & _)]].
  rewrite Ht, dispatches_app, (dispatches_accept_path _ Hp), app_nil_r.
  destruct L as [->|[_ ->]]; repeat split; assumption.
Qed.

Lemma round_robin_dispatch srv fd w :
  round_robin srvs w -> round_robin srvs (dispatch_step srv fd w).
Proof.
  unfold round_robin, dispatch_step. intros (Hs & Hn & Hd).
  cbn [lb trace record with_lb servers nextServer set_nextServer].
  rewrite dispatches_app. cbn [dispatches].
  rewrite length_app, Nat.add_1_r. cbn [length].
  rewrite Hs, Hn, map_app, Hd, seq_S, map_app. cbn [map fst].
  repeat split.
  rewrite cursor_advance by lia. f_equal. lia.
Qed.

Lemma mainLoop_round_robin fuel w :
  round_robin srvs w -> round_robin srvs (snd (mainLoop fuel w)).
Proof.
  apply (mainLoop_keeps _ round_robin_quiet round_robin_accept).
  intros srv fd w0 Hw0 _. apply round_robin_dispatch, Hw0.
Qed.

End RoundRobin.

Section Fairness.
Context `{Platform}.

(** C3: with N workers, 1 <= N (and N within the range of the cursor's
    type), each hand-off moves a cursor that is inside the workers to the
    next one modulo N; one distribution hands the connections of the buffer
    over in buffer order, to consecutive slots of the rotation; and in a run
    of the main loop that starts with the cursor at 0, whatever the
    endpoints, the wake-ups and the number of passes, the cursor stays
    within [0, N), the k-th connection handed over goes to worker k mod N,
    and worker i has received exactly the connections at positions i, i+N,
    i+2N, ... of the sequence of connections handed over. *)
Theorem round_robin_fairness (srvs : list Z) :
  let N := Z.of_nat (length srvs) in
  0 < N <= 2 ^ 32 ->
  (forall srv fd w,
     servers (lb w) = srvs -> 0 <= nextServer (lb w) < N ->
     nextServer (lb (dispatch_step srv fd w)) = (nextServer (lb w) + 1) mod N) /\
  (forall w,
     servers (lb w) = srvs -> 0 <= nextServer (lb w) < N ->
     0 <= newClientCount (lb w) <= Z.of_nat (length (newClients (lb w))) ->
     exists w',
       distributeNewClients w = (Ret tt, w') /\
       nextServer (lb w') = (nextServer (lb w) + newClientCount (lb w)) mod N /\
       dispatches (emitted w w') =
         imap (fun j fd => ((nextServer (lb w) + Z.of_nat j) mod N, fd))
           (take (Z.to_nat (newClientCount (lb w))) (newClients (lb w)))) /\
  (forall fuel w,
     servers (lb w) = srvs -> nextServer (lb w) = 0 ->
     dispatches (trace w) = [] ->
     let w' := snd (mainLoop fuel w) in
     let ds := dispatches (trace w') in
     0 <= nextServer (lb w') < N /\
     nextServer (lb w') = Z.of_nat (length ds) mod N /\
     (forall k i fd, ds !! k = Some (i, fd) -> i = Z.of_nat k mod N) /\
     (forall i, (i < length srvs)%nat ->
        received (Z.of_nat i) (trace w') =
          positions (length srvs) i (map snd ds) /\
        forall j, received (Z.of_nat i) (trace w') !! j =
                  map snd ds !! (i + j * length srvs)%nat)).
Proof.
  intros N HN. split; [|split].
  - intros srv fd w Hs Hc. unfold dispatch_step. cbn. rewrite Hs. fold N.
    rewrite <- (Z.mod_small (nextServer (lb w)) N) at 1 by lia.
    apply cursor_advance; lia.
  - intros w Hs Hc Hcnt. unfold distributeNewClients. rewrite bind_gets.
    destruct (distribute_loop_order (Z.to_nat (newClientCount (lb w))) 0 w)
      as (w1 & E & Hlb & evs & Ht & Hd);
      try (rewrite ?Hs; fold N; lia).
    rewrite (bind_Ret _ _ _ _ _ E). eexists. split; [reflexivity|].
    cbn [lb with_lb trace]. rewrite Hlb, Hs in *. fold N in Hd |- *. cbn.
    split; [f_equal; lia|].
    rewrite (emitted_app w _ evs) by exact Ht. exact Hd.
  - intros fuel w Hs Hc Hd w' ds.
    assert (H0 : round_robin srvs w).
    { unfold round_robin. rewrite Hd, Hc. cbn. rewrite Z.mod_0_l by lia. auto. }
    apply (mainLoop_round_robin srvs HN fuel) in H0.
    fold w' in H0. unfold round_robin in H0. fold ds N in H0.
    destruct H0 as (Hs' & Hn' & Hm).
    split; [rewrite Hn'; apply Z.mod_pos_bound; lia|].
    split; [exact Hn'|]. split.
    + intros k i fd Hk.
      assert (Hk' : map fst ds !! k = Some i)
        by (rewrite list_lookup_fmap, Hk; reflexivity).
      rewrite Hm, list_lookup_fmap in Hk'.
      destruct (seq 0 (length ds) !! k) as [k'|] eqn:Hseq; [|discriminate].
      apply lookup_seq in Hseq as [-> _]. cbn in Hk'. congruence.
    + intros i Hi.
      assert (Hrec : received (Z.of_nat i) (trace w') =
                     positions (length srvs) i (map snd ds)).
      { unfold received. fold ds.
        rewrite (received_positions N 0 (Z.of_nat i) ds) by
          (try lia; rewrite Hm;
           rewrite <- (Z.mod_0_l N) at 1 by lia;
           apply (rotation_seq N 0); lia).
        rewrite Z.sub_0_r, Z.mod_small by lia. unfold N.
        rewrite !Nat2Z.id. reflexivity. }
      split; [exact Hrec|]. intros j. rewrite Hrec.
      apply positions_lookup. lia.
Qed.

End Fairness.

(** Three workers, two endpoints with connections waiting on both: the
    cursor advances past the connections handed over. *)
Lemma round_robin_fairness_witness :
  let w := world_of
             (set_nEndpoints 2 (set_endpoints [10; 11; 7; 7] (fresh_object [100; 101; 102])))
             (kernel_of {[ 10 := [Conn 20%N]; 11 := [Conn 21%N; Conn 22%N] ]} None
                [PollEvents [0; 0; 1]; PollEvents [0; 1; 0]]) in
  (0 < 3 <= 2 ^ 32) /\
  0 <= nextServer (lb (snd (@mainLoop linux 2 w))) < 3.
Proof.
  intros w. split; [lia|].
  apply (proj2 (proj2 (@round_robin_fairness linux [100; 101; 102] ltac:(cbn; lia)))
           2%nat w eq_refl eq_refl eq_refl).
Defined.

(** ** The primary wait *)

Section PrimaryWait.
Context `{Platform}.

Lemma watch_ok i fd w p :
  pollers (lb w) !! Z.to_nat i = Some p ->
  watch i fd w =
  (Ret tt,
   with_lb (set_pollers
     (<[Z.to_nat i := {| pfd := fd; events := POLLIN; revents := revents p |}]>
        (pollers (lb w)))) w).
Proof. intros Hp. unfold watch, array_upd. rewrite Hp. reflexivity. Qed.

Lemma watch_endpoints_ok n i w :
  0 <= i ->
  (Z.to_nat i + n <= length (endpoints (lb w)))%nat ->
  (Z.to_nat i + n < length (pollers (lb w)))%nat ->
  exists ps,
    watch_endpoints n i w = (Ret tt, with_lb (set_pollers ps) w) /\
    length ps = length (pollers (lb w)).
Proof.
  revert i w. induction n as [|n IH]; intros i w Hi He Hp; cbn [watch_endpoints].
  - exists (pollers (lb w)). split; [|reflexivity].
    unfold ret. f_equal. destruct w as [[] ? ? ?]; reflexivity.
  - unfold array_get at 1. unfold bind at 1.
    destruct (endpoints (lb w) !! Z.to_nat i) as [ep|] eqn:Hep.
    2:{ apply lookup_ge_None in Hep. exfalso. lia. }
    destruct (pollers (lb w) !! Z.to_nat (i + 1)) as [p|] eqn:Hpp.
    2:{ apply lookup_ge_None in Hpp. exfalso. lia. }
    rewrite (bind_Ret _ _ _ _ _ (watch_ok (i + 1) ep w p Hpp)).
    set (w1 := with_lb _ w).
    destruct (IH (i + 1) w1) as (ps & E & Hl).
    + lia.
    + subst w1. cbn. lia.
    + subst w1. cbn. rewrite length_insert. lia.
    + exists ps. split.
      * rewrite E. reflexivity.
      * rewrite Hl. subst w1. cbn. apply length_insert.
Qed.

Lemma sys_poll_events nfds timeout w rs rest :
  wakeups (kernel w) = PollEvents rs :: rest ->
  let n := Z.to_nat nfds in
  let ps := pollers (lb w) in
  let ps' := fill_revents n ps rs in
  sys_poll nfds timeout w =
  (Ret (ready_count (take n ps')),
   with_lb (set_pollers ps')
     (with_kernel (set_wakeups rest)
        (record (SysPoll (map pfd (take n ps)) timeout) w))).
Proof.
  intros Hw. cbv zeta. unfold sys_poll.
  rewrite bind_gets, bind_emit, bind_gets.
  cbn [kernel record]. rewrite Hw. reflexivity.
Qed.

Lemma ready_count_nonneg ps : 0 <= ready_count ps.
Proof. unfold ready_count. lia. Qed.

(** A wake-up with events makes [pollAllEndpoints] return, with the
    [revents] of the control channel as reported, after one wait without
    timeout and nothing else. *)
Lemma pollAllEndpoints_wakeup w rs rest :
  well_formed (lb w) ->
  wakeups (kernel w) = PollEvents rs :: rest ->
  exists w' p0 fds,
    pollAllEndpoints w = (Ret tt, w') /\
    pollers (lb w') !! 0%nat = Some p0 /\ revents p0 = hd 0 rs /\
    lb w' = set_pollers (pollers (lb w')) (lb w) /\
    kernel w' = set_wakeups rest (kernel w) /\
    trace w' = trace w ++ [SysPoll fds (-1)].
Proof.
  intros (He & Hp & _ & Hn & Hm & _) Hw. unfold pollAllEndpoints.
  rewrite bind_gets.
  destruct (pollers (lb w)) as [|q0 qs] eqn:Hps; [discriminate|].
  rewrite (bind_Ret _ _ _ _ _ (watch_ok 0 _ w q0 ltac:(rewrite Hps; reflexivity))).
  set (w1 := with_lb _ w). rewrite bind_gets.
  destruct (watch_endpoints_ok (Z.to_nat (nEndpoints (lb w1))) 0 w1)
    as (ps & E & Hl).
  - lia.
  - subst w1. cbn. lia.
  - subst w1. cbn. rewrite length_insert, Hps, Hp. lia.
  - rewrite (bind_Ret _ _ _ _ _ E).
    destruct ps as [|p ps]; [subst w1; cbn in Hl; rewrite length_insert, Hps in Hl; discriminate|].
    rewrite (bind_Ret _ _ _ _ _
               (sys_poll_events _ (-1) (with_lb (set_pollers (p :: ps)) w1) rs rest Hw)).
    match goal with
    | |- context [ready_count ?l =? -1] =>
        pose proof (ready_count_nonneg l);
        replace (ready_count l =? -1) with false by lia
    end.
    replace (nEndpoints (lb w1)) with (nEndpoints (lb w)) by reflexivity.
    replace (Z.to_nat (nEndpoints (lb w) + 1))
      with (S (Z.to_nat (nEndpoints (lb w)))) by lia.
    eexists _, _, _. split; [reflexivity|].
    cbn. repeat split.
Qed.


(** C8: when the primary wait reports the control channel readable, the
    loop sets the quit flag and returns at once: the pass consists of that
    one wait, no accept is attempted and nothing is handed to a worker,
    whatever the wake-up reports about the endpoints; their queues, the
    burst buffer, its count and the cursor are as before. *)
Theorem control_channel_priority fuel w :
  well_formed (lb w) ->
  quit (lb w) = false ->
  control_readable (kernel w) ->
  exists w' fds,
    mainLoop (S fuel) w = (Ret tt, w') /\
    quit (lb w') = true /\
    emitted w w' = [SysPoll fds (-1)] /\
    backlog (kernel w') = backlog (kernel w) /\
    newClients (lb w') = newClients (lb w) /\
    newClientCount (lb w') = newClientCount (lb w) /\
    nextServer (lb w') = nextServer (lb w).
Proof.
  intros Hwf Hq (r & rs & rest & Hw & Hr).
  destruct (pollAllEndpoints_wakeup w (r :: rs) rest Hwf Hw)
    as (w1 & p0 & fds & E & Hp0 & Hrev & Hlb & Hk & Ht).
  cbn [mainLoop]. rewrite bind_gets, Hq. unfold mainLoop_iteration.
  rewrite bind_assoc, (bind_Ret _ _ _ _ _ E).
  rewrite bind_assoc.
  rewrite (bind_Ret _ _ _ _ _
             (array_get_ok (fun w => pollers (lb w)) 0 w1 p0 Hp0)).
  rewrite Hrev. cbn [hd].
  replace (Z.land r POLLIN =? 0) with false by lia. cbn [negb].
  rewrite bind_assoc, bind_modify, bind_ret.
  exists (with_lb (set_quit true) w1), fds. split; [reflexivity|].
  cbn [lb with_lb kernel trace quit set_quit newClients newClientCount nextServer].
  rewrite (emitted_app w _ [SysPoll fds (-1)]) by exact Ht.
  rewrite Hk, Hlb. repeat split.
Qed.

End PrimaryWait.

(** The control channel and the endpoint are both readable; two
    connections are waiting on the endpoint. *)
Lemma control_channel_priority_witness :
  let w := world_of
             (set_nEndpoints 1 (set_endpoints [10; 7; 7; 7] (fresh_object [100; 101])))
             (kernel_of {[ 10 := [Conn 20%N; Conn 21%N] ]} None [PollEvents [1; 1]]) in
  exists w' fds,
    @mainLoop linux 1 w = (Ret tt, w') /\
    quit (lb w') = true /\
    emitted w w' = [SysPoll fds (-1)] /\
    backlog (kernel w') = backlog (kernel w) /\
    newClients (lb w') = newClients (lb w) /\
    newClientCount (lb w') = newClientCount (lb w) /\
    nextServer (lb w') = nextServer (lb w).
Proof.
  intros w. apply (@control_channel_priority linux 0 w).
  - repeat split; try reflexivity; vm_compute; congruence.
  - reflexivity.
  - exists 1, [1], []. split; [reflexivity|]. vm_compute. congruence.
Defined.

(** ** Bursts *)

Lemma set_newClients_flag_same o :
  set_newClients (newClients o) (set_accept4Available (accept4Available o) o) = o.
Proof. destruct o; reflexivity. Qed.

Lemma burst_frame_refl w : burst_frame w w.
Proof.
  split; auto.
  - exists (newClients (lb w)), (accept4Available (lb w)).
    rewrite set_newClients_flag_same. auto.
  - exists []. rewrite app_nil_r. auto.
Qed.

Lemma burst_frame_trans w1 w2 w3 :
  burst_frame w1 w2 -> burst_frame w2 w3 -> burst_frame w1 w3.
Proof.
  intros [(n1 & b1 & L1 & N1) R1 F1 A1 W1 X1 (e1 & T1 & P1)]
         [(n2 & b2 & L2 & N2) R2 F2 A2 W2 X2 (e2 & T2 & P2)].
  split; try congruence.
  - exists n2, b2. rewrite L2, L1. split; [reflexivity|].
    rewrite N2, L1. exact N1.
  - exists (e1 ++ e2). rewrite T2, T1, app_assoc, forallb_app, P1, P2. auto.
Qed.

Lemma accept_frame_burst w w' : accept_frame w w' -> burst_frame w w'.
Proof.
  intros [L R F A W X (evs & T & P & _)]. split; auto.
  - destruct L as [L|[_ L]]; rewrite L.
    + exists (newClients (lb w)), (accept4Available (lb w)).
      rewrite set_newClients_flag_same. auto.
    + exists (newClients (lb w)), false. split; [|reflexivity].
      destruct (lb w); reflexivity.
  - exists evs. auto.
Qed.

Lemma accept_path_no_wait evs :
  forallb accept_path evs = true -> List.filter is_wait evs = [].
Proof.
  intros Hp. apply filter_none. rewrite forallb_forall in Hp |- *.
  intros e He. specialize (Hp e He). destruct e; cbn in *; auto; discriminate.
Qed.

Section Bursts.
Context `{Platform}.

Lemma accept_burst_frame n i endpoint w :
  burst_frame w (snd (accept_burst n i endpoint w)).
Proof.
  revert i w. induction n as [|n IH]; intros i w; cbn [accept_burst].
  - apply burst_frame_refl.
  - destruct (acceptNonBlockingSocket_frame endpoint w) as [[fd Hfd] Hfr].
    destruct (acceptNonBlockingSocket endpoint w) as [o w1] eqn:E.
    cbn [fst snd] in *. subst o. rewrite (bind_Ret _ _ _ _ _ E).
    apply accept_frame_burst in Hfr.
    destruct (fd =? -1); [exact Hfr|].
    unfold array_upd at 1. unfold bind at 1.
    destruct (newClients (lb w1) !! Z.to_nat i) as [v|]; [|exact Hfr].
    eapply burst_frame_trans; [exact Hfr|].
    eapply burst_frame_trans; [|apply IH].
    split; try reflexivity.
    + exists (<[Z.to_nat i := fd]> (newClients (lb w1))), (accept4Available (lb w1)).
      split; [|apply length_insert].
      cbn. destruct (lb w1); reflexivity.
    + exists []. rewrite app_nil_r. auto.
Qed.

(** The cooldown wait: one wait of 3 on the first entry alone, which
    returns 1 exactly when the control channel fires. *)
Lemma cooldown_wait w p ps :
  pollers (lb w) = p :: ps ->
  exists n w',
    sys_poll 1 3 w = (Ret n, w') /\
    (n =? 1) = control_fires (kernel w) /\
    trace w' = trace w ++ [SysPoll [pfd p] 3] /\
    (exists ps', lb w' = set_pollers ps' (lb w)).
Proof.
  intros Hp. unfold control_fires.
  destruct (wakeups (kernel w)) as [|[e|rs] rest] eqn:Hw.
  - unfold sys_poll. rewrite bind_gets, bind_emit, bind_gets.
    cbn [kernel record lb]. rewrite Hw, Hp. cbn.
    eexists _, _. split; [reflexivity|]. cbn. eauto.
  - unfold sys_poll. rewrite bind_gets, bind_emit, bind_gets.
    cbn [kernel record lb]. rewrite Hw, Hp. cbn.
    eexists _, _. split; [reflexivity|]. cbn.
    repeat split. exists (p :: ps). rewrite <- Hp. destruct (lb w); reflexivity.
  - rewrite (sys_poll_events 1 3 w rs rest Hw). rewrite Hp.
    eexists _, _. split; [reflexivity|]. cbn.
    split; [|eauto].
    unfold ready_count. change (Z.to_nat 1) with 1%nat.
    destruct rs as [|r rs]; cbn [fill_revents take hd revents List.filter];
      [reflexivity|].
    destruct (r =? 0); reflexivity.
Qed.

Lemma queue_insert k serverFd q :
  queue (set_backlog (<[serverFd := q]> (backlog k)) k) serverFd = q.
Proof. unfold queue. cbn. rewrite lookup_insert_eq. reflexivity. Qed.

Ltac accept_run :=
  unfold acceptNonBlockingSocket, acceptNonBlockingSocket_rec, callAccept4,
    sys_accept, dequeue, setNonBlocking, sys_close, try_catch,
    emit, bind, gets, modify, ret, raise;
  cbn -[queue Z.eqb];
  cbn [kernel lb errno with_errno record with_lb with_kernel fcntl_fault
       set_backlog set_nonblocking accept4_reject wouldblock_alt].

Ltac accept_next :=
  cbn -[queue Z.eqb];
  cbn [kernel lb errno with_errno record with_lb with_kernel fcntl_fault
       set_backlog set_nonblocking accept4_reject wouldblock_alt].

(** With a connection at the head of the queue, and without fault, an
    accept attempt delivers it. *)
Lemma accept_conn serverFd w c q :
  queue (kernel w) serverFd = Conn c :: q ->
  accept4_usable (kernel w) ->
  fcntl_fault (kernel w) !! Z.of_N c = None ->
  fst (acceptNonBlockingSocket serverFd w) = Ret (Z.of_N c) /\
  queue (kernel (snd (acceptNonBlockingSocket serverFd w))) serverFd = q.
Proof.
  intros Hq Hu Hf. unfold accept4_usable in Hu.
  assert (Hc : (Z.of_N c =? -1) = false) by (apply Z.eqb_neq; lia).
  accept_run.
  destruct (accept4Available (lb w));
    [destruct (accept4_reject (kernel w)) as [e|]|].
  - replace ((-1 =? -1) && ((e =? ENOSYS) || (e =? EINVAL))) with true
      by (symmetry; rewrite andb_true_iff, orb_true_iff; lia).
    accept_next. rewrite Hq. accept_next. rewrite Hc. accept_next.
    rewrite Hf. accept_next. unfold queue; cbn; rewrite lookup_insert_eq; auto.
  - accept_next. rewrite Hq. accept_next. rewrite Hc. accept_next.
    unfold queue; cbn; rewrite lookup_insert_eq; auto.
  - accept_next. rewrite Hq. accept_next. rewrite Hc. accept_next.
    rewrite Hf. accept_next. unfold queue; cbn; rewrite lookup_insert_eq; auto.
Qed.

(** With an empty queue, and a combined primitive that works or is
    unsupported, an accept attempt fails with "would block". *)
Lemma accept_empty serverFd w :
  queue (kernel w) serverFd = [] ->
  accept4_usable (kernel w) ->
  fst (acceptNonBlockingSocket serverFd w) = Ret (-1) /\
  errno (snd (acceptNonBlockingSocket serverFd w)) = would_block (kernel w) /\
  queue (kernel (snd (acceptNonBlockingSocket serverFd w))) serverFd = [].
Proof.
  intros Hq Hu. unfold accept4_usable in Hu.
  accept_run.
  destruct (accept4Available (lb w));
    [destruct (accept4_reject (kernel w)) as [e|]|].
  - replace ((-1 =? -1) && ((e =? ENOSYS) || (e =? EINVAL))) with true
      by (symmetry; rewrite andb_true_iff, orb_true_iff; lia).
    accept_next. rewrite Hq. accept_next. auto.
  - accept_next. rewrite Hq. accept_next.
    destruct ((-1 =? -1) && _); accept_next; rewrite ?Hq; accept_next; auto.
  - accept_next. rewrite Hq. accept_next. auto.
Qed.

(** A burst on a queue that holds connections only, without fault: it
    takes the connections from the head of the queue, in order, into
    consecutive cells of the buffer, until the queue is empty (it then ends
    on "would block") or the iterations are used up. *)
Lemma accept_burst_drain endpoint n i w cs :
  queue (kernel w) endpoint = map Conn cs ->
  accept4_usable (kernel w) ->
  flags_settable (kernel w) cs ->
  0 <= i ->
  (Z.to_nat i + n <= length (newClients (lb w)))%nat ->
  exists w',
    accept_burst n i endpoint w =
      (Ret (i + Z.of_nat (min n (length cs)),
            (length cs <? n)%nat,
            if (length cs <? n)%nat then would_block (kernel w) else 0), w') /\
    queue (kernel w') endpoint = map Conn (drop n cs) /\
    (forall j c, (j < n)%nat -> cs !! j = Some c ->
       newClients (lb w') !! (Z.to_nat i + j)%nat = Some (Z.of_N c)) /\
    (forall p, (p < Z.to_nat i)%nat ->
       newClients (lb w') !! p = newClients (lb w) !! p) /\
    burst_frame w w'.
Proof.
  revert i w cs. induction n as [|n IH]; intros i w cs Hq Hu Hs Hi Hlen;
    cbn [accept_burst].
  - exists w. split; [|split; [|split; [|split]]].
    + unfold ret. rewrite Z.add_0_r. reflexivity.
    + exact Hq.
    + intros j c Hj. lia.
    + reflexivity.
    + apply burst_frame_refl.
  - destruct (acceptNonBlockingSocket_frame endpoint w) as [_ Hfa].
    assert (Hnc : newClients (lb (snd (acceptNonBlockingSocket endpoint w))) =
                  newClients (lb w))
      by (destruct Hfa as [[->|[_ ->]] _ _ _ _ _ _]; reflexivity).
    pose proof (accept_frame_burst _ _ Hfa) as Hfr.
    destruct cs as [|c cs].
    + destruct (accept_empty endpoint w Hq Hu) as (Hr & He & Hq').
      destruct (acceptNonBlockingSocket endpoint w) as [o w1] eqn:E.
      cbn [fst snd] in *. subst o.
      rewrite (bind_Ret _ _ _ _ _ E). cbn [Z.eqb Pos.eqb]. rewrite bind_gets, He.
      exists w1. split; [|split; [|split; [|split]]].
      * unfold ret. cbn. rewrite Z.add_0_r. reflexivity.
      * exact Hq'.
      * intros j c _ Hc. discriminate Hc.
      * intros p _. rewrite Hnc. reflexivity.
      * exact Hfr.
    + assert (Hfc : fcntl_fault (kernel w) !! Z.of_N c = None)
        by (apply Hs; left).
      destruct (accept_conn endpoint w c (map Conn cs) Hq Hu Hfc) as (Hr & Hq').
      destruct (acceptNonBlockingSocket endpoint w) as [o w1] eqn:E.
      cbn [fst snd] in *. subst o.
      rewrite (bind_Ret _ _ _ _ _ E).
      replace (Z.of_N c =? -1) with false by (symmetry; apply Z.eqb_neq; lia).
      unfold array_upd at 1. unfold bind at 1.
      destruct (newClients (lb w1) !! Z.to_nat i) as [v|] eqn:Hv.
      2:{ apply lookup_ge_None in Hv. rewrite Hnc in Hv. exfalso. lia. }
      set (w2 := with_lb _ w1).
      assert (Hfr2 : burst_frame w1 w2).
      { split; try reflexivity.
        - exists (<[Z.to_nat i := Z.of_N c]> (newClients (lb w1))), (accept4Available (lb w1)).
          split; [|apply length_insert].
          subst w2. cbn. destruct (lb w1); reflexivity.
        - exists []. rewrite app_nil_r. auto. }
      destruct (IH (i + 1) w2 cs) as (w' & E' & Hq'' & Hin & Hout & Hfr').
      * exact Hq'.
      * unfold accept4_usable. subst w2. cbn [kernel with_lb].
        rewrite (af_reject _ _ Hfa). exact Hu.
      * intros c' Hc'. subst w2. cbn [kernel with_lb].
        rewrite (af_fcntl _ _ Hfa). apply Hs. right. exact Hc'.
      * lia.
      * subst w2. cbn. rewrite length_insert, Hnc. lia.
      * exists w'. split; [|split; [|split; [|split]]].
        -- rewrite E'. cbn [length].
           replace (would_block (kernel w2)) with (would_block (kernel w))
             by (unfold would_block; subst w2; cbn [kernel with_lb];
                 rewrite (af_alt _ _ Hfa); reflexivity).
           replace (i + 1 + Z.of_nat (min n (length cs)))
             with (i + Z.of_nat (min (S n) (S (length cs)))) by lia.
           reflexivity.
        -- exact Hq''.
        -- intros [|j] c' Hj Hc'.
           ++ cbn in Hc'. injection Hc' as <-.
              rewrite Nat.add_0_r, Hout by lia.
              subst w2. cbn. apply list_lookup_insert_eq.
              apply lookup_lt_Some in Hv. exact Hv.
           ++ cbn in Hc'.
              replace (Z.to_nat i + S j)%nat with (Z.to_nat (i + 1) + j)%nat by lia.
              apply Hin; [lia|exact Hc'].
        -- intros p Hp. rewrite Hout by lia. subst w2. cbn.
           rewrite list_lookup_insert_ne by lia. rewrite Hnc. reflexivity.
        -- eapply burst_frame_trans; [exact Hfr|].
           eapply burst_frame_trans; [exact Hfr2|exact Hfr'].
Qed.

Lemma accept_path_no_cooldown evs :
  forallb accept_path evs = true -> List.filter cooldown_event evs = [].
Proof.
  intros Hp. apply filter_none. rewrite forallb_forall in Hp |- *.
  intros e He. specialize (Hp e He).
  destruct e as [| | | | | | |[]| | | |]; cbn in *; auto; discriminate.
Qed.

Lemma would_block_cases k :
  would_block k = EAGAIN \/ would_block k = EWOULDBLOCK.
Proof. unfold would_block. destruct (wouldblock_alt k); auto. Qed.

(** C7: a burst on an endpoint whose queue holds exactly M < 16
    connections, without fault on the accept path, puts these M descriptors,
    in order, in the first M cells of the buffer, records the count M,
    empties the queue and returns true; it adds no cooldown event to the
    trace (no error line, no wait, no notice) and leaves the quit flag as it
    was. *)
Theorem would_block_ends_burst endpoint w cs :
  queue (kernel w) endpoint = map Conn cs ->
  (length cs < 16)%nat ->
  accept4_usable (kernel w) ->
  flags_settable (kernel w) cs ->
  length (newClients (lb w)) = Z.to_nat ACCEPT_BURST_COUNT ->
  exists w',
    acceptNewClients endpoint w = (Ret true, w') /\
    newClientCount (lb w') = Z.of_nat (length cs) /\
    take (length cs) (newClients (lb w')) = map Z.of_N cs /\
    queue (kernel w') endpoint = [] /\
    List.filter cooldown_event (emitted w w') = [] /\
    quit (lb w') = quit (lb w).
Proof.
  intros Hq HM Hu Hs Hlen.
  destruct (accept_burst_drain endpoint (Z.to_nat ACCEPT_BURST_COUNT) 0 w cs
              Hq Hu Hs ltac:(lia) ltac:(lia))
    as (w1 & E & Hq1 & Hin & _ & Hfr).
  change (Z.to_nat ACCEPT_BURST_COUNT) with 16%nat in *.
  replace (length cs <? 16)%nat with true in E by (symmetry; apply Nat.ltb_lt; lia).
  rewrite Nat.min_r in E by lia.
  unfold acceptNewClients. change (Z.to_nat ACCEPT_BURST_COUNT) with 16%nat.
  rewrite (bind_Ret _ _ _ _ _ E), bind_modify.
  replace (true && negb (would_block (kernel w) =? EAGAIN)
             && negb (would_block (kernel w) =? EWOULDBLOCK)) with false.
  2:{ destruct (would_block_cases (kernel w)) as [->| ->];
        rewrite Z.eqb_refl; cbn; rewrite ?andb_false_r; reflexivity. }
  eexists. split; [reflexivity|].
  destruct Hfr as [(nc & b & Hlb & Hl) _ _ _ _ _ (evs & Ht & Hp)].
  cbn [lb with_lb kernel trace newClientCount set_newClientCount newClients quit].
  split; [|split; [|split; [|split]]].
  - unfold bitfield. rewrite Z.mod_small; lia.
  - apply list_eq. intros j. rewrite list_lookup_fmap.
    destruct (decide (j < length cs)%nat) as [Hj|Hj].
    + rewrite lookup_take_lt by lia.
      destruct (lookup_lt_is_Some_2 cs j Hj) as [c Hc].
      rewrite Hc. cbn. apply (Hin j c); [lia|exact Hc].
    + rewrite lookup_take_ge by lia.
      rewrite (lookup_ge_None_2 cs j) by lia. reflexivity.
  - rewrite Hq1, drop_ge by lia. reflexivity.
  - rewrite (emitted_app w _ evs) by exact Ht.
    apply accept_path_no_cooldown, Hp.
  - rewrite Hlb. reflexivity.
Qed.

(** C2, what the code does: a burst on an endpoint whose queue holds 16
    connections or more, without fault on the accept path, accepts the first
    16 into the buffer and leaves the others queued, but the count it
    records is 16 stored in a 4-bit field, that is 0; the distribution that
    follows hands nothing over. *)
Theorem burst_cap_count_wraps endpoint w cs :
  queue (kernel w) endpoint = map Conn cs ->
  (16 <= length cs)%nat ->
  accept4_usable (kernel w) ->
  flags_settable (kernel w) cs ->
  length (newClients (lb w)) = Z.to_nat ACCEPT_BURST_COUNT ->
  exists w',
    acceptNewClients endpoint w = (Ret true, w') /\
    newClients (lb w') = map Z.of_N (take 16 cs) /\
    queue (kernel w') endpoint = map Conn (drop 16 cs) /\
    newClientCount (lb w') = 0 /\
    exists w'',
      distributeNewClients w' = (Ret tt, w'') /\ emitted w' w'' = [].
Proof.
  intros Hq HM Hu Hs Hlen.
  destruct (accept_burst_drain endpoint (Z.to_nat ACCEPT_BURST_COUNT) 0 w cs
              Hq Hu Hs ltac:(lia) ltac:(lia))
    as (w1 & E & Hq1 & Hin & _ & Hfr).
  change (Z.to_nat ACCEPT_BURST_COUNT) with 16%nat in *.
  replace (length cs <? 16)%nat with false in E by (symmetry; apply Nat.ltb_ge; lia).
  rewrite Nat.min_l in E by lia.
  unfold acceptNewClients. change (Z.to_nat ACCEPT_BURST_COUNT) with 16%nat.
  rewrite (bind_Ret _ _ _ _ _ E), bind_modify.
  eexists. split; [reflexivity|].
  destruct Hfr as [(nc & b & Hlb & Hl) _ _ _ _ _ _].
  cbn [lb with_lb kernel trace newClientCount set_newClientCount newClients].
  split; [|split; [|split]].
  - apply list_eq. intros j. rewrite list_lookup_fmap.
    destruct (decide (j < 16)%nat) as [Hj|Hj].
    + rewrite lookup_take_lt by lia.
      destruct (lookup_lt_is_Some_2 cs j ltac:(lia)) as [c Hc].
      rewrite Hc. cbn. apply (Hin j c); [lia|exact Hc].
    + rewrite lookup_take_ge by lia. cbn.
      apply lookup_ge_None_2. rewrite Hlb in *. cbn in *. lia.
  - exact Hq1.
  - reflexivity.
  - unfold distributeNewClients. rewrite bind_gets.
    cbn [lb with_lb newClientCount set_newClientCount Z.to_nat distribute_loop].
    rewrite ?bind_ret. eexists. split; [reflexivity|].
    unfold emitted. cbn [trace with_lb]. apply drop_all.
Qed.

(** C5: a burst that ends on an accept error other than EAGAIN and
    EWOULDBLOCK is followed by the error log line, one wait with timeout 3
    on the control channel alone and, unless the control channel fired, the
    recovery notice; the quit flag is set exactly when the control channel
    fired; the acceptor returns false; and that wait is the only wait of the
    whole call. *)
Theorem cooldown_once endpoint w i e w1 :
  pollers (lb w) <> [] ->
  accept_burst (Z.to_nat ACCEPT_BURST_COUNT) 0 endpoint w = (Ret (i, true, e), w1) ->
  e <> EAGAIN -> e <> EWOULDBLOCK ->
  exists w2,
    acceptNewClients endpoint w = (Ret false, w2) /\
    emitted w1 w2 =
      [Log LError e; SysPoll [fst (exitPipe (lb w))] 3] ++
      (if control_fires (kernel w) then [] else [Log LNotice 0]) /\
    List.filter is_wait (emitted w w2) = [SysPoll [fst (exitPipe (lb w))] 3] /\
    quit (lb w2) = quit (lb w) || control_fires (kernel w) /\
    newClientCount (lb w2) = bitfield 4 i.
Proof.
  intros Hps E He1 He2.
  pose proof (accept_burst_frame (Z.to_nat ACCEPT_BURST_COUNT) 0 endpoint w) as Hfr.
  rewrite E in Hfr. cbn [snd] in Hfr.
  destruct Hfr as [(nc & b & Hlb & _) _ _ _ Hwk _ (evs & Ht & Hp)].
  unfold acceptNewClients. rewrite (bind_Ret _ _ _ _ _ E).
  rewrite bind_modify.
  replace (true && negb (e =? EAGAIN) && negb (e =? EWOULDBLOCK)) with true
    by (symmetry; rewrite !andb_true_iff, !negb_true_iff; lia).
  rewrite bind_emit, bind_gets.
  set (w1' := record _ _).
  destruct (pollers (lb w)) as [|p ps] eqn:Hpw; [congruence|].
  assert (Hp1 : pollers (lb w1') = p :: ps).
  { subst w1'. cbn. rewrite Hlb. cbn. exact Hpw. }
  assert (Hp0 : pollers (lb w1') !! Z.to_nat 0 = Some p) by (rewrite Hp1; reflexivity).
  rewrite (bind_Ret _ _ _ _ _ (watch_ok 0 _ w1' p Hp0)).
  set (w1'' := with_lb _ w1').
  assert (Hp2 : pollers (lb w1'') =
                {| pfd := fst (exitPipe (lb w1')); events := POLLIN;
                   revents := revents p |} :: ps).
  { subst w1''. cbn [lb with_lb pollers set_pollers]. rewrite Hp1. reflexivity. }
  destruct (cooldown_wait w1'' _ ps Hp2)
    as (n & w3 & Ew & Hn & Ht3 & ps' & Hlb3).
  rewrite (bind_Ret _ _ _ _ _ Ew).
  assert (Hfires : control_fires (kernel w1'') = control_fires (kernel w)).
  { unfold control_fires. subst w1'' w1'. cbn. rewrite Hwk. reflexivity. }
  assert (Hpipe : fst (exitPipe (lb w1')) = fst (exitPipe (lb w))).
  { subst w1'. cbn. rewrite Hlb. reflexivity. }
  rewrite Hfires in Hn. rewrite Hn.
  cbn [pfd] in Ht3. rewrite Hpipe in Ht3.
  assert (Hq3 : quit (lb w3) = quit (lb w)).
  { rewrite Hlb3. subst w1'' w1'. cbn. rewrite Hlb. reflexivity. }
  assert (Hc3 : newClientCount (lb w3) = bitfield 4 i).
  { rewrite Hlb3. subst w1'' w1'. reflexivity. }
  assert (Ht3' : trace w3 = trace w1 ++ [Log LError e; SysPoll [fst (exitPipe (lb w))] 3]).
  { rewrite Ht3. subst w1'' w1'. cbn. rewrite <- app_assoc. reflexivity. }
  destruct (control_fires (kernel w)).
  - rewrite bind_modify. eexists. split; [reflexivity|].
    cbn [lb with_lb trace quit set_quit newClientCount].
    rewrite (emitted_app w1 _ [Log LError e; SysPoll [fst (exitPipe (lb w))] 3])
      by exact Ht3'.
    rewrite (emitted_app w _ (evs ++ [Log LError e; SysPoll [fst (exitPipe (lb w))] 3]))
      by (cbn [trace with_lb]; rewrite Ht3', Ht, <- app_assoc; reflexivity).
    rewrite List.filter_app, (accept_path_no_wait _ Hp), orb_true_r.
    repeat split. exact Hc3.
  - rewrite bind_emit. eexists. split; [reflexivity|].
    cbn [lb record trace].
    rewrite (emitted_app w1 _ ([Log LError e; SysPoll [fst (exitPipe (lb w))] 3] ++ [Log LNotice 0]))
      by (cbn [trace record]; rewrite Ht3', <- app_assoc; reflexivity).
    rewrite (emitted_app w _ (evs ++ [Log LError e; SysPoll [fst (exitPipe (lb w))] 3; Log LNotice 0]))
      by (cbn [trace record]; rewrite Ht3', Ht, <- !app_assoc; reflexivity).
    rewrite List.filter_app, (accept_path_no_wait _ Hp), orb_false_r.
    repeat split; assumption.
Qed.

End Bursts.

(** On a kernel without the combined primitive, an endpoint with two
    connections waiting. *)
Lemma would_block_ends_burst_witness :
  let w := world_of (fresh_object [100; 101])
             (kernel_of {[ 10 := [Conn 20%N; Conn 21%N] ]} (Some 38) []) in
  exists w',
    @acceptNewClients linux 10 w = (Ret true, w') /\
    newClientCount (lb w') = 2 /\
    take 2 (newClients (lb w')) = [20; 21] /\
    queue (kernel w') 10 = [] /\
    List.filter cooldown_event (emitted w w') = [] /\
    quit (lb w') = quit (lb w).
Proof.
  intros w.
  apply (@would_block_ends_burst linux 10 w [20%N; 21%N]).
  - reflexivity.
  - cbn. lia.
  - left. reflexivity.
  - intros c _. reflexivity.
  - reflexivity.
Defined.

(** An endpoint with seventeen connections waiting. *)
Lemma burst_cap_count_wraps_witness :
  let cs := map N.of_nat (seq 20 17) in
  let w := world_of (fresh_object [100; 101])
             (kernel_of {[ 10 := map Conn cs ]} None []) in
  exists w',
    @acceptNewClients linux 10 w = (Ret true, w') /\
    newClients (lb w') = map Z.of_N (take 16 cs) /\
    queue (kernel w') 10 = map Conn (drop 16 cs) /\
    newClientCount (lb w') = 0 /\
    exists w'',
      distributeNewClients w' = (Ret tt, w'') /\ emitted w' w'' = [].
Proof.
  intros cs w.
  apply (@burst_cap_count_wraps linux 10 w cs).
  - reflexivity.
  - cbn. lia.
  - exact Logic.I.
  - intros c _. reflexivity.
  - reflexivity.
Defined.

(** The process has run out of descriptors (EMFILE) after one connection;
    the control channel stays silent during the cooldown. *)
Lemma cooldown_once_witness :
  let w := world_of (fresh_object [100; 101])
             (kernel_of {[ 10 := [Conn 20%N; Fault 24] ]} None []) in
  exists w2,
    @acceptNewClients linux 10 w = (Ret false, w2) /\
    emitted (snd (@accept_burst linux 16 0 10 w)) w2 =
      [Log LError 24; SysPoll [3] 3; Log LNotice 0] /\
    List.filter is_wait (emitted w w2) = [SysPoll [3] 3] /\
    quit (lb w2) = false /\
    newClientCount (lb w2) = 1.
Proof.
  intros w.
  apply (@cooldown_once linux 10 w 1 24 (snd (@accept_burst linux 16 0 10 w))).
  - discriminate.
  - vm_compute. reflexivity.
  - discriminate.
  - discriminate.
Defined.

(** ** Shutdown *)

Section Shutdown.
Context `{Platform}.

Lemma mainLoop_iteration_break w w' :
  mainLoop_iteration w = (Ret false, w') -> quit (lb w') = true.
Proof.
  unfold mainLoop_iteration. unfold bind at 1.
  destruct (pollAllEndpoints w) as [[[]|f] w1]; [|discriminate].
  unfold array_get at 1. unfold bind at 1.
  destruct (pollers (lb w1) !! Z.to_nat 0) as [p0|]; [|discriminate].
  destruct (negb (Z.land (revents p0) POLLIN =? 0)).
  - rewrite bind_modify. unfold ret. intros [= <-]. reflexivity.
  - rewrite bind_gets. unfold bind.
    destruct (scan_endpoints _ _ _) as [[[]|?] w2]; [|discriminate].
    destruct (distributeNewClients w2) as [[[]|?] w3]; discriminate.
Qed.

(** The loop returns only with the quit flag set. *)
Lemma mainLoop_returns_quit fuel w w' :
  mainLoop fuel w = (Ret tt, w') -> quit (lb w') = true.
Proof.
  revert w. induction fuel as [|fuel IH]; intros w; cbn [mainLoop];
    [discriminate|].
  rewrite bind_gets. destruct (quit (lb w)) eqn:Hq.
  - unfold ret. intros [= <-]. exact Hq.
  - unfold bind at 1.
    destruct (mainLoop_iteration w) as [[[|]|f] w1] eqn:E; [| |discriminate].
    + apply IH.
    + unfold ret. intros [= <-]. apply (mainLoop_iteration_break _ _ E).
Qed.

Lemma AcceptLoadBalancer_ctor_thread w :
  thread (lb (snd (AcceptLoadBalancer_ctor w))) = None.
Proof.
  unfold AcceptLoadBalancer_ctor, sys_pipe, setNonBlocking, sys_close,
    try_catch, bind, gets, modify, emit, ret, raise.
  cbn. repeat (destruct_inner; cbn); reflexivity.
Qed.

(** The constructor turns storage of the right sizes into a well-formed
    object. *)
Lemma AcceptLoadBalancer_ctor_well_formed w :
  0 <= SERVER_KIT_MAX_SERVER_ENDPOINTS ->
  length (endpoints (lb w)) = Z.to_nat SERVER_KIT_MAX_SERVER_ENDPOINTS ->
  length (pollers (lb w)) = S (Z.to_nat SERVER_KIT_MAX_SERVER_ENDPOINTS) ->
  length (newClients (lb w)) = Z.to_nat ACCEPT_BURST_COUNT ->
  well_formed (lb (snd (AcceptLoadBalancer_ctor w))).
Proof.
  intros Hm He Hp Hb.
  unfold AcceptLoadBalancer_ctor, sys_pipe, setNonBlocking, sys_close,
    try_catch, bind, gets, modify, emit, ret, raise.
  cbn. repeat (destruct_inner; cbn);
    unfold well_formed; cbn; repeat split; try assumption; lia.
Qed.

(** C9: without a thread (after construction and before [start], or after
    a completed shutdown) [shutdown] does nothing at all; with a thread it
    writes one byte to the write end of the exit pipe, logs a warning only
    if the write failed for another reason than a full pipe, joins the
    thread, deletes it and forgets it, so that a second call does nothing;
    and the loop the thread runs returns only with the quit flag set. *)
Theorem shutdown_idempotent :
  (forall w, thread (lb (snd (AcceptLoadBalancer_ctor w))) = None) /\
  (forall w, thread (lb w) = None -> shutdown w = (Ret tt, w)) /\
  (forall w t,
     thread (lb w) = Some t ->
     exists w',
       shutdown w = (Ret tt, w') /\
       lb w' = set_thread None (lb w) /\
       emitted w w' =
         SysWrite (snd (exitPipe (lb w))) 1 ::
         write_warning (kernel w) ++ [ThreadJoin t; ThreadDelete t] /\
       (forall e, write_fault (kernel w) = Some e ->
                  e = EAGAIN \/ e = EWOULDBLOCK ->
                  emitted w w' =
                    [SysWrite (snd (exitPipe (lb w))) 1;
                     ThreadJoin t; ThreadDelete t]) /\
       shutdown w' = (Ret tt, w')) /\
  (forall fuel w w', mainLoop fuel w = (Ret tt, w') -> quit (lb w') = true).
Proof.
  split; [exact AcceptLoadBalancer_ctor_thread|].
  split; [|split; [|exact mainLoop_returns_quit]].
  - intros w Hn. unfold shutdown. rewrite bind_gets, Hn. reflexivity.
  - intros w t Ht.
    assert (Hw : forall e, write_fault (kernel w) = Some e ->
                 e = EAGAIN \/ e = EWOULDBLOCK -> write_warning (kernel w) = []).
    { intros e He Hc. unfold write_warning. rewrite He.
      destruct Hc as [->| ->]; rewrite Z.eqb_refl; cbn;
        rewrite ?andb_false_r; reflexivity. }
    assert (Hn : forall w0, thread (lb w0) = None -> shutdown w0 = (Ret tt, w0))
      by (intros w0 Hn; unfold shutdown; rewrite bind_gets, Hn; reflexivity).
    unfold write_warning in *.
    destruct (write_fault (kernel w)) as [e|] eqn:Hf;
      [destruct (negb (e =? EAGAIN) && negb (e =? EWOULDBLOCK)) eqn:Hb|].
    all: eexists; split;
      [ unfold shutdown, sys_write;
        mrun; rewrite Ht; cbv iota beta; mrun;
        cbn [kernel record]; rewrite Hf; cbv iota beta; mrun;
        cbn [Z.eqb Pos.eqb]; mrun; cbn [errno with_errno];
        rewrite ?Hb; mrun; reflexivity
      | cbn [lb with_lb record with_errno] ].
    all: split; [reflexivity|]; split; [|split; [|apply Hn; reflexivity]].
    all: try (apply emitted_app; cbn; rewrite <- !app_assoc; reflexivity).
    + intros e' [= <-] Hc. specialize (Hw e eq_refl Hc). discriminate Hw.
    + intros _ _ _. apply emitted_app. cbn. rewrite <- !app_assoc. reflexivity.
    + intros e' [=].
Qed.

End Shutdown.

(** A started balancer whose exit pipe is full. *)
Lemma shutdown_idempotent_witness :
  let k := {| backlog := ∅; wouldblock_alt := false; accept4_reject := None;
              fcntl_fault := ∅; nonblocking := ∅; wakeups := [];
              write_fault := Some 11; pipe_fault := None; pipe_fds := (3, 4) |} in
  let w := world_of (set_thread (Some 1) (fresh_object [100])) k in
  thread (lb w) = Some 1 /\
  exists w',
    @shutdown linux w = (Ret tt, w') /\
    emitted w w' = [SysWrite 4 1; ThreadJoin 1; ThreadDelete 1] /\
    @shutdown linux w' = (Ret tt, w').
Proof.
  intros k w. split; [reflexivity|].
  destruct (proj1 (proj2 (proj2 (@shutdown_idempotent linux))) w 1 eq_refl)
    as (w' & E & _ & _ & Hfull & E').
  exists w'. split; [exact E|]. split; [|exact E'].
  apply (Hfull 11); [reflexivity|left; reflexivity].
Defined.

(** ** Registration of endpoints *)

Section Registration.
Context `{Platform}.

(** [listen] on a well-formed object, when setting the flag succeeds. *)
Lemma listen_spec fd w :
  well_formed (lb w) ->
  fcntl_fault (kernel w) !! fd = None ->
  (SERVER_KIT_MAX_SERVER_ENDPOINTS <= nEndpoints (lb w) ->
   listen fd w = (Raise AssertionFailed, w)) /\
  (nEndpoints (lb w) < SERVER_KIT_MAX_SERVER_ENDPOINTS ->
   exists w',
     listen fd w = (Ret tt, w') /\
     endpoints (lb w') !! Z.to_nat (nEndpoints (lb w)) = Some fd /\
     fd ∈ nonblocking (kernel w') /\
     nEndpoints (lb w') = (nEndpoints (lb w) + 1) mod 4 /\
     emitted w w' = [SysSetNonBlocking fd]).
Proof.
  intros (He & _ & _ & Hn & _ & _) Hf. split; intros Hc; unfold listen.
  - rewrite bind_gets.
    replace (nEndpoints (lb w) <? SERVER_KIT_MAX_SERVER_ENDPOINTS) with false by lia.
    reflexivity.
  - rewrite bind_gets.
    replace (nEndpoints (lb w) <? SERVER_KIT_MAX_SERVER_ENDPOINTS) with true by lia.
    unfold setNonBlocking. mrun. cbn [kernel record]. rewrite Hf. cbv iota beta. mrun.
    unfold array_upd at 1. unfold bind at 1. cbn [lb with_kernel record].
    destruct (endpoints (lb w) !! Z.to_nat (nEndpoints (lb w))) as [v|] eqn:Hv.
    2:{ apply lookup_ge_None in Hv. exfalso. lia. }
    unfold modify. eexists. split; [reflexivity|].
    cbn [lb kernel with_lb with_kernel record endpoints set_endpoints
         set_nEndpoints nEndpoints nonblocking set_nonblocking trace].
    split; [|split; [|split]].
    + apply list_lookup_insert_eq. apply lookup_lt_Some in Hv. exact Hv.
    + apply elem_of_union_l, elem_of_singleton. reflexivity.
    + reflexivity.
    + apply emitted_app. reflexivity.
Qed.

(** The layout is kept by [listen], whatever its outcome. *)
Lemma listen_well_formed fd w :
  well_formed (lb w) -> well_formed (lb (snd (listen fd w))).
Proof.
  intros Hwf. pose proof Hwf as (He & Hp & Hb & Hn & Hm & Hc).
  unfold listen. rewrite bind_gets.
  destruct (nEndpoints (lb w) <? SERVER_KIT_MAX_SERVER_ENDPOINTS) eqn:Hlt;
    [|exact Hwf].
  unfold setNonBlocking. mrun. cbn [kernel record].
  destruct (fcntl_fault (kernel w) !! fd); [exact Hwf|]. mrun.
  unfold array_upd at 1. unfold bind at 1. cbn [lb with_kernel record].
  destruct (endpoints (lb w) !! Z.to_nat (nEndpoints (lb w))); [|exact Hwf].
  unfold well_formed, bitfield. cbn. rewrite length_insert.
  pose proof (Z.mod_pos_bound (nEndpoints (lb w) + 1) 4 ltac:(lia)).
  assert ((nEndpoints (lb w) + 1) mod 4 <= nEndpoints (lb w) + 1)
    by (apply Z.mod_le; lia).
  change (2 ^ 2) with 4 in *. repeat split; try assumption; lia.
Qed.

(** C4, what the code does: when the capacity is 4 or more, the assertion
    of [listen] never fails on a well-formed object, because the 2-bit
    endpoint count cannot reach 4; the call made with three endpoints
    registered stores the descriptor in the fourth cell and wraps the count
    to 0 instead of raising it to 4.  Below three endpoints the descriptor
    is put in non-blocking mode, stored after the others, and the count goes
    up by one. *)
Theorem listen_count_wraps fd w :
  4 <= SERVER_KIT_MAX_SERVER_ENDPOINTS ->
  well_formed (lb w) ->
  fcntl_fault (kernel w) !! fd = None ->
  exists w',
    listen fd w = (Ret tt, w') /\
    endpoints (lb w') !! Z.to_nat (nEndpoints (lb w)) = Some fd /\
    fd ∈ nonblocking (kernel w') /\
    (nEndpoints (lb w) < 3 -> nEndpoints (lb w') = nEndpoints (lb w) + 1) /\
    (nEndpoints (lb w) = 3 -> nEndpoints (lb w') = 0).
Proof.
  intros Hcap Hwf Hf.
  pose proof Hwf as (He & Hp & Hb & Hn & Hm & Hc).
  destruct (proj2 (listen_spec fd w Hwf Hf) ltac:(lia))
    as (w' & E & Hep & Hnb & Hcnt & _).
  exists w'. repeat split; try assumption.
  - intros Hlt. rewrite Hcnt. apply Z.mod_small. lia.
  - intros H3. rewrite Hcnt, H3. reflexivity.
Qed.

End Registration.

(** The fourth registration on a balancer with room for four endpoints. *)
Lemma listen_count_wraps_witness :
  let w := world_of
             (set_nEndpoints 3 (set_endpoints [10; 11; 12; 7] (fresh_object [100])))
             (kernel_of ∅ None []) in
  exists w',
    @listen linux 13 w = (Ret tt, w') /\
    endpoints (lb w') = [10; 11; 12; 13] /\
    nEndpoints (lb w') = 0.
Proof.
  intros w.
  destruct (@listen_count_wraps linux 13 w) as (w' & E & Hep & _ & _ & Hwrap).
  - vm_compute. congruence.
  - repeat split; try reflexivity; vm_compute; congruence.
  - reflexivity.
  - exists w'. split; [exact E|]. split; [|apply Hwrap; reflexivity].
    revert E. vm_compute. intros [= <-]. reflexivity.
Defined.

(** Five registrations in a row on a balancer with room for four: none
    fails, the fifth overwrites the first, and one endpoint is counted. *)
Example listen_five_times :
  let w := world_of (fresh_object [100]) (kernel_of ∅ None []) in
  let r := (@listen linux 10;;; @listen linux 11;;; @listen linux 12;;;
            @listen linux 13;;; @listen linux 14) w in
  fst r = Ret tt /\
  endpoints (lb (snd r)) = [14; 11; 12; 13] /\
  nEndpoints (lb (snd r)) = 1.
Proof. vm_compute. repeat split. Qed.

(** ** One pass with two readable endpoints *)

(** C1, what the code does: in a pass in which two endpoints are readable,
    the burst of the second endpoint is written over the burst of the first
    in the buffer and its count replaces the first count, and the single
    distribution at the end of the pass hands over the second burst only.
    Here the three waiting connections are all accepted (both queues end up
    empty), connection 21 of the second endpoint goes to worker 0, and
    connections 20 and 22 of the first endpoint are neither handed to a
    worker nor closed. *)
Theorem second_burst_overwrites_first :
  let w := two_readable_endpoints in
  let r := @mainLoop_iteration linux w in
  fst r = Ret true /\
  List.filter accept_call (emitted w (snd r)) =
    [SysAccept4 10 2048; SysAccept4 10 2048; SysAccept4 10 2048;
     SysAccept4 11 2048; SysAccept4 11 2048] /\
  queue (kernel (snd r)) 10 = [] /\
  queue (kernel (snd r)) 11 = [] /\
  dispatches (emitted w (snd r)) = [(0, 21)] /\
  List.filter is_close (emitted w (snd r)) = [] /\
  newClientCount (lb (snd r)) = 0.
Proof. vm_compute. repeat split. Qed.

(** * Further properties *)

(** ** Construction and destruction *)

Ltac run_cases :=
  cbn; repeat (destruct_inner; cbn).

Ltac emitted_now :=
  apply emitted_app; cbn [trace record with_lb with_kernel with_errno];
  rewrite <- ?app_assoc; reflexivity.

Section Lifetime.
Context `{Platform}.

(** X5: the constructor either throws the error of [pipe] having touched
    no descriptor, or throws the error of [setNonBlocking] having closed
    both ends of the pipe it created, or returns an object with both ends of
    the exit pipe in non-blocking mode, no endpoint, no thread, no worker,
    the capability flag set, the quit flag clear and an empty burst; the
    three arrays and the cursor are as the storage held them. *)
Theorem AcceptLoadBalancer_ctor_outcomes w :
  let k := kernel w in
  let r := fst (pipe_fds k) in
  let wr := snd (pipe_fds k) in
  let res := AcceptLoadBalancer_ctor w in
  (forall e, pipe_fault k = Some e ->
     fst res = Raise (SystemException e) /\
     emitted w (snd res) = [SysPipe]) /\
  (pipe_fault k = None ->
   forall e, fcntl_fault k !! r = Some e ->
     fst res = Raise (SystemException e) /\
     emitted w (snd res) =
       [SysPipe; SysSetNonBlocking r; SysClose wr; SysClose r]) /\
  (pipe_fault k = None -> fcntl_fault k !! r = None ->
   forall e, fcntl_fault k !! wr = Some e ->
     fst res = Raise (SystemException e) /\
     emitted w (snd res) =
       [SysPipe; SysSetNonBlocking r; SysSetNonBlocking wr;
        SysClose wr; SysClose r]) /\
  (pipe_fault k = None -> fcntl_fault k !! r = None ->
   fcntl_fault k !! wr = None ->
     fst res = Ret tt /\
     emitted w (snd res) =
       [SysPipe; SysSetNonBlocking r; SysSetNonBlocking wr] /\
     r ∈ nonblocking (kernel (snd res)) /\
     wr ∈ nonblocking (kernel (snd res)) /\
     lb (snd res) =
       {| endpoints := endpoints (lb w); pollers := pollers (lb w);
          newClients := newClients (lb w); nEndpoints := 0;
          accept4Available := true; quit := false; newClientCount := 0;
          nextServer := nextServer (lb w); exitPipe := (r, wr);
          thread := None; servers := [] |}).
Proof.
  cbv zeta.
  unfold AcceptLoadBalancer_ctor, sys_pipe, setNonBlocking, sys_close,
    try_catch, emit, bind, gets, modify, ret, raise.
  cbn [kernel lb record with_lb with_kernel with_errno fst snd
       pipe_fault pipe_fds fcntl_fault set_nonblocking].
  destruct (pipe_fds (kernel w)) as [r wr]. cbn [fst snd].
  split; [|split; [|split]].
  - intros e Hp. rewrite Hp. split; [reflexivity|emitted_now].
  - intros Hp e Hr. rewrite Hp. cbn. rewrite Hr.
    split; [reflexivity|cbn; emitted_now].
  - intros Hp Hr e Hw. rewrite Hp. cbn. rewrite Hr. cbn. rewrite Hw.
    split; [reflexivity|cbn; emitted_now].
  - intros Hp Hr Hw. rewrite Hp. cbn. rewrite Hr. cbn. rewrite Hw. cbn.
    split; [reflexivity|]. split; [emitted_now|].
    split; [apply elem_of_union_r, elem_of_union_l, elem_of_singleton;
            reflexivity|].
    split; [apply elem_of_union_l, elem_of_singleton; reflexivity|].
    reflexivity.
Qed.


End Lifetime.

(** The pipe cannot be created (EMFILE). *)
Lemma AcceptLoadBalancer_ctor_outcomes_witness :
  let w := world_of (raw_object 7) (kernel_without_pipe 24) in
  pipe_fault (kernel w) = Some 24 /\
  fst (AcceptLoadBalancer_ctor w) = Raise (SystemException 24) /\
  emitted w (snd (AcceptLoadBalancer_ctor w)) = [SysPipe].
Proof.
  intros w. split; [reflexivity|].
  apply (proj1 (AcceptLoadBalancer_ctor_outcomes w) 24). reflexivity.
Defined.

(** ** Registration, continued *)

Section RegistrationMore.
Context `{Platform}.

(** X7: when the descriptor cannot be put in non-blocking mode, [listen]
    throws the error of [setNonBlocking] and registers nothing: the object
    is unchanged, and so is the set of non-blocking descriptors. *)
Theorem listen_failure_registers_nothing fd e w :
  nEndpoints (lb w) < SERVER_KIT_MAX_SERVER_ENDPOINTS ->
  fcntl_fault (kernel w) !! fd = Some e ->
  exists w',
    listen fd w = (Raise (SystemException e), w') /\
    lb w' = lb w /\
    kernel w' = kernel w /\
    emitted w w' = [SysSetNonBlocking fd].
Proof.
  intros Hn Hf. unfold listen. rewrite bind_gets.
  replace (nEndpoints (lb w) <? SERVER_KIT_MAX_SERVER_ENDPOINTS) with true by lia.
  unfold setNonBlocking. mrun. cbn [kernel record]. rewrite Hf.
  eexists. split; [reflexivity|]. repeat split. emitted_now.
Qed.

(** A registration that succeeds, in full. *)
Lemma listen_ok fd w :
  well_formed (lb w) ->
  nEndpoints (lb w) < SERVER_KIT_MAX_SERVER_ENDPOINTS ->
  fcntl_fault (kernel w) !! fd = None ->
  listen fd w =
  (Ret tt,
   with_lb (set_nEndpoints (bitfield 2 (nEndpoints (lb w) + 1)))
     (with_lb (set_endpoints
                 (<[Z.to_nat (nEndpoints (lb w)) := fd]> (endpoints (lb w))))
        (with_kernel (fun k => set_nonblocking ({[fd]} ∪ nonblocking k) k)
           (record (SysSetNonBlocking fd) w)))).
Proof.
  intros (He & _ & _ & Hn & _ & _) Hc Hf. unfold listen. rewrite bind_gets.
  replace (nEndpoints (lb w) <? SERVER_KIT_MAX_SERVER_ENDPOINTS) with true by lia.
  unfold setNonBlocking. mrun. cbn [kernel record]. rewrite Hf. cbv iota beta. mrun.
  unfold array_upd at 1. unfold bind at 1. cbn [lb with_kernel record].
  destruct (endpoints (lb w) !! Z.to_nat (nEndpoints (lb w))) as [v|] eqn:Hv.
  2:{ apply lookup_ge_None in Hv. exfalso. lia. }
  reflexivity.
Qed.

(** Registrations made in a row, in full. *)
Lemma listen_all_spec fds w :
  well_formed (lb w) ->
  nEndpoints (lb w) + Z.of_nat (length fds) <= 3 ->
  nEndpoints (lb w) + Z.of_nat (length fds) <= SERVER_KIT_MAX_SERVER_ENDPOINTS ->
  (forall fd, fd ∈ fds -> fcntl_fault (kernel w) !! fd = None) ->
  exists w',
    listen_all fds w = (Ret tt, w') /\
    nEndpoints (lb w') = nEndpoints (lb w) + Z.of_nat (length fds) /\
    endpoints (lb w') =
      list_inserts (Z.to_nat (nEndpoints (lb w))) fds (endpoints (lb w)) /\
    nonblocking (kernel w) ∪ list_to_set fds ⊆ nonblocking (kernel w') /\
    trace w' = trace w ++ map SysSetNonBlocking fds /\
    well_formed (lb w') /\
    exitPipe (lb w') = exitPipe (lb w).
Proof.
  revert w. induction fds as [|fd fds IH]; intros w Hwf H3 Hcap Hf.
  - exists w. cbn. rewrite app_nil_r. repeat split; try apply Hwf; [lia|].
    intros x. rewrite elem_of_union, elem_of_empty. tauto.
  - cbn [length] in H3, Hcap.
    pose proof Hwf as (He & _ & _ & Hn & _ & _).
    assert (Hfd : fcntl_fault (kernel w) !! fd = None) by (apply Hf; left).
    pose proof (listen_ok fd w Hwf ltac:(lia) Hfd) as E.
    pose proof (listen_well_formed fd w Hwf) as Hwf1. rewrite E in Hwf1.
    set (w1 := with_lb _ _) in *. cbn [snd] in Hwf1.
    assert (Hcnt1 : nEndpoints (lb w1) = nEndpoints (lb w) + 1).
    { subst w1. cbn. unfold bitfield. apply Z.mod_small.
      change (2 ^ 2) with 4. lia. }
    destruct (IH w1 Hwf1) as (w' & E' & Hcnt' & Hep' & Hnb' & Ht' & Hwf' & Hpipe').
    + lia.
    + lia.
    + intros fd' Hfd'. apply Hf. right. exact Hfd'.
    + exists w'. cbn [listen_all]. rewrite (bind_Ret _ _ _ _ _ E).
      split; [exact E'|]. split; [cbn [length]; lia|].
      split; [|split; [|split; [|split; [exact Hwf'|exact Hpipe']]]].
      * rewrite Hep', Hcnt1.
        replace (Z.to_nat (nEndpoints (lb w) + 1))
          with (S (Z.to_nat (nEndpoints (lb w)))) by lia.
        cbn [list_inserts]. subst w1. cbn [lb with_lb endpoints set_endpoints set_nEndpoints].
        symmetry. apply list_insert_inserts_lt. lia.
      * etransitivity; [|exact Hnb']. subst w1. cbn.
        intros x. rewrite !elem_of_union. tauto.
      * rewrite Ht'. subst w1. cbn. rewrite <- app_assoc. reflexivity.
Qed.

(** X8: registrations made in a row on a well-formed object, while fewer
    than four endpoints and no more than the capacity are registered and
    setting the flag succeeds, all return; the descriptors are written in
    the registry after the endpoints already there, in the order of the
    calls, the count goes up by their number, each of them is put in
    non-blocking mode, and nothing else happens. *)
Theorem listen_all_in_order fds w :
  well_formed (lb w) ->
  nEndpoints (lb w) + Z.of_nat (length fds) <= 3 ->
  nEndpoints (lb w) + Z.of_nat (length fds) <= SERVER_KIT_MAX_SERVER_ENDPOINTS ->
  (forall fd, fd ∈ fds -> fcntl_fault (kernel w) !! fd = None) ->
  exists w',
    listen_all fds w = (Ret tt, w') /\
    nEndpoints (lb w') = nEndpoints (lb w) + Z.of_nat (length fds) /\
    endpoints (lb w') =
      list_inserts (Z.to_nat (nEndpoints (lb w))) fds (endpoints (lb w)) /\
    (forall fd, fd ∈ fds -> fd ∈ nonblocking (kernel w')) /\
    trace w' = trace w ++ map SysSetNonBlocking fds.
Proof.
  intros Hwf H3 Hcap Hf.
  destruct (listen_all_spec fds w Hwf H3 Hcap Hf)
    as (w' & E & Hc & He & Hn & Ht & _).
  exists w'. repeat split; try assumption.
  intros fd Hfd. apply Hn, elem_of_union_r, elem_of_list_to_set, Hfd.
Qed.

End RegistrationMore.

(** Setting the flag fails (EBADF) on the descriptor to register. *)
Lemma listen_failure_registers_nothing_witness :
  let w := world_of (fresh_object [100]) (kernel_with_flag_fault ∅ [] 10 9) in
  exists w',
    @listen linux 10 w = (Raise (SystemException 9), w') /\
    lb w' = lb w /\
    kernel w' = kernel w /\
    emitted w w' = [SysSetNonBlocking 10].
Proof.
  intros w. apply (@listen_failure_registers_nothing linux 10 9 w).
  - vm_compute. reflexivity.
  - reflexivity.
Defined.

(** Three registrations on a fresh balancer. *)
Lemma listen_all_in_order_witness :
  let w := world_of (fresh_object [100]) (kernel_of ∅ None []) in
  exists w',
    @listen_all linux [10; 11; 12] w = (Ret tt, w') /\
    nEndpoints (lb w') = 3 /\
    endpoints (lb w') = [10; 11; 12; 7] /\
    (forall fd, fd ∈ [10; 11; 12] -> fd ∈ nonblocking (kernel w')) /\
    trace w' = [SysSetNonBlocking 10; SysSetNonBlocking 11; SysSetNonBlocking 12].
Proof.
  intros w. apply (@listen_all_in_order linux [10; 11; 12] w).
  - repeat split; try reflexivity; vm_compute; congruence.
  - vm_compute. congruence.
  - vm_compute. congruence.
  - intros fd _. reflexivity.
Defined.

(** ** The cursor and the workers *)

Section Cursor.
Context `{Platform}.

(** X11: the constructor leaves the rotation cursor as the storage held it
    and the worker set empty; and whenever the cursor is not the index of a
    worker (no worker at all, or a cursor left beyond the workers), the
    distribution of a burst that is not empty reads the worker array out of
    bounds before anything is handed over: its behaviour is undefined. *)
Theorem distributeNewClients_cursor_outside :
  (forall w,
     nextServer (lb (snd (AcceptLoadBalancer_ctor w))) = nextServer (lb w) /\
     servers (lb (snd (AcceptLoadBalancer_ctor w))) = []) /\
  (forall w,
     0 < newClientCount (lb w) ->
     (length (servers (lb w)) <= Z.to_nat (nextServer (lb w)))%nat ->
     distributeNewClients w = (Raise Undefined, w)).
Proof.
  split.
  - intros w.
    unfold AcceptLoadBalancer_ctor, sys_pipe, setNonBlocking, sys_close,
      try_catch, emit, bind, gets, modify, ret, raise.
    cbn. repeat (destruct_inner; cbn); split; reflexivity.
  - intros w Hc Hs. unfold distributeNewClients. rewrite bind_gets.
    destruct (Z.to_nat (newClientCount (lb w))) as [|n] eqn:Hn; [lia|].
    cbn [distribute_loop]. rewrite bind_assoc, bind_gets.
    unfold array_get at 1. rewrite bind_assoc. unfold bind at 1.
    rewrite (lookup_ge_None_2 _ _ Hs). reflexivity.
Qed.

End Cursor.

(** A balancer with a burst of one connection and no worker. *)
Lemma distributeNewClients_cursor_outside_witness :
  let w := world_of (set_newClientCount 1 (fresh_object [])) (kernel_of ∅ None []) in
  0 < newClientCount (lb w) /\
  distributeNewClients w = (Raise Undefined, w).
Proof.
  intros w. split; [reflexivity|].
  apply (proj2 distributeNewClients_cursor_outside w).
  - reflexivity.
  - cbn. lia.
Defined.

(** ** One accept attempt, continued *)

Section AcceptMore.
Context `{Platform}.

(** Taking the head of a queue: the value is -1 or the descriptor of the
    connection at the head, in non-blocking mode if so asked; the object is
    untouched and what is left of the queue was in it. *)
Lemma dequeue_spec serverFd nb w :
  exists v w1,
    dequeue serverFd nb w = (Ret v, w1) /\
    lb w1 = lb w /\
    fcntl_fault (kernel w1) = fcntl_fault (kernel w) /\
    trace w1 = trace w /\
    (forall p, p ∈ queue (kernel w1) serverFd -> p ∈ queue (kernel w) serverFd) /\
    (v <> -1 ->
     exists c, v = Z.of_N c /\ Conn c ∈ queue (kernel w) serverFd /\
               (nb = true -> v ∈ nonblocking (kernel w1))).
Proof.
  unfold dequeue.
  destruct (queue (kernel w) serverFd) as [|[c|e] q] eqn:Hq.
  - eexists _, _. split; [reflexivity|]. cbn. rewrite Hq.
    repeat split; auto. intros Hv. congruence.
  - eexists _, _. split; [reflexivity|].
    cbn [lb kernel with_kernel fcntl_fault set_nonblocking set_backlog trace].
    repeat split.
    + intros p Hp. unfold queue in Hp. cbn in Hp.
      rewrite lookup_insert_eq in Hp. right. exact Hp.
    + intros _. exists c. split; [reflexivity|]. split; [left|].
      intros ->. cbn. apply elem_of_union_l, elem_of_singleton. reflexivity.
  - eexists _, _. split; [reflexivity|].
    cbn [lb kernel with_kernel with_errno fcntl_fault set_backlog trace].
    repeat split.
    + intros p Hp. unfold queue in Hp. cbn in Hp.
      rewrite lookup_insert_eq in Hp. right. exact Hp.
    + intros Hv. congruence.
Qed.

(** X9: a descriptor that an accept attempt returns is the descriptor of a
    connection that was waiting on that endpoint, and it is in non-blocking
    mode, whichever path delivered it. *)
Theorem accepted_descriptor_nonblocking serverFd w fd w' :
  acceptNonBlockingSocket serverFd w = (Ret fd, w') ->
  fd <> -1 ->
  fd ∈ nonblocking (kernel w') /\
  exists c, fd = Z.of_N c /\ Conn c ∈ queue (kernel w) serverFd.
Proof.
  assert (Hplain : forall w0 w1 v,
    acceptNonBlockingSocket_rec 1 serverFd w0 = (Ret v, w1) ->
    accept4Available (lb w0) = false -> v <> -1 ->
    v ∈ nonblocking (kernel w1) /\
    exists c, v = Z.of_N c /\ Conn c ∈ queue (kernel (record (SysAccept serverFd) w0)) serverFd).
  { intros w0 w1 v E Hf. revert E. cbn [acceptNonBlockingSocket_rec].
    rewrite bind_gets, Hf. unfold sys_accept. rewrite bind_assoc, bind_emit.
    destruct (dequeue_spec serverFd false (record (SysAccept serverFd) w0))
      as (a & w2 & E & _ & Hfc & _ & _ & Hc).
    rewrite (bind_Ret _ _ _ _ _ E).
    destruct (a =? -1) eqn:Ha.
    - unfold ret. intros [= <- <-] Hv. congruence.
    - unfold try_catch, setNonBlocking. rewrite bind_assoc, bind_emit, bind_assoc, bind_gets.
      cbn [kernel record].
      destruct (fcntl_fault (kernel w2) !! a).
      + cbn. intros [= <- <-] Hv. congruence.
      + cbn. intros [= <- <-] Hv. split.
        * apply elem_of_union_l, elem_of_singleton. reflexivity.
        * destruct (Hc ltac:(lia)) as (c & Hc1 & Hc2 & _). eauto. }
  intros E Hfd. unfold acceptNonBlockingSocket in E.
  destruct (accept4Available (lb w)) eqn:Hf.
  - rewrite acceptNonBlockingSocket_rec_S in E.
    destruct (accept_attempt_available (acceptNonBlockingSocket_rec 1) serverFd w Hf)
      as [[_ Er]|[_ Er]]; rewrite Er in E; clear Er.
    + unfold callAccept4 in E. rewrite bind_emit, bind_gets in E. cbn [kernel record] in E.
      destruct (accept4_reject (kernel w)) as [e|].
      * rewrite bind_modify in E. cbn [ret snd] in E.
        destruct (Hplain _ _ _ E eq_refl Hfd) as (Hnb & c & Hc & Hin). eauto.
      * destruct (dequeue_spec serverFd (bool_decide (O_NONBLOCK = O_NONBLOCK))
                    (record (SysAccept4 serverFd O_NONBLOCK) w))
          as (a & w2 & Ed & _ & _ & _ & Hsub & _).
        rewrite Ed in E. cbn [snd] in E.
        destruct (Hplain _ _ _ E eq_refl Hfd) as (Hnb & c & Hc & Hin).
        split; [exact Hnb|]. exists c. split; [exact Hc|]. apply Hsub, Hin.
    + unfold callAccept4 in E. rewrite bind_emit, bind_gets in E. cbn [kernel record] in E.
      destruct (accept4_reject (kernel w)) as [e|].
      * rewrite bind_modify in E. unfold ret in E. injection E as <- <-. congruence.
      * destruct (dequeue_spec serverFd (bool_decide (O_NONBLOCK = O_NONBLOCK))
                    (record (SysAccept4 serverFd O_NONBLOCK) w))
          as (a & w2 & Ed & _ & _ & _ & _ & Hc).
        rewrite Ed in E. injection E as <- <-.
        destruct (Hc Hfd) as (c & Hc1 & Hc2 & Hnb).
        split; [apply Hnb, bool_decide_eq_true_2; reflexivity|]. eauto.
  - rewrite acceptNonBlockingSocket_rec_plain in E by exact Hf.
    apply (Hplain _ _ _ E Hf Hfd).
Qed.

(** X10: on the plain path, when the accepted descriptor cannot be put in
    non-blocking mode, the attempt logs a debug line, closes that
    descriptor, and fails with the error of [setNonBlocking] in [errno]; the
    connection has left the queue and the object is unchanged. *)
Theorem accept_flag_failure_closes serverFd w c q e :
  accept4Available (lb w) = false ->
  queue (kernel w) serverFd = Conn c :: q ->
  fcntl_fault (kernel w) !! Z.of_N c = Some e ->
  exists w',
    acceptNonBlockingSocket serverFd w = (Ret (-1), w') /\
    errno w' = e /\
    emitted w w' =
      [SysAccept serverFd; SysSetNonBlocking (Z.of_N c); Log LDebug e;
       SysClose (Z.of_N c)] /\
    queue (kernel w') serverFd = q /\
    lb w' = lb w.
Proof.
  intros Hf Hq Hc. unfold acceptNonBlockingSocket.
  rewrite acceptNonBlockingSocket_rec_plain by exact Hf.
  cbn [acceptNonBlockingSocket_rec]. rewrite bind_gets, Hf.
  unfold sys_accept, dequeue. rewrite bind_assoc, bind_emit.
  unfold bind at 1. cbv beta zeta. cbn [kernel record]. rewrite Hq.
  replace (Z.of_N c =? -1) with false by (symmetry; apply Z.eqb_neq; lia).
  unfold try_catch, setNonBlocking. rewrite bind_assoc, bind_emit, bind_assoc, bind_gets.
  cbn [kernel record with_kernel fcntl_fault set_nonblocking set_backlog].
  rewrite Hc. cbn.
  eexists. split; [reflexivity|]. cbn. repeat split.
  - emitted_now.
  - unfold queue. cbn. rewrite lookup_insert_eq. reflexivity.
Qed.

End AcceptMore.

(** A connection waits on a kernel without the combined primitive. *)
Lemma accepted_descriptor_nonblocking_witness :
  let w := world_of (fresh_object [100])
             (kernel_of {[ 10 := [Conn 20%N] ]} (Some 38) []) in
  let r := @acceptNonBlockingSocket linux 10 w in
  fst r = Ret 20 /\
  20 ∈ nonblocking (kernel (snd r)) /\
  exists c, 20 = Z.of_N c /\ Conn c ∈ queue (kernel w) 10.
Proof.
  intros w r. split; [reflexivity|].
  apply (@accepted_descriptor_nonblocking linux 10 w 20 (snd r)).
  - reflexivity.
  - discriminate.
Defined.

(** The flag of the accepted descriptor 20 cannot be set (EBADF). *)
Lemma accept_flag_failure_closes_witness :
  let w := world_of (set_accept4Available false (fresh_object [100]))
             (kernel_with_flag_fault {[ 10 := [Conn 20%N; Conn 21%N] ]} [] 20 9) in
  exists w',
    @acceptNonBlockingSocket linux 10 w = (Ret (-1), w') /\
    errno w' = 9 /\
    emitted w w' =
      [SysAccept 10; SysSetNonBlocking 20; Log LDebug 9; SysClose 20] /\
    queue (kernel w') 10 = [Conn 21%N] /\
    lb w' = lb w.
Proof.
  intros w.
  apply (@accept_flag_failure_closes linux 10 w 20%N [Conn 21%N] 9);
    reflexivity.
Defined.

(** ** The primary wait, continued *)

Section PollSet.
Context `{Platform}.

Lemma arm_length fds ps : length (arm fds ps) = length ps.
Proof.
  revert ps. induction fds as [|fd fds IH]; intros [|p ps]; cbn; auto.
Qed.

Lemma arm_pfd fds ps :
  (length fds <= length ps)%nat ->
  map pfd (take (length fds) (arm fds ps)) = fds.
Proof.
  revert ps. induction fds as [|fd fds IH]; intros [|p ps]; cbn; auto; try lia.
  intros Hl. f_equal. apply IH. lia.
Qed.

(** The loop of [pollAllEndpoints] arms the cells after cell [i] for the
    endpoints from [i] on. *)
Lemma watch_endpoints_arm n i w :
  0 <= i ->
  (Z.to_nat i + n <= length (endpoints (lb w)))%nat ->
  (Z.to_nat i + n < length (pollers (lb w)))%nat ->
  watch_endpoints n i w =
  (Ret tt,
   with_lb (set_pollers
     (take (S (Z.to_nat i)) (pollers (lb w)) ++
      arm (take n (drop (Z.to_nat i) (endpoints (lb w))))
          (drop (S (Z.to_nat i)) (pollers (lb w))))) w).
Proof.
  revert i w. induction n as [|n IH]; intros i w Hi He Hp; cbn [watch_endpoints].
  - change (take 0 (drop (Z.to_nat i) (endpoints (lb w)))) with (@nil Z).
    cbn [arm]. rewrite take_drop. unfold ret. f_equal.
    destruct w as [[] ? ? ?]; reflexivity.
  - destruct (endpoints (lb w) !! Z.to_nat i) as [ep|] eqn:Hep.
    2:{ apply lookup_ge_None in Hep. exfalso. lia. }
    destruct (pollers (lb w) !! Z.to_nat (i + 1)) as [p|] eqn:Hpp.
    2:{ apply lookup_ge_None in Hpp. exfalso. lia. }
    rewrite (bind_Ret _ _ _ _ _
               (array_get_ok (fun w => endpoints (lb w)) i w ep Hep)).
    rewrite (bind_Ret _ _ _ _ _ (watch_ok (i + 1) ep w p Hpp)).
    set (w1 := with_lb _ w).
    rewrite (IH (i + 1) w1) by (subst w1; cbn; rewrite ?length_insert; lia).
    subst w1. cbn [lb with_lb pollers set_pollers endpoints].
    replace (Z.to_nat (i + 1)) with (S (Z.to_nat i)) in * by lia.
    set (k := Z.to_nat i) in *.
    lazymatch goal with
    | |- (_, with_lb (set_pollers ?a) _) = (_, with_lb (set_pollers ?b) _) =>
        assert (Hab : a = b); [|rewrite Hab; reflexivity]
    end.
    rewrite (drop_S _ _ _ Hep). cbn [take].
    rewrite (drop_S _ _ _ Hpp). cbn [arm].
    rewrite drop_insert_lt by lia.
    rewrite (take_S_r _ _ _ (eq_trans (list_lookup_insert_eq _ _ _
               (lookup_lt_Some _ _ _ Hpp)) eq_refl)).
    rewrite take_insert_ge by lia.
    rewrite <- app_assoc. reflexivity.
Qed.


Lemma watched_length o :
  (Z.to_nat (nEndpoints o) <= length (endpoints o))%nat ->
  length (watched o) = S (Z.to_nat (nEndpoints o)).
Proof. intros Hl. unfold watched. cbn. rewrite length_take. lia. Qed.

(** [pollAllEndpoints] is its wait, made on the armed poll set. *)
Lemma pollAllEndpoints_arms w :
  well_formed (lb w) ->
  pollAllEndpoints w =
  (r <- sys_poll (nEndpoints (lb w) + 1) (-1);;
   if r =? -1 then e <- gets errno;; raise (SystemException e) else ret tt)
    (with_lb (set_pollers (arm (watched (lb w)) (pollers (lb w)))) w).
Proof.
  intros (He & Hp & _ & Hn & Hm & _). unfold pollAllEndpoints.
  rewrite bind_gets.
  destruct (pollers (lb w)) as [|p0 ps] eqn:Hps; [discriminate|].
  rewrite (bind_Ret _ _ _ _ _ (watch_ok 0 _ w p0 ltac:(rewrite Hps; reflexivity))).
  set (w1 := with_lb _ w). rewrite bind_gets.
  assert (He1 : endpoints (lb w1) = endpoints (lb w)) by reflexivity.
  assert (Hn1 : nEndpoints (lb w1) = nEndpoints (lb w)) by reflexivity.
  assert (Hp1 : pollers (lb w1) =
                {| pfd := fst (exitPipe (lb w)); events := POLLIN;
                   revents := revents p0 |} :: ps).
  { subst w1. cbn [lb with_lb pollers set_pollers]. rewrite Hps. reflexivity. }
  rewrite (bind_Ret _ _ _ _ _
             (watch_endpoints_arm (Z.to_nat (nEndpoints (lb w1))) 0 w1 ltac:(lia)
             ltac:(rewrite He1, Hn1; lia)
             ltac:(rewrite Hp1, Hn1; cbn [length] in *; lia))).
  subst w1. cbn [lb with_lb pollers set_pollers endpoints nEndpoints].
  rewrite Hps. reflexivity.
Qed.

(** The three outcomes of [pollAllEndpoints]. *)
Lemma pollAllEndpoints_outcomes w :
  well_formed (lb w) ->
  let armed := arm (watched (lb w)) (pollers (lb w)) in
  let waiting := record (SysPoll (watched (lb w)) (-1))
                   (with_lb (set_pollers armed) w) in
  match wakeups (kernel w) with
  | PollEvents rs :: rest =>
      pollAllEndpoints w =
      (Ret tt,
       with_lb (set_pollers (fill_revents (length (watched (lb w))) armed rs))
         (with_kernel (set_wakeups rest) waiting))
  | PollFail e :: rest =>
      pollAllEndpoints w =
      (Raise (SystemException e),
       with_errno e (with_kernel (set_wakeups rest) waiting))
  | [] => pollAllEndpoints w = (Raise Blocked, waiting)
  end.
Proof.
  intros Hwf. pose proof Hwf as (He & Hp & _ & Hn & Hm & _). cbv zeta.
  assert (Hwl : length (watched (lb w)) = S (Z.to_nat (nEndpoints (lb w))))
    by (apply watched_length; lia).
  assert (Hfds : map pfd (take (Z.to_nat (nEndpoints (lb w) + 1))
                            (arm (watched (lb w)) (pollers (lb w)))) =
                 watched (lb w)).
  { replace (Z.to_nat (nEndpoints (lb w) + 1)) with (length (watched (lb w))) by lia.
    apply arm_pfd. lia. }
  rewrite (pollAllEndpoints_arms w Hwf). unfold sys_poll.
 rewrite bind_assoc, bind_gets, bind_assoc, bind_emit, bind_assoc, bind_gets.
  cbn [lb kernel with_lb record pollers set_pollers wakeups].
  rewrite Hfds.
  destruct (wakeups (kernel w)) as [|[e|rs] rest].
  - reflexivity.
  - rewrite bind_assoc, bind_modify, bind_assoc, bind_modify, bind_ret.
    cbn [Z.eqb Pos.eqb]. rewrite bind_gets. reflexivity.
  - rewrite bind_assoc, bind_modify, bind_assoc, bind_modify, bind_ret.
    match goal with
    | |- context [ready_count ?l =? -1] =>
        pose proof (ready_count_nonneg l);
        replace (ready_count l =? -1) with false by lia
    end.
    rewrite Hwl.
    replace (Z.to_nat (nEndpoints (lb w) + 1))
      with (S (Z.to_nat (nEndpoints (lb w)))) by lia.
    reflexivity.
Qed.


(** X2: on a well-formed object the primary wait is one [poll] without
    timeout on the read end of the exit pipe followed by the registered
    endpoints in registration order, each watched for input, and on nothing
    else.  When the wait returns events, [pollAllEndpoints] returns with the
    reported events in the armed cells; when it fails, [pollAllEndpoints]
    throws the error; when no wake-up ever comes, it stays blocked. *)
Theorem pollAllEndpoints_watches w :
  well_formed (lb w) ->
  let armed := arm (watched (lb w)) (pollers (lb w)) in
  let waiting := record (SysPoll (watched (lb w)) (-1))
                   (with_lb (set_pollers armed) w) in
  match wakeups (kernel w) with
  | PollEvents rs :: rest =>
      pollAllEndpoints w =
      (Ret tt,
       with_lb (set_pollers (fill_revents (length (watched (lb w))) armed rs))
         (with_kernel (set_wakeups rest) waiting))
  | PollFail e :: rest =>
      pollAllEndpoints w =
      (Raise (SystemException e),
       with_errno e (with_kernel (set_wakeups rest) waiting))
  | [] => pollAllEndpoints w = (Raise Blocked, waiting)
  end.
Proof. exact (pollAllEndpoints_outcomes w). Qed.

(** X1: when the primary wait fails, the loop ends with the
    [SystemException] of [pollAllEndpoints], carrying the error of [poll]:
    the exception is not caught, the quit flag stays clear, and the pass has
    made that one wait only, with no accept and no hand-off. *)
Theorem mainLoop_poll_failure fuel w e rest :
  well_formed (lb w) ->
  quit (lb w) = false ->
  wakeups (kernel w) = PollFail e :: rest ->
  exists w',
    mainLoop (S fuel) w = (Raise (SystemException e), w') /\
    quit (lb w') = false /\
    errno w' = e /\
    emitted w w' = [SysPoll (watched (lb w)) (-1)] /\
    backlog (kernel w') = backlog (kernel w) /\
    newClientCount (lb w') = newClientCount (lb w) /\
    thread (lb w') = thread (lb w).
Proof.
  intros Hwf Hq Hw. pose proof (pollAllEndpoints_outcomes w Hwf) as E.
  cbv zeta in E. rewrite Hw in E.
  cbn [mainLoop]. rewrite bind_gets, Hq. unfold mainLoop_iteration.
  rewrite bind_assoc, (bind_Raise _ _ _ _ _ E).
  eexists. split; [reflexivity|]. cbn. repeat split; try assumption.
  emitted_now.
Qed.

Lemma fill_revents_lookup m ps rs j p :
  (j < m)%nat -> ps !! j = Some p ->
  fill_revents m ps rs !! j =
  Some {| pfd := pfd p; events := events p; revents := nth j rs 0 |}.
Proof.
  revert ps rs j. induction m as [|m IH]; intros [|q ps] rs j Hj Hp;
    try lia; try discriminate.
  cbn [fill_revents]. destruct j as [|j].
  - cbn in Hp. injection Hp as ->. cbn. destruct rs; reflexivity.
  - cbn in Hp.
    etransitivity; [apply (IH ps (tl rs) j); [lia|exact Hp]|].
    destruct rs as [|r rs]; [destruct j|]; reflexivity.
Qed.

Lemma arm_lookup fds ps j fd p :
  fds !! j = Some fd -> ps !! j = Some p ->
  arm fds ps !! j = Some {| pfd := fd; events := POLLIN; revents := revents p |}.
Proof.
  revert ps j. induction fds as [|a fds IH]; intros [|q ps] [|j] Hf Hp;
    try discriminate; cbn in *.
  - congruence.
  - apply IH; assumption.
Qed.

(** After a wait that returned the events [rs], each armed cell holds its
    descriptor and what [rs] reports for it. *)
Lemma armed_cell_lookup o rs j fd :
  well_formed o ->
  watched o !! j = Some fd ->
  fill_revents (length (watched o)) (arm (watched o) (pollers o)) rs !! j =
  Some {| pfd := fd; events := POLLIN; revents := nth j rs 0 |}.
Proof.
  intros (He & Hp & _ & Hn & Hm & _) Hfd.
  pose proof (lookup_lt_Some _ _ _ Hfd) as Hj.
  assert (Hwl : length (watched o) = S (Z.to_nat (nEndpoints o)))
    by (apply watched_length; lia).
  destruct (lookup_lt_is_Some_2 (pollers o) j ltac:(lia)) as [p Hpj].
  rewrite (fill_revents_lookup _ _ _ _ _ Hj (arm_lookup _ _ _ _ _ Hfd Hpj)).
  reflexivity.
Qed.

End PollSet.

(** The primary wait fails (EINTR) while a connection is waiting. *)
Lemma mainLoop_poll_failure_witness :
  let w := world_of
             (set_nEndpoints 1 (set_endpoints [10; 7; 7; 7] (fresh_object [100])))
             (kernel_of {[ 10 := [Conn 20%N] ]} None [PollFail 4]) in
  exists w',
    @mainLoop linux 3 w = (Raise (SystemException 4), w') /\
    quit (lb w') = false /\
    errno w' = 4 /\
    emitted w w' = [SysPoll [3; 10] (-1)] /\
    backlog (kernel w') = backlog (kernel w) /\
    newClientCount (lb w') = newClientCount (lb w) /\
    thread (lb w') = thread (lb w).
Proof.
  intros w. apply (@mainLoop_poll_failure linux 2 w 4 []).
  - repeat split; try reflexivity; vm_compute; congruence.
  - reflexivity.
  - reflexivity.
Defined.

(** Two endpoints registered; the wait reports the second readable. *)
Lemma pollAllEndpoints_watches_witness :
  let w := world_of
             (set_nEndpoints 2 (set_endpoints [10; 11; 7; 7] (fresh_object [100])))
             (kernel_of ∅ None [PollEvents [0; 0; 1]]) in
  @well_formed linux (lb w) /\
  fst (@pollAllEndpoints linux w) = Ret tt /\
  trace (snd (@pollAllEndpoints linux w)) = [SysPoll [3; 10; 11] (-1)].
Proof.
  intros w.
  assert (Hwf : @well_formed linux (lb w))
    by (repeat split; try reflexivity; vm_compute; congruence).
  split; [exact Hwf|].
  rewrite (@pollAllEndpoints_watches linux w Hwf). split; reflexivity.
Defined.

(** ** One pass of the loop *)

Section Pass.
Context `{Platform}.

(** Cells that report nothing to read are passed over. *)
Lemma scan_endpoints_skip m i w :
  0 <= i ->
  (forall j, (Z.to_nat i <= j < Z.to_nat i + m)%nat ->
     exists p, pollers (lb w) !! S j = Some p /\ Z.land (revents p) POLLIN = 0) ->
  scan_endpoints m i w = (Ret tt, w).
Proof.
  revert i. induction m as [|m IH]; intros i Hi Hno; cbn [scan_endpoints];
    [reflexivity|].
  destruct (Hno (Z.to_nat i) ltac:(lia)) as (p & Hp & Hz).
  rewrite (bind_Ret _ _ _ _ _
             (array_get_ok (fun w => pollers (lb w)) (i + 1) w p
                ltac:(replace (Z.to_nat (i + 1)) with (S (Z.to_nat i)) by lia;
                      exact Hp))).
  rewrite Hz. cbn [Z.eqb negb].
  apply IH; [lia|]. intros j Hj. apply Hno. lia.
Qed.

(** The scan reaches the first readable endpoint and runs a burst on it;
    it goes on with the endpoints after it only if the burst returns
    true. *)
Lemma scan_endpoints_first m i w j0 p ep :
  0 <= i ->
  (Z.to_nat i <= j0 < Z.to_nat i + m)%nat ->
  (forall j, (Z.to_nat i <= j < j0)%nat ->
     exists q, pollers (lb w) !! S j = Some q /\ Z.land (revents q) POLLIN = 0) ->
  pollers (lb w) !! S j0 = Some p ->
  Z.land (revents p) POLLIN <> 0 ->
  endpoints (lb w) !! j0 = Some ep ->
  scan_endpoints m i w =
  (ok <- acceptNewClients ep;;
   if ok then scan_endpoints (Z.to_nat i + m - S j0) (Z.of_nat (S j0))
   else ret tt) w.
Proof.
  revert i. induction m as [|m IH]; intros i Hi Hj0 Hno Hp Hr Hep;
    cbn [scan_endpoints]; [lia|].
  destruct (decide (Z.to_nat i = j0)) as [<-|Hne].
  - rewrite (bind_Ret _ _ _ _ _
               (array_get_ok (fun w => pollers (lb w)) (i + 1) w p
                  ltac:(replace (Z.to_nat (i + 1)) with (S (Z.to_nat i)) by lia;
                        exact Hp))).
    replace (Z.land (revents p) POLLIN =? 0) with false by lia. cbn [negb].
    rewrite (bind_Ret _ _ _ _ _
               (array_get_ok (fun w => endpoints (lb w)) i w ep Hep)).
    replace (Z.to_nat i + S m - S (Z.to_nat i))%nat with m by lia.
    replace (Z.of_nat (S (Z.to_nat i))) with (i + 1) by lia.
    reflexivity.
  - destruct (Hno (Z.to_nat i) ltac:(lia)) as (q & Hq & Hz).
    rewrite (bind_Ret _ _ _ _ _
               (array_get_ok (fun w => pollers (lb w)) (i + 1) w q
                  ltac:(replace (Z.to_nat (i + 1)) with (S (Z.to_nat i)) by lia;
                        exact Hq))).
    rewrite Hz. cbn [Z.eqb negb].
    rewrite (IH (i + 1)); try assumption; try lia.
    + replace (Z.to_nat (i + 1) + m - S j0)%nat
        with (Z.to_nat i + S m - S j0)%nat by lia.
      reflexivity.
    + intros j Hj. apply Hno. lia.
Qed.


(** A burst that empties a queue of fewer than 16 connections, in full. *)
Lemma acceptNewClients_drained endpoint w cs :
  queue (kernel w) endpoint = map Conn cs ->
  (length cs < 16)%nat ->
  accept4_usable (kernel w) ->
  flags_settable (kernel w) cs ->
  length (newClients (lb w)) = Z.to_nat ACCEPT_BURST_COUNT ->
  exists w',
    acceptNewClients endpoint w = (Ret true, w') /\
    (exists nc b,
       lb w' = set_newClientCount (Z.of_nat (length cs))
                 (set_newClients nc (set_accept4Available b (lb w))) /\
       length nc = length (newClients (lb w)) /\
       take (length cs) nc = map Z.of_N cs) /\
    queue (kernel w') endpoint = [] /\
    wakeups (kernel w') = wakeups (kernel w) /\
    exists evs, trace w' = trace w ++ evs /\ forallb accept_path evs = true.
Proof.
  intros Hq HM Hu Hs Hlen.
  destruct (accept_burst_drain endpoint (Z.to_nat ACCEPT_BURST_COUNT) 0 w cs
              Hq Hu Hs ltac:(lia) ltac:(lia))
    as (w1 & E & Hq1 & Hin & _ & Hfr).
  change (Z.to_nat ACCEPT_BURST_COUNT) with 16%nat in *.
  replace (length cs <? 16)%nat with true in E by (symmetry; apply Nat.ltb_lt; lia).
  rewrite Nat.min_r in E by lia.
  unfold acceptNewClients. change (Z.to_nat ACCEPT_BURST_COUNT) with 16%nat.
  rewrite (bind_Ret _ _ _ _ _ E), bind_modify.
  replace (true && negb (would_block (kernel w) =? EAGAIN)
             && negb (would_block (kernel w) =? EWOULDBLOCK)) with false.
  2:{ destruct (would_block_cases (kernel w)) as [->| ->];
        rewrite Z.eqb_refl; cbn; rewrite ?andb_false_r; reflexivity. }
  eexists. split; [reflexivity|].
  destruct Hfr as [(nc & b & Hlb & Hl) _ _ _ Hwk _ (evs & Ht & Hp)].
  cbn [lb with_lb kernel trace].
  split; [|split; [|split; [exact Hwk|exists evs; auto]]].
  - exists nc, b. rewrite Hlb. split; [|split; [exact Hl|]].
    + cbn. unfold bitfield. rewrite Z.mod_small by lia. reflexivity.
    + rewrite Hlb in Hin. cbn in Hin.
      apply list_eq. intros j. rewrite list_lookup_fmap.
      destruct (decide (j < length cs)%nat) as [Hj|Hj].
      * rewrite lookup_take_lt by lia.
        destruct (lookup_lt_is_Some_2 cs j Hj) as [c Hc].
        rewrite Hc. cbn. apply (Hin j c); [lia|exact Hc].
      * rewrite lookup_take_ge by lia.
        rewrite (lookup_ge_None_2 cs j) by lia. reflexivity.
  - rewrite Hq1, drop_ge by lia. reflexivity.
Qed.

Lemma sys_poll_backlog nfds timeout w :
  backlog (kernel (snd (sys_poll nfds timeout w))) = backlog (kernel w).
Proof.
  unfold sys_poll, emit, bind, gets, modify, ret, raise.
  cbn. repeat (destruct_inner; cbn); reflexivity.
Qed.

Lemma acceptNonBlockingSocket_other_queue endpoint other w :
  endpoint <> other ->
  queue (kernel (snd (acceptNonBlockingSocket endpoint w))) other =
  queue (kernel w) other.
Proof.
  intros Hne.
  unfold acceptNonBlockingSocket, acceptNonBlockingSocket_rec, callAccept4,
    sys_accept, dequeue, setNonBlocking, sys_close, try_catch,
    emit, bind, gets, modify, ret, raise.
  cbn. repeat (destruct_inner; cbn).
  all: unfold queue; cbn; rewrite ?lookup_insert_ne by exact Hne; reflexivity.
Qed.

Lemma accept_burst_other_queue endpoint other n i w :
  endpoint <> other ->
  queue (kernel (snd (accept_burst n i endpoint w))) other =
  queue (kernel w) other.
Proof.
  intros Hne. revert i w. induction n as [|n IH]; intros i w;
    cbn [accept_burst]; [reflexivity|].
  pose proof (acceptNonBlockingSocket_other_queue endpoint other w Hne) as Ha.
  unfold bind at 1.
  destruct (acceptNonBlockingSocket endpoint w) as [[fd|f] w1]; [|exact Ha].
  cbn [snd] in Ha. destruct (fd =? -1); [exact Ha|].
  unfold array_upd at 1. unfold bind at 1.
  destruct (newClients (lb w1) !! Z.to_nat i); [|exact Ha].
  rewrite IH. exact Ha.
Qed.

Lemma acceptNewClients_other_queue endpoint other w :
  endpoint <> other ->
  queue (kernel (snd (acceptNewClients endpoint w))) other =
  queue (kernel w) other.
Proof.
  intros Hne. unfold acceptNewClients.
  pose proof (accept_burst_other_queue endpoint other
                (Z.to_nat ACCEPT_BURST_COUNT) 0 w Hne) as Hb.
  unfold bind at 1.
  destruct (accept_burst _ 0 endpoint w) as [[[[i error] errcode]|f] w1];
    [|exact Hb].
  cbn [snd] in Hb. rewrite bind_modify.
  destruct (error && negb (errcode =? EAGAIN) && negb (errcode =? EWOULDBLOCK));
    [|exact Hb].
  rewrite bind_emit, bind_gets.
  unfold watch, array_upd at 1. unfold bind at 1.
  cbn [lb record with_lb pollers set_newClientCount].
  destruct (pollers (lb w1) !! Z.to_nat 0); [|exact Hb].
  unfold bind at 1.
  match goal with
  | |- context [sys_poll 1 3 ?w0] =>
      pose proof (sys_poll_backlog 1 3 w0) as Hp;
      destruct (sys_poll 1 3 w0) as [[n|f] w2]
  end; cbn [snd] in Hp.
  - unfold queue in *. destruct (n =? 1).
    + rewrite bind_modify. cbn. rewrite Hp. exact Hb.
    + rewrite bind_emit. cbn. rewrite Hp. exact Hb.
  - unfold queue in *. cbn. rewrite Hp. exact Hb.
Qed.

(** X16: a burst on one endpoint takes nothing from the queue of another
    descriptor, whatever its outcome. *)
Theorem burst_leaves_other_queues endpoint other w :
  endpoint <> other ->
  queue (kernel (snd (acceptNewClients endpoint w))) other =
  queue (kernel w) other.
Proof. exact (acceptNewClients_other_queue endpoint other w). Qed.

(** Handing connections over leaves the kernel alone. *)
Lemma distribute_loop_kernel n i w :
  kernel (snd (distribute_loop n i w)) = kernel w.
Proof.
  revert i w. induction n as [|n IH]; intros i w; cbn [distribute_loop];
    [reflexivity|].
  rewrite bind_gets. unfold array_get at 1. unfold bind at 1.
  destruct (servers _ !! _); [|reflexivity].
  unfold array_get at 1. unfold bind at 1.
  destruct (newClients _ !! _); [|reflexivity].
  rewrite bind_emit, bind_gets. destruct (_ =? 0); [reflexivity|].
  rewrite bind_modify, IH. reflexivity.
Qed.


Lemma bind_cong {A B} (m m' : M A) (k : A -> M B) w :
  m w = m' w -> bind m k w = bind m' k w.
Proof. unfold bind. intros ->. reflexivity. Qed.

(** The world after a primary wait that returned the events [rs]. *)
Lemma after_wakeup w rs rest :
  well_formed (lb w) ->
  wakeups (kernel w) = PollEvents rs :: rest ->
  exists w1 ps,
    pollAllEndpoints w = (Ret tt, w1) /\
    lb w1 = set_pollers ps (lb w) /\
    (forall j fd, watched (lb w) !! j = Some fd ->
       ps !! j = Some {| pfd := fd; events := POLLIN; revents := nth j rs 0 |}) /\
    kernel w1 = set_wakeups rest (kernel w) /\
    trace w1 = trace w ++ [SysPoll (watched (lb w)) (-1)].
Proof.
  intros Hwf Hw. pose proof (pollAllEndpoints_outcomes w Hwf) as E.
  cbv zeta in E. rewrite Hw in E.
  eexists _, _. split; [exact E|]. cbn. repeat split.
  intros j fd Hfd. apply armed_cell_lookup; assumption.
Qed.

Lemma reports_false rs j :
  reports rs j = false -> Z.land (nth j rs 0) POLLIN = 0.
Proof.
  unfold reports. intros Hr. apply negb_false_iff, Z.eqb_eq in Hr. exact Hr.
Qed.

Lemma reports_true rs j :
  reports rs j = true -> Z.land (nth j rs 0) POLLIN <> 0.
Proof.
  unfold reports. intros Hr. apply negb_true_iff, Z.eqb_neq in Hr. exact Hr.
Qed.

Lemma watched_endpoint o j ep :
  (j < Z.to_nat (nEndpoints o))%nat ->
  endpoints o !! j = Some ep ->
  watched o !! S j = Some ep.
Proof.
  intros Hj Hep. unfold watched.
  change (take (Z.to_nat (nEndpoints o)) (endpoints o) !! j = Some ep).
  rewrite lookup_take_lt by lia. exact Hep.
Qed.

(** X15: readiness is read off the POLLIN bit alone.  When the wake-up
    reports POLLIN neither on the exit pipe nor on any registered endpoint
    (whatever other bits it reports), and no burst is pending, the pass
    consists of the wait: nothing is accepted, nothing is handed over, the
    quit flag and the cursor are as before, and the loop goes round again. *)
Theorem pass_without_input w rs rest :
  well_formed (lb w) ->
  wakeups (kernel w) = PollEvents rs :: rest ->
  (forall j, (j <= Z.to_nat (nEndpoints (lb w)))%nat -> reports rs j = false) ->
  newClientCount (lb w) = 0 ->
  exists w',
    mainLoop_iteration w = (Ret true, w') /\
    emitted w w' = [SysPoll (watched (lb w)) (-1)] /\
    backlog (kernel w') = backlog (kernel w) /\
    quit (lb w') = quit (lb w) /\
    nextServer (lb w') = nextServer (lb w) /\
    newClientCount (lb w') = 0.
Proof.
  intros Hwf Hw Hno Hc.
  pose proof Hwf as (He & Hp & _ & Hn & Hm & _).
  destruct (after_wakeup w rs rest Hwf Hw) as (w1 & ps & E & Hlb & Hps & Hk & Ht).
  unfold mainLoop_iteration. rewrite (bind_Ret _ _ _ _ _ E).
  assert (Hp0 : pollers (lb w1) !! Z.to_nat 0 =
                Some {| pfd := fst (exitPipe (lb w)); events := POLLIN;
                        revents := nth 0 rs 0 |}).
  { rewrite Hlb. cbn [pollers set_pollers]. apply Hps. reflexivity. }
  rewrite (bind_Ret _ _ _ _ _
             (array_get_ok (fun w => pollers (lb w)) 0 w1 _ Hp0)).
  cbn [revents]. rewrite (reports_false rs 0) by (apply Hno; lia).
  cbn [Z.eqb negb]. rewrite bind_gets.
  assert (Hskip : scan_endpoints (Z.to_nat (nEndpoints (lb w1))) 0 w1 = (Ret tt, w1)).
  { apply scan_endpoints_skip; [lia|].
    intros j Hj. rewrite Hlb in Hj |- *. cbn [nEndpoints set_pollers pollers] in *.
    change (Z.to_nat 0) with 0%nat in Hj.
    destruct (lookup_lt_is_Some_2 (endpoints (lb w)) j ltac:(lia)) as [ep Hep].
    eexists. split; [apply Hps, (watched_endpoint _ _ ep); [lia|exact Hep]|].
    cbn [revents]. apply reports_false, Hno. lia. }
  rewrite (bind_Ret _ _ _ _ _ Hskip).
  unfold distributeNewClients. rewrite bind_assoc, bind_gets.
  replace (newClientCount (lb w1)) with 0 by (rewrite Hlb; cbn; lia).
  change (Z.to_nat 0) with 0%nat. cbn [distribute_loop].
  rewrite !bind_assoc, bind_ret, bind_modify.
  eexists. split; [reflexivity|].
  cbn [lb with_lb kernel trace quit nextServer newClientCount set_newClientCount].
  rewrite Hk, Hlb. repeat split.
  apply emitted_app. exact Ht.
Qed.

(** X3: a pass in which the wake-up reports one registered endpoint
    readable and nothing else, on a queue of fewer than 16 connections and
    without fault on the accept path: the pass accepts every connection of
    the queue and hands each of them over once, in queue order, to
    consecutive workers of the rotation starting at the cursor; the queue is
    empty, the burst is consumed, and the loop goes round again. *)
Theorem pass_one_readable_endpoint w rs rest j0 ep cs :
  well_formed (lb w) ->
  wakeups (kernel w) = PollEvents rs :: rest ->
  reports rs 0 = false ->
  (j0 < Z.to_nat (nEndpoints (lb w)))%nat ->
  endpoints (lb w) !! j0 = Some ep ->
  reports rs (S j0) = true ->
  (forall j, (j < Z.to_nat (nEndpoints (lb w)))%nat -> j <> j0 ->
     reports rs (S j) = false) ->
  queue (kernel w) ep = map Conn cs ->
  (length cs < 16)%nat ->
  accept4_usable (kernel w) ->
  flags_settable (kernel w) cs ->
  let N := Z.of_nat (length (servers (lb w))) in
  0 < N <= 2 ^ 32 ->
  0 <= nextServer (lb w) < N ->
  exists w',
    mainLoop_iteration w = (Ret true, w') /\
    dispatches (emitted w w') =
      imap (fun j c => ((nextServer (lb w) + Z.of_nat j) mod N, Z.of_N c)) cs /\
    queue (kernel w') ep = [] /\
    newClientCount (lb w') = 0 /\
    nextServer (lb w') = (nextServer (lb w) + Z.of_nat (length cs)) mod N /\
    quit (lb w') = quit (lb w).
Proof.
  intros Hwf Hw Hctl Hj0 Hep Hrd Hoth Hq HM Hu Hs N HN Hcur.
  pose proof Hwf as (He & Hp & Hb & Hn & Hm & _).
  destruct (after_wakeup w rs rest Hwf Hw) as (w1 & ps & E & Hlb & Hps & Hk & Ht).
  unfold mainLoop_iteration. rewrite (bind_Ret _ _ _ _ _ E).
  assert (Hp0 : pollers (lb w1) !! Z.to_nat 0 =
                Some {| pfd := fst (exitPipe (lb w)); events := POLLIN;
                        revents := nth 0 rs 0 |}).
  { rewrite Hlb. cbn [pollers set_pollers]. apply Hps. reflexivity. }
  rewrite (bind_Ret _ _ _ _ _
             (array_get_ok (fun w => pollers (lb w)) 0 w1 _ Hp0)).
  cbn [revents]. rewrite (reports_false rs 0 Hctl).
  cbn [Z.eqb negb]. rewrite bind_gets.
  assert (Hcell : forall j e, (j < Z.to_nat (nEndpoints (lb w)))%nat ->
            endpoints (lb w) !! j = Some e ->
            pollers (lb w1) !! S j =
            Some {| pfd := e; events := POLLIN; revents := nth (S j) rs 0 |}).
  { intros j e Hj Hje. rewrite Hlb. cbn [pollers set_pollers].
    apply Hps, watched_endpoint; assumption. }
  assert (Hn1 : nEndpoints (lb w1) = nEndpoints (lb w)) by (rewrite Hlb; reflexivity).
  assert (He1 : endpoints (lb w1) = endpoints (lb w)) by (rewrite Hlb; reflexivity).
  rewrite Hn1.
  assert (Hquiet : forall j, (j < Z.to_nat (nEndpoints (lb w)))%nat -> j <> j0 ->
            exists q, pollers (lb w1) !! S j = Some q /\
                      Z.land (revents q) POLLIN = 0).
  { intros j Hj Hne.
    destruct (lookup_lt_is_Some_2 (endpoints (lb w)) j ltac:(lia)) as [e Hje].
    eexists. split; [apply (Hcell j e); [lia|exact Hje]|].
    cbn [revents]. apply reports_false, Hoth; lia. }
  assert (Hfirst := scan_endpoints_first (Z.to_nat (nEndpoints (lb w))) 0 w1 j0
            {| pfd := ep; events := POLLIN; revents := nth (S j0) rs 0 |} ep
            ltac:(lia) ltac:(lia)
            ltac:(intros j Hj; apply Hquiet; lia)
            (Hcell j0 ep Hj0 Hep)
            ltac:(cbn [revents]; apply reports_true, Hrd)
            ltac:(rewrite He1; exact Hep)).
  rewrite (bind_cong _ _ _ _ Hfirst). clear Hfirst.
  destruct (acceptNewClients_drained ep w1 cs) as (w2 & E2 & (nc & b & Hlb2 & Hl2 & Hnc) & Hq2 & Hwk2 & evs & Ht2 & Hpath).
  { rewrite Hk. exact Hq. }
  { exact HM. }
  { rewrite Hk. exact Hu. }
  { rewrite Hk. exact Hs. }
  { rewrite Hlb. exact Hb. }
  rewrite !bind_assoc, (bind_Ret _ _ _ _ _ E2).
  assert (Hp2 : pollers (lb w2) = pollers (lb w1)) by (rewrite Hlb2; reflexivity).
  assert (Hskip : scan_endpoints (Z.to_nat 0 + Z.to_nat (nEndpoints (lb w)) - S j0)
                    (Z.of_nat (S j0)) w2 = (Ret tt, w2)).
  { apply scan_endpoints_skip; [lia|].
    intros j Hj. rewrite Hp2. apply Hquiet; lia. }
  rewrite (bind_Ret _ _ _ _ _ Hskip).
  unfold distributeNewClients. rewrite ?bind_assoc, bind_gets.
  assert (Hsv2 : servers (lb w2) = servers (lb w)) by (rewrite Hlb2, Hlb; reflexivity).
  assert (Hnx2 : nextServer (lb w2) = nextServer (lb w)) by (rewrite Hlb2, Hlb; reflexivity).
  assert (Hct2 : newClientCount (lb w2) = Z.of_nat (length cs)) by (rewrite Hlb2; reflexivity).
  assert (Hnc2 : newClients (lb w2) = nc) by (rewrite Hlb2; reflexivity).
  destruct (distribute_loop_order (length cs) 0 w2)
    as (w3 & E3 & Hlb3 & evs3 & Ht3 & Hd3).
  { rewrite Hsv2. exact HN. }
  { rewrite Hsv2, Hnx2. exact Hcur. }
  { lia. }
  { rewrite Hnc2, Hl2, Hlb. change (newClients (set_pollers ps (lb w))) with (newClients (lb w)).
    rewrite Hb. change (Z.to_nat ACCEPT_BURST_COUNT) with 16%nat.
    change (Z.to_nat 0) with 0%nat. lia. }
  rewrite Hct2, Nat2Z.id, ?bind_assoc, (bind_Ret _ _ _ _ _ E3), bind_modify.
  eexists. split; [reflexivity|].
  cbn [lb with_lb kernel trace].
  rewrite Hsv2, Hnx2, Hnc2 in *. fold N in Hlb3, Hd3.
  change (Z.to_nat 0) with 0%nat in Hd3. rewrite drop_0, Hnc in Hd3.
  split; [|split; [|split; [|split]]].
  - rewrite (emitted_app w _ ([SysPoll (watched (lb w)) (-1)] ++ evs ++ evs3)).
    + rewrite !dispatches_app, (dispatches_accept_path _ Hpath), Hd3.
      cbn [dispatches app]. rewrite imap_fmap. reflexivity.
    + cbn [trace with_lb]. rewrite Ht3, Ht2, Ht, <- !app_assoc. reflexivity.
  - assert (Hk3 : kernel w3 = kernel w2).
    { pose proof (distribute_loop_kernel (length cs) 0 w2) as Hk3.
      rewrite E3 in Hk3. exact Hk3. }
    rewrite Hk3. exact Hq2.
  - rewrite Hlb3. reflexivity.
  - rewrite Hlb3. reflexivity.
  - rewrite Hlb3, Hlb2, Hlb. reflexivity.
Qed.

End Pass.

(** Two endpoints with one connection each; a burst on the first. *)
Lemma burst_leaves_other_queues_witness :
  let w := world_of (fresh_object [100])
             (kernel_of {[ 10 := [Conn 20%N]; 11 := [Conn 21%N] ]} None []) in
  queue (kernel (snd (@acceptNewClients linux 10 w))) 11 = queue (kernel w) 11.
Proof.
  intros w. apply (@burst_leaves_other_queues linux 10 11 w). discriminate.
Defined.

(** Two endpoints; the wake-up reports an error condition on the second and
    nothing readable. *)
Lemma pass_without_input_witness :
  let w := world_of
             (set_nEndpoints 2
                (set_endpoints [10; 11; 7; 7] (fresh_object [100; 101; 102])))
             (kernel_of {[ 11 := [Conn 20%N] ]} None [PollEvents [0; 0; 8]]) in
  exists w',
    @mainLoop_iteration linux w = (Ret true, w') /\
    emitted w w' = [SysPoll [3; 10; 11] (-1)] /\
    backlog (kernel w') = backlog (kernel w) /\
    quit (lb w') = quit (lb w) /\
    nextServer (lb w') = nextServer (lb w) /\
    newClientCount (lb w') = 0.
Proof.
  intros w. apply (@pass_without_input linux w [0; 0; 8] []).
  - repeat split; try reflexivity; vm_compute; congruence.
  - reflexivity.
  - intros j Hj. change (j <= 2)%nat in Hj.
    destruct j as [|[|[|j]]]; [reflexivity..|lia].
  - reflexivity.
Defined.

(** Two endpoints and three workers; the wake-up reports the second
    endpoint, on which two connections wait. *)
Lemma pass_one_readable_endpoint_witness :
  let w := world_of
             (set_nEndpoints 2
                (set_endpoints [10; 11; 7; 7] (fresh_object [100; 101; 102])))
             (kernel_of {[ 11 := [Conn 20%N; Conn 21%N] ]} None
                [PollEvents [0; 0; 1]]) in
  exists w',
    @mainLoop_iteration linux w = (Ret true, w') /\
    dispatches (emitted w w') = [(0, 20); (1, 21)] /\
    queue (kernel w') 11 = [] /\
    newClientCount (lb w') = 0 /\
    nextServer (lb w') = 2 /\
    quit (lb w') = quit (lb w).
Proof.
  intros w.
  apply (@pass_one_readable_endpoint linux w [0; 0; 1] [] 1%nat 11 [20%N; 21%N]).
  - repeat split; try reflexivity; vm_compute; congruence.
  - reflexivity.
  - reflexivity.
  - vm_compute. lia.
  - reflexivity.
  - reflexivity.
  - intros j Hj Hne. change (j < 2)%nat in Hj.
    destruct j as [|[|j]]; [reflexivity|congruence|lia].
  - reflexivity.
  - cbn. lia.
  - exact I.
  - intros c _. reflexivity.
  - vm_compute. split; congruence.
  - vm_compute. split; congruence.
Defined.

(** ** A pass in which an accept fails *)

Section FailedBurst.
Context `{Platform}.

Ltac acc_next :=
  cbn -[queue Z.eqb];
  cbn [kernel lb errno with_errno record with_lb with_kernel fcntl_fault
       set_backlog set_nonblocking accept4_reject wouldblock_alt].

Ltac acc_run :=
  unfold acceptNonBlockingSocket, acceptNonBlockingSocket_rec, callAccept4,
    sys_accept, dequeue, setNonBlocking, sys_close, try_catch,
    emit, bind, gets, modify, ret, raise;
  acc_next.

(** With a fault at the head of the queue that does not read as "the
    combined primitive is unsupported", an accept attempt fails with it. *)
Lemma accept_fault serverFd w e q :
  queue (kernel w) serverFd = Fault e :: q ->
  accept4_usable (kernel w) ->
  e <> ENOSYS -> e <> EINVAL ->
  fst (acceptNonBlockingSocket serverFd w) = Ret (-1) /\
  errno (snd (acceptNonBlockingSocket serverFd w)) = e /\
  queue (kernel (snd (acceptNonBlockingSocket serverFd w))) serverFd = q.
Proof.
  intros Hq Hu He1 He2. unfold accept4_usable in Hu.
  acc_run.
  destruct (accept4Available (lb w));
    [destruct (accept4_reject (kernel w)) as [e0|]|].
  - replace ((-1 =? -1) && ((e0 =? ENOSYS) || (e0 =? EINVAL))) with true
      by (symmetry; rewrite andb_true_iff, orb_true_iff; lia).
    acc_next. rewrite Hq. acc_next.
    unfold queue; cbn; rewrite lookup_insert_eq; auto.
  - acc_next. rewrite Hq. acc_next.
    replace ((-1 =? -1) && ((e =? ENOSYS) || (e =? EINVAL))) with false
      by (symmetry; rewrite andb_false_iff, orb_false_iff; right; lia).
    acc_next. unfold queue; cbn; rewrite lookup_insert_eq; auto.
  - acc_next. rewrite Hq. acc_next.
    unfold queue; cbn; rewrite lookup_insert_eq; auto.
Qed.

(** A burst on a queue that holds connections and then a fault: it takes
    the connections before the fault into consecutive cells of the buffer
    and ends on the fault. *)
Lemma accept_burst_fault endpoint cs n i w e q :
  queue (kernel w) endpoint = map Conn cs ++ Fault e :: q ->
  accept4_usable (kernel w) ->
  flags_settable (kernel w) cs ->
  e <> ENOSYS -> e <> EINVAL ->
  0 <= i ->
  (length cs < n)%nat ->
  (Z.to_nat i + n <= length (newClients (lb w)))%nat ->
  exists w',
    accept_burst n i endpoint w =
      (Ret (i + Z.of_nat (length cs), true, e), w') /\
    queue (kernel w') endpoint = q /\
    (forall j c, cs !! j = Some c ->
       newClients (lb w') !! (Z.to_nat i + j)%nat = Some (Z.of_N c)) /\
    (forall p, (p < Z.to_nat i)%nat ->
       newClients (lb w') !! p = newClients (lb w) !! p) /\
    burst_frame w w'.
Proof.
  revert n i w. induction cs as [|c cs IH]; intros n i w Hq Hu Hs He1 He2 Hi Hn Hlen;
    (destruct n as [|n]; [cbn in Hn; lia|]); cbn [accept_burst].
  all: destruct (acceptNonBlockingSocket_frame endpoint w) as [_ Hfa].
  all: assert (Hnc : newClients (lb (snd (acceptNonBlockingSocket endpoint w))) =
                     newClients (lb w))
         by (destruct Hfa as [[->|[_ ->]] _ _ _ _ _ _]; reflexivity).
  all: pose proof (accept_frame_burst _ _ Hfa) as Hfr.
  - destruct (accept_fault endpoint w e q Hq Hu He1 He2) as (Hr & He & Hq').
    destruct (acceptNonBlockingSocket endpoint w) as [o w1] eqn:E.
    cbn [fst snd] in *. subst o.
    rewrite (bind_Ret _ _ _ _ _ E). cbn [Z.eqb Pos.eqb]. rewrite bind_gets, He.
    exists w1. split; [|split; [|split; [|split]]].
    + unfold ret. cbn. rewrite Z.add_0_r. reflexivity.
    + exact Hq'.
    + intros j c Hc. discriminate Hc.
    + intros p _. rewrite Hnc. reflexivity.
    + exact Hfr.
  - assert (Hfc : fcntl_fault (kernel w) !! Z.of_N c = None)
      by (apply Hs; left).
    destruct (accept_conn endpoint w c (map Conn cs ++ Fault e :: q) Hq Hu Hfc)
      as (Hr & Hq').
    destruct (acceptNonBlockingSocket endpoint w) as [o w1] eqn:E.
    cbn [fst snd] in *. subst o.
    rewrite (bind_Ret _ _ _ _ _ E).
    replace (Z.of_N c =? -1) with false by (symmetry; apply Z.eqb_neq; lia).
    unfold array_upd at 1. unfold bind at 1.
    destruct (newClients (lb w1) !! Z.to_nat i) as [v|] eqn:Hv.
    2:{ apply lookup_ge_None in Hv. rewrite Hnc in Hv. exfalso. lia. }
    set (w2 := with_lb _ w1).
    assert (Hfr2 : burst_frame w1 w2).
    { split; try reflexivity.
      - exists (<[Z.to_nat i := Z.of_N c]> (newClients (lb w1))), (accept4Available (lb w1)).
        split; [|apply length_insert].
        subst w2. cbn. destruct (lb w1); reflexivity.
      - exists []. rewrite app_nil_r. auto. }
    destruct (IH n (i + 1) w2) as (w' & E' & Hq'' & Hin & Hout & Hfr').
    + exact Hq'.
    + unfold accept4_usable. subst w2. cbn [kernel with_lb].
      rewrite (af_reject _ _ Hfa). exact Hu.
    + intros c' Hc'. subst w2. cbn [kernel with_lb].
      rewrite (af_fcntl _ _ Hfa). apply Hs. right. exact Hc'.
    + exact He1.
    + exact He2.
    + lia.
    + cbn in Hn. lia.
    + subst w2. cbn. rewrite length_insert, Hnc. lia.
    + exists w'. split; [|split; [|split; [|split]]].
      * rewrite E'. cbn [length].
        replace (i + 1 + Z.of_nat (length cs))
          with (i + Z.of_nat (S (length cs))) by lia.
        reflexivity.
      * exact Hq''.
      * intros [|j] c' Hc'.
        -- cbn in Hc'. injection Hc' as <-.
           rewrite Nat.add_0_r, Hout by lia.
           subst w2. cbn. apply list_lookup_insert_eq.
           apply lookup_lt_Some in Hv. exact Hv.
        -- cbn in Hc'.
           replace (Z.to_nat i + S j)%nat with (Z.to_nat (i + 1) + j)%nat by lia.
           apply Hin. exact Hc'.
      * intros p Hp. rewrite Hout by lia. subst w2. cbn.
        rewrite list_lookup_insert_ne by lia. rewrite Hnc. reflexivity.
      * eapply burst_frame_trans; [exact Hfr|].
        eapply burst_frame_trans; [exact Hfr2|exact Hfr'].
Qed.

(** What follows a burst that ended on an error other than "would
    block". *)
Lemma acceptNewClients_error endpoint w i e w1 :
  pollers (lb w1) <> [] ->
  accept_burst (Z.to_nat ACCEPT_BURST_COUNT) 0 endpoint w = (Ret (i, true, e), w1) ->
  e <> EAGAIN -> e <> EWOULDBLOCK ->
  exists w2,
    acceptNewClients endpoint w = (Ret false, w2) /\
    quit (lb w2) = quit (lb w1) || control_fires (kernel w1) /\
    newClientCount (lb w2) = bitfield 4 i /\
    newClients (lb w2) = newClients (lb w1) /\
    servers (lb w2) = servers (lb w1) /\
    nextServer (lb w2) = nextServer (lb w1) /\
    backlog (kernel w2) = backlog (kernel w1) /\
    trace w2 = trace w1 ++
      [Log LError e; SysPoll [fst (exitPipe (lb w1))] 3] ++
      (if control_fires (kernel w1) then [] else [Log LNotice 0]).
Proof.
  intros Hps E He1 He2.
  unfold acceptNewClients. rewrite (bind_Ret _ _ _ _ _ E).
  rewrite bind_modify.
  replace (true && negb (e =? EAGAIN) && negb (e =? EWOULDBLOCK)) with true
    by (symmetry; rewrite !andb_true_iff, !negb_true_iff; lia).
  rewrite bind_emit, bind_gets.
  set (w1' := record _ _).
  destruct (pollers (lb w1)) as [|p ps] eqn:Hpw; [congruence|].
  assert (Hp1 : pollers (lb w1') = p :: ps).
  { subst w1'. cbn. exact Hpw. }
  assert (Hp0 : pollers (lb w1') !! Z.to_nat 0 = Some p) by (rewrite Hp1; reflexivity).
  rewrite (bind_Ret _ _ _ _ _ (watch_ok 0 _ w1' p Hp0)).
  set (w1'' := with_lb _ w1').
  assert (Hp2 : pollers (lb w1'') =
                {| pfd := fst (exitPipe (lb w1')); events := POLLIN;
                   revents := revents p |} :: ps).
  { subst w1''. cbn [lb with_lb pollers set_pollers]. rewrite Hp1. reflexivity. }
  destruct (cooldown_wait w1'' _ ps Hp2)
    as (n & w3 & Ew & Hn & Ht3 & ps' & Hlb3).
  pose proof (sys_poll_backlog 1 3 w1'') as Hb3. rewrite Ew in Hb3.
  cbn [snd] in Hb3.
  rewrite (bind_Ret _ _ _ _ _ Ew).
  change (control_fires (kernel w1'')) with (control_fires (kernel w1)) in Hn.
  rewrite Hn. cbn [pfd] in Ht3.
  change (fst (exitPipe (lb w1'))) with (fst (exitPipe (lb w1))) in Ht3.
  destruct (control_fires (kernel w1)).
  - rewrite bind_modify. eexists. split; [reflexivity|].
    cbn [lb with_lb trace kernel]. rewrite Hlb3, Hb3, Ht3, orb_true_r.
    subst w1'' w1'. cbn. rewrite <- app_assoc. repeat split.
  - rewrite bind_emit. eexists. split; [reflexivity|].
    cbn [lb record trace kernel]. rewrite Hlb3, Hb3, Ht3, orb_false_r.
    subst w1'' w1'. cbn. rewrite <- !app_assoc. repeat split.
Qed.

Lemma distribute_loop_waits n i w :
  List.filter is_wait (trace (snd (distribute_loop n i w))) =
  List.filter is_wait (trace w).
Proof.
  revert i w. induction n as [|n IH]; intros i w; cbn [distribute_loop];
    [reflexivity|].
  rewrite bind_gets. unfold array_get at 1. unfold bind at 1.
  destruct (servers _ !! _); [|reflexivity].
  unfold array_get at 1. unfold bind at 1.
  destruct (newClients _ !! _); [|reflexivity].
  rewrite bind_emit, bind_gets. destruct (_ =? 0).
  - cbn. rewrite List.filter_app. cbn. apply app_nil_r.
  - rewrite bind_modify, IH. cbn. rewrite List.filter_app. cbn. apply app_nil_r.
Qed.

Lemma control_fires_wakeups k k' :
  wakeups k' = wakeups k -> control_fires k' = control_fires k.
Proof. unfold control_fires. intros ->. reflexivity. Qed.

(** X4: a pass in which the first readable endpoint delivers some
    connections and then an accept error other than "would block" (and
    other than the codes that retire the combined primitive).  The scan
    stops there: no other endpoint is served in this pass, readable or not.
    The connections accepted before the error are still handed over, in
    order, to consecutive workers from the cursor.  The pass makes two
    waits, the primary one and the cooldown of 3 on the exit pipe alone, and
    sets the quit flag exactly when the exit pipe fires during the cooldown;
    the hand-over happens in either case. *)
Theorem pass_accept_error w rs rest j0 ep cs e q :
  well_formed (lb w) ->
  wakeups (kernel w) = PollEvents rs :: rest ->
  reports rs 0 = false ->
  (j0 < Z.to_nat (nEndpoints (lb w)))%nat ->
  endpoints (lb w) !! j0 = Some ep ->
  reports rs (S j0) = true ->
  (forall j, (j < j0)%nat -> reports rs (S j) = false) ->
  queue (kernel w) ep = map Conn cs ++ Fault e :: q ->
  (length cs < 16)%nat ->
  e <> EAGAIN -> e <> EWOULDBLOCK -> e <> ENOSYS -> e <> EINVAL ->
  accept4_usable (kernel w) ->
  flags_settable (kernel w) cs ->
  let N := Z.of_nat (length (servers (lb w))) in
  0 < N <= 2 ^ 32 ->
  0 <= nextServer (lb w) < N ->
  exists w',
    mainLoop_iteration w = (Ret true, w') /\
    dispatches (emitted w w') =
      imap (fun j c => ((nextServer (lb w) + Z.of_nat j) mod N, Z.of_N c)) cs /\
    List.filter is_wait (emitted w w') =
      [SysPoll (watched (lb w)) (-1); SysPoll [fst (exitPipe (lb w))] 3] /\
    queue (kernel w') ep = q /\
    (forall other, other <> ep ->
       queue (kernel w') other = queue (kernel w) other) /\
    quit (lb w') = quit (lb w) || control_fires (set_wakeups rest (kernel w)) /\
    newClientCount (lb w') = 0 /\
    nextServer (lb w') = (nextServer (lb w) + Z.of_nat (length cs)) mod N.
Proof.
  intros Hwf Hw Hctl Hj0 Hep Hrd Hbef Hq HM He1 He2 He3 He4 Hu Hs N HN Hcur.
  pose proof Hwf as (He & Hp & Hb & Hn & Hm & _).
  destruct (after_wakeup w rs rest Hwf Hw) as (w1 & ps & E & Hlb & Hps & Hk & Ht).
  unfold mainLoop_iteration. rewrite (bind_Ret _ _ _ _ _ E).
  assert (Hp0 : pollers (lb w1) !! Z.to_nat 0 =
                Some {| pfd := fst (exitPipe (lb w)); events := POLLIN;
                        revents := nth 0 rs 0 |}).
  { rewrite Hlb. cbn [pollers set_pollers]. apply Hps. reflexivity. }
  rewrite (bind_Ret _ _ _ _ _
             (array_get_ok (fun w => pollers (lb w)) 0 w1 _ Hp0)).
  cbn [revents]. rewrite (reports_false rs 0 Hctl).
  cbn [Z.eqb negb]. rewrite bind_gets.
  assert (Hcell : forall j e, (j < Z.to_nat (nEndpoints (lb w)))%nat ->
            endpoints (lb w) !! j = Some e ->
            pollers (lb w1) !! S j =
            Some {| pfd := e; events := POLLIN; revents := nth (S j) rs 0 |}).
  { intros j e' Hj Hje. rewrite Hlb. cbn [pollers set_pollers].
    apply Hps, watched_endpoint; assumption. }
  assert (Hn1 : nEndpoints (lb w1) = nEndpoints (lb w)) by (rewrite Hlb; reflexivity).
  assert (He1' : endpoints (lb w1) = endpoints (lb w)) by (rewrite Hlb; reflexivity).
  rewrite Hn1.
  assert (Hfirst := scan_endpoints_first (Z.to_nat (nEndpoints (lb w))) 0 w1 j0
            {| pfd := ep; events := POLLIN; revents := nth (S j0) rs 0 |} ep
            ltac:(lia) ltac:(lia)
            ltac:(intros j Hj;
                  destruct (lookup_lt_is_Some_2 (endpoints (lb w)) j ltac:(lia))
                    as [e' Hje];
                  eexists; split; [apply (Hcell j e'); [lia|exact Hje]|];
                  cbn [revents]; apply reports_false, Hbef; lia)
            (Hcell j0 ep Hj0 Hep)
            ltac:(cbn [revents]; apply reports_true, Hrd)
            ltac:(rewrite He1'; exact Hep)).
  rewrite (bind_cong _ _ _ _ Hfirst). clear Hfirst.
  destruct (accept_burst_fault ep cs (Z.to_nat ACCEPT_BURST_COUNT) 0 w1 e q)
    as (w1b & Eb & Hqb & Hin & _ & Hfr).
  { rewrite Hk. exact Hq. }
  { rewrite Hk. exact Hu. }
  { rewrite Hk. exact Hs. }
  { exact He3. }
  { exact He4. }
  { lia. }
  { change (Z.to_nat ACCEPT_BURST_COUNT) with 16%nat. lia. }
  { rewrite Hlb. change (newClients (set_pollers ps (lb w))) with (newClients (lb w)).
    rewrite Hb. change (Z.to_nat 0) with 0%nat. lia. }
  destruct Hfr as [(nc & b & Hlbb & Hl) _ _ _ Hwk _ (evs & Htb & Hpath)].
  destruct (acceptNewClients_error ep w1 (0 + Z.of_nat (length cs)) e w1b) as
    (w2 & E2 & Hq2 & Hc2 & Hnc2 & Hsv2 & Hnx2 & Hbl2 & Ht2).
  { rewrite Hlbb, Hlb. cbn [pollers set_newClients set_accept4Available set_pollers].
    intros ->. specialize (Hps 0%nat (fst (exitPipe (lb w))) eq_refl).
    discriminate Hps. }
  { exact Eb. }
  { exact He1. }
  { exact He2. }
  rewrite !bind_assoc, (bind_Ret _ _ _ _ _ E2), bind_ret.
  unfold distributeNewClients. rewrite ?bind_assoc, bind_gets.
  assert (Hsv : servers (lb w2) = servers (lb w))
    by (rewrite Hsv2, Hlbb, Hlb; reflexivity).
  assert (Hnx : nextServer (lb w2) = nextServer (lb w))
    by (rewrite Hnx2, Hlbb, Hlb; reflexivity).
  assert (Hct : newClientCount (lb w2) = Z.of_nat (length cs)).
  { rewrite Hc2. unfold bitfield. rewrite Z.mod_small; [lia|].
    change (2 ^ 4) with 16. lia. }
  assert (Hncb : newClients (lb w2) = nc) by (rewrite Hnc2, Hlbb; reflexivity).
  assert (Htake : take (length cs) nc = map Z.of_N cs).
  { rewrite Hlbb in Hin. cbn in Hin.
    apply list_eq. intros j. rewrite list_lookup_fmap.
    destruct (decide (j < length cs)%nat) as [Hj|Hj].
    - rewrite lookup_take_lt by lia.
      destruct (lookup_lt_is_Some_2 cs j Hj) as [c Hc].
      rewrite Hc. cbn. apply (Hin j c). exact Hc.
    - rewrite lookup_take_ge by lia.
      rewrite (lookup_ge_None_2 cs j) by lia. reflexivity. }
  destruct (distribute_loop_order (length cs) 0 w2)
    as (w3 & E3 & Hlb3 & evs3 & Ht3 & Hd3).
  { rewrite Hsv. exact HN. }
  { rewrite Hsv, Hnx. exact Hcur. }
  { lia. }
  { rewrite Hncb, Hl, Hlb.
    change (newClients (set_pollers ps (lb w))) with (newClients (lb w)).
    rewrite Hb. change (Z.to_nat ACCEPT_BURST_COUNT) with 16%nat.
    change (Z.to_nat 0) with 0%nat. lia. }
  rewrite Hct, Nat2Z.id, ?bind_assoc, (bind_Ret _ _ _ _ _ E3), bind_modify.
  eexists. split; [reflexivity|].
  cbn [lb with_lb kernel trace].
  rewrite Hsv, Hnx, Hncb in *. fold N in Hlb3, Hd3.
  change (Z.to_nat 0) with 0%nat in Hd3. rewrite drop_0, Htake in Hd3.
  assert (Hk3 : kernel w3 = kernel w2).
  { pose proof (distribute_loop_kernel (length cs) 0 w2) as Hk3.
    rewrite E3 in Hk3. exact Hk3. }
  assert (Hfire : control_fires (kernel w1b) =
                  control_fires (set_wakeups rest (kernel w))).
  { rewrite <- Hk. apply control_fires_wakeups, Hwk. }
  assert (Hpipe : fst (exitPipe (lb w1b)) = fst (exitPipe (lb w)))
    by (rewrite Hlbb, Hlb; reflexivity).
  rewrite Hfire, Hpipe in Ht2.
  assert (Htr : trace w3 = trace w ++
            [SysPoll (watched (lb w)) (-1)] ++ evs ++
            ([Log LError e; SysPoll [fst (exitPipe (lb w))] 3] ++
             (if control_fires (set_wakeups rest (kernel w)) then []
              else [Log LNotice 0])) ++ evs3).
  { rewrite Ht3, Ht2, Htb, Ht, <- !app_assoc. reflexivity. }
  rewrite (emitted_app w (with_lb (set_newClientCount 0) w3) _ Htr).
  split; [|split; [|split; [|split; [|split; [|split]]]]].
  - rewrite !dispatches_app, (dispatches_accept_path _ Hpath), Hd3.
    destruct (control_fires (set_wakeups rest (kernel w)));
      cbn [dispatches app]; rewrite imap_fmap; reflexivity.
  - assert (Hw3 : List.filter is_wait evs3 = []).
    { pose proof (distribute_loop_waits (length cs) 0 w2) as Hw3.
      rewrite E3 in Hw3. cbn [snd] in Hw3.
      rewrite Ht3, List.filter_app in Hw3.
      rewrite <- (app_nil_r (List.filter is_wait (trace w2))) in Hw3 at 2.
      apply app_inv_head in Hw3. exact Hw3. }
    rewrite !List.filter_app, (accept_path_no_wait _ Hpath), Hw3.
    destruct (control_fires (set_wakeups rest (kernel w))); reflexivity.
  - rewrite Hk3. unfold queue in *. rewrite Hbl2. exact Hqb.
  - intros other Hne. rewrite Hk3. unfold queue at 1. rewrite Hbl2.
    pose proof (accept_burst_other_queue ep other
                  (Z.to_nat ACCEPT_BURST_COUNT) 0 w1 ltac:(congruence)) as Ho.
    rewrite Eb in Ho. cbn [snd] in Ho. unfold queue in Ho |- *.
    rewrite Ho, Hk. reflexivity.
  - rewrite Hlb3. cbn [quit set_newClientCount set_nextServer].
    rewrite Hq2, Hfire, Hlbb, Hlb. reflexivity.
  - reflexivity.
  - rewrite Hlb3. reflexivity.
Qed.

End FailedBurst.

(** ** What the loop never does *)

Section Confinement.
Context `{Platform}.
Variable w0 : World.

Lemma loop_step_refl o w : loop_step o w w.
Proof. split; auto. exists []. rewrite app_nil_r. auto. Qed.

Lemma loop_step_trans o a b c :
  loop_step o a b -> loop_step o b c -> loop_step o a c.
Proof.
  intros [E1 N1 P1 T1 S1 (evs1 & Ht1 & Hf1)] [E2 N2 P2 T2 S2 (evs2 & Ht2 & Hf2)].
  split; try congruence.
  exists (evs1 ++ evs2). rewrite Ht2, Ht1, app_assoc, forallb_app, Hf1, Hf2.
  auto.
Qed.

Ltac cstep :=
  split; cbn [lb trace record with_lb with_kernel with_errno
              endpoints nEndpoints exitPipe thread servers
              set_pollers set_newClients set_newClientCount set_quit
              set_accept4Available set_nextServer];
  try reflexivity; trace_ext.

Ltac cprim :=
  intros;
  match goal with
  | HI : loop_step _ _ ?w |- loop_step _ _ _ =>
      apply (loop_step_trans _ _ w); [exact HI|]
  end;
  unfold sys_poll, watch, array_upd, array_get, sys_close,
    setNonBlocking, try_catch, bind, gets, modify, emit, ret, raise;
  cbn -[Z.to_nat fill_revents ready_count take];
  repeat (destruct_inner; cbn -[Z.to_nat fill_revents ready_count take]);
  try first [apply loop_step_refl | cstep].

Lemma sys_poll_confined nfds timeout w :
  loop_step (lb w0) w0 w ->
  loop_step (lb w0) w0 (snd (sys_poll nfds timeout w)).
Proof. cprim. Qed.

Lemma watch_confined i fd w :
  loop_step (lb w0) w0 w ->
  loop_step (lb w0) w0 (snd (watch i fd w)).
Proof. cprim. Qed.

Lemma store_newClient_confined i fd w :
  loop_step (lb w0) w0 w ->
  loop_step (lb w0) w0 (snd (array_upd newClients set_newClients i (fun _ => fd) w)).
Proof. cprim. Qed.

Lemma array_get_confined {A} (arr : World -> list A) i w :
  loop_step (lb w0) w0 w -> loop_step (lb w0) w0 (snd (array_get arr i w)).
Proof. cprim. Qed.

Lemma acceptNonBlockingSocket_confined serverFd w :
  serverFd ∈ registered (lb w0) ->
  loop_step (lb w0) w0 w ->
  loop_step (lb w0) w0 (snd (acceptNonBlockingSocket serverFd w)).
Proof.
  intros Hin HI. apply (loop_step_trans _ _ w); [exact HI|].
  unfold acceptNonBlockingSocket, acceptNonBlockingSocket_rec, callAccept4,
    sys_accept, dequeue, setNonBlocking, sys_close, try_catch,
    emit, bind, gets, modify, ret, raise.
  cbn. repeat (destruct_inner; cbn).
  all: split; cbn; try reflexivity.
  all: rewrite <- ?app_assoc; eexists; split; [reflexivity|].
  all: cbn [forallb loop_event andb app];
    rewrite ?(bool_decide_eq_true_2 _ Hin); reflexivity.
Qed.

Ltac confined_step :=
  match goal with
  | |- loop_step _ _ (snd (bind (gets _) _ _)) => rewrite bind_gets
  | |- loop_step _ _ (snd (bind _ _ _)) => apply bind_keeps; [|intros ? ? ?]
  | |- loop_step _ _ (snd ((if ?b then _ else _) _)) => destruct b
  | |- loop_step _ _ (snd ((let '(_, _) := ?x in _) _)) => destruct x
  | |- loop_step _ _ (snd (ret _ _)) => assumption
  | |- loop_step _ _ (snd (raise _ _)) => assumption
  | |- loop_step _ _ (snd (modify _ _)) => cprim
  | |- loop_step _ _ (snd (emit _ _)) => cprim
  | |- loop_step _ _ (snd (sys_poll _ _ _)) => apply sys_poll_confined
  | |- loop_step _ _ (snd (watch _ _ _)) => apply watch_confined
  | |- loop_step _ _ (snd (array_get _ _ _)) => apply array_get_confined
  | |- loop_step _ _ (snd (array_upd newClients _ _ _ _)) =>
      apply store_newClient_confined
  | |- loop_step _ _ _ => assumption
  end.

Ltac confined := intros; repeat confined_step.

Lemma accept_burst_confined n i endpoint w :
  endpoint ∈ registered (lb w0) ->
  loop_step (lb w0) w0 w ->
  loop_step (lb w0) w0 (snd (accept_burst n i endpoint w)).
Proof.
  intros Hin. revert i w. induction n as [|n IH]; intros i w HI;
    cbn [accept_burst].
  - exact HI.
  - apply bind_keeps; [apply acceptNonBlockingSocket_confined; assumption|].
    confined. apply IH. assumption.
Qed.

Lemma acceptNewClients_confined endpoint w :
  endpoint ∈ registered (lb w0) ->
  loop_step (lb w0) w0 w ->
  loop_step (lb w0) w0 (snd (acceptNewClients endpoint w)).
Proof.
  intros Hin HI. unfold acceptNewClients.
  apply bind_keeps; [apply accept_burst_confined; assumption|].
  intros [[i error] errcode] w1 H1. confined.
Qed.

Lemma watch_endpoints_confined n i w :
  loop_step (lb w0) w0 w ->
  loop_step (lb w0) w0 (snd (watch_endpoints n i w)).
Proof.
  revert i w. induction n as [|n IH]; intros i w HI; cbn [watch_endpoints].
  - exact HI.
  - confined. apply IH. assumption.
Qed.

Lemma pollAllEndpoints_confined w :
  loop_step (lb w0) w0 w ->
  loop_step (lb w0) w0 (snd (pollAllEndpoints w)).
Proof.
  intros HI. unfold pollAllEndpoints. confined.
  apply watch_endpoints_confined. assumption.
Qed.

Lemma distribute_loop_confined n i w :
  loop_step (lb w0) w0 w ->
  loop_step (lb w0) w0 (snd (distribute_loop n i w)).
Proof.
  revert i w. induction n as [|n IH]; intros i w HI; cbn [distribute_loop].
  - exact HI.
  - rewrite bind_gets. unfold array_get at 1. unfold bind at 1.
    destruct (servers (lb w) !! Z.to_nat (nextServer (lb w))) as [srv|] eqn:Hs;
      [|exact HI].
    unfold array_get at 1. unfold bind at 1.
    destruct (newClients (lb w) !! Z.to_nat i) as [fd|]; [|exact HI].
    rewrite bind_emit, bind_gets.
    cbn [lb record].
    destruct (Z.of_nat (length (servers (lb w))) =? 0) eqn:Hz.
    { apply lookup_lt_Some in Hs. lia. }
    rewrite bind_modify. apply IH.
    apply (loop_step_trans _ _ w); [exact HI|].
    split; try reflexivity.
    exists [RunLater (nextServer (lb w)) srv fd]. split; [reflexivity|].
    cbn [forallb loop_event andb].
    rewrite bool_decide_eq_true_2; [reflexivity|].
    rewrite <- (ls_servers _ _ _ HI). exact Hs.
Qed.

Lemma distributeNewClients_confined w :
  loop_step (lb w0) w0 w -> loop_step (lb w0) w0 (snd (distributeNewClients w)).
Proof.
  intros HI. unfold distributeNewClients. confined.
  apply distribute_loop_confined. assumption.
Qed.

Lemma scan_endpoints_confined n i w :
  0 <= i ->
  (Z.to_nat i + n <= Z.to_nat (nEndpoints (lb w0)))%nat ->
  loop_step (lb w0) w0 w -> loop_step (lb w0) w0 (snd (scan_endpoints n i w)).
Proof.
  revert i w. induction n as [|n IH]; intros i w Hi Hn HI; cbn [scan_endpoints].
  - exact HI.
  - apply bind_keeps; [apply array_get_confined, HI|]. intros p w1 H1.
    destruct (negb _); [|apply IH; [lia|lia|exact H1]].
    unfold array_get at 1. unfold bind at 1.
    destruct (endpoints (lb w1) !! Z.to_nat i) as [ep|] eqn:Hep; [|exact H1].
    apply bind_keeps.
    + apply acceptNewClients_confined; [|exact H1].
      rewrite (ls_endpoints _ _ _ H1) in Hep.
      apply (list_elem_of_lookup_2 _ (Z.to_nat i)).
      unfold registered. rewrite lookup_take_lt by lia. exact Hep.
    + intros [|] w2 H2; [apply IH; [lia|lia|exact H2]|exact H2].
Qed.

Lemma mainLoop_iteration_confined w :
  loop_step (lb w0) w0 w ->
  loop_step (lb w0) w0 (snd (mainLoop_iteration w)).
Proof.
  intros HI. unfold mainLoop_iteration.
  apply bind_keeps; [apply pollAllEndpoints_confined, HI|]. intros _ w1 H1.
  apply bind_keeps; [apply array_get_confined, H1|]. intros p w2 H2.
  destruct (negb _); [confined|].
  rewrite bind_gets.
  apply bind_keeps.
  - apply scan_endpoints_confined; [lia| |exact H2].
    rewrite (ls_nEndpoints _ _ _ H2). change (Z.to_nat 0) with 0%nat. lia.
  - intros _ w3 H3.
    apply bind_keeps; [apply distributeNewClients_confined, H3|].
    intros _ w4 H4. exact H4.
Qed.

Lemma mainLoop_loop_step fuel w :
  loop_step (lb w0) w0 w ->
  loop_step (lb w0) w0 (snd (mainLoop fuel w)).
Proof.
  revert w. induction fuel as [|fuel IH]; intros w HI; cbn [mainLoop].
  - exact HI.
  - rewrite bind_gets. destruct (quit (lb w)); [exact HI|].
    apply bind_keeps; [apply mainLoop_iteration_confined, HI|].
    intros [|] w1 H1; [apply IH, H1|exact H1].
Qed.

End Confinement.

(** X12: what the loop never does.  From any world, with any number of
    passes and however it ends (return, exception, no wake-up left), the
    loop leaves the registration as it found it (the endpoints and their
    count, the exit pipe, the thread, the workers); every accept it makes is
    on a registered endpoint; every connection it hands over goes to the
    worker the object holds at the recorded index; and it never writes to
    the exit pipe, creates a pipe, or starts, joins or deletes a thread. *)
Theorem mainLoop_confined `{Platform} fuel w :
  let w' := snd (mainLoop fuel w) in
  endpoints (lb w') = endpoints (lb w) /\
  nEndpoints (lb w') = nEndpoints (lb w) /\
  exitPipe (lb w') = exitPipe (lb w) /\
  thread (lb w') = thread (lb w) /\
  servers (lb w') = servers (lb w) /\
  forallb (loop_event (lb w)) (emitted w w') = true.
Proof.
  destruct (mainLoop_loop_step w fuel w (loop_step_refl _ w))
    as [E N P T S (evs & Ht & Hf)].
  cbv zeta. repeat split; try assumption.
  rewrite (emitted_app _ _ _ Ht). exact Hf.
Qed.

(** Two endpoints, both reported readable, and three workers; the first
    endpoint delivers one connection and then fails with EMFILE (24); a
    connection waits on the second. *)
Lemma pass_accept_error_witness :
  let w := world_of
             (set_nEndpoints 2
                (set_endpoints [10; 11; 7; 7] (fresh_object [100; 101; 102])))
             (kernel_of {[ 10 := [Conn 20%N; Fault 24; Conn 21%N];
                           11 := [Conn 30%N] ]} None
                [PollEvents [0; 1; 1]]) in
  exists w',
    @mainLoop_iteration linux w = (Ret true, w') /\
    dispatches (emitted w w') = [(0, 20)] /\
    List.filter is_wait (emitted w w') =
      [SysPoll [3; 10; 11] (-1); SysPoll [3] 3] /\
    queue (kernel w') 10 = [Conn 21%N] /\
    (forall other, other <> 10 ->
       queue (kernel w') other = queue (kernel w) other) /\
    quit (lb w') = false /\
    newClientCount (lb w') = 0 /\
    nextServer (lb w') = 1.
Proof.
  intros w.
  apply (@pass_accept_error linux w [0; 1; 1] [] 0%nat 10 [20%N] 24 [Conn 21%N]).
  - repeat split; try reflexivity; vm_compute; congruence.
  - reflexivity.
  - reflexivity.
  - vm_compute. lia.
  - reflexivity.
  - reflexivity.
  - intros j Hj. lia.
  - reflexivity.
  - cbn. lia.
  - discriminate.
  - discriminate.
  - discriminate.
  - discriminate.
  - exact I.
  - intros c _. reflexivity.
  - vm_compute. split; congruence.
  - vm_compute. split; congruence.
Defined.

(** ** Starting more than once *)

Section Restart.
Context `{Platform}.

Lemma shutdown_returns w :
  exists w', shutdown w = (Ret tt, w') /\
             quit (lb w') = quit (lb w) /\
             thread (lb w') = None /\
             List.filter is_thread_op (emitted w w') =
               match thread (lb w) with
               | Some t => [ThreadJoin t; ThreadDelete t]
               | None => []
               end.
Proof.
  unfold shutdown, sys_write, bind, gets, modify, emit, ret.
  destruct (thread (lb w)) as [t|] eqn:Ht; cbn.
  2:{ exists w. repeat split; [exact Ht|]. unfold emitted. rewrite drop_all.
      reflexivity. }
  repeat (destruct_inner; cbn).
  all: eexists; split; [reflexivity|]; cbn; repeat split.
  all: unfold emitted; cbn [trace record with_lb with_errno];
    rewrite <- ?app_assoc, drop_app_length; reflexivity.
Qed.

Lemma shutdown_trace_ext w :
  exists evs, trace (snd (shutdown w)) = trace w ++ evs.
Proof.
  unfold shutdown, sys_write, bind, gets, modify, emit, ret.
  destruct (thread (lb w)) as [t|]; cbn.
  2:{ exists []. rewrite app_nil_r. reflexivity. }
  repeat (destruct_inner; cbn).
  all: rewrite <- ?app_assoc; eexists; reflexivity.
Qed.

(** X13: [start] does not look at the thread the object already holds.
    After two calls the object knows the second thread only: [shutdown]
    joins and deletes that one, and the first is never joined nor
    deleted. *)
Theorem start_twice_forgets_first t1 t2 w :
  exists w',
    (start t1;;; start t2;;; shutdown) w = (Ret tt, w') /\
    List.filter is_thread_op (emitted w w') =
      [ThreadStart t1; ThreadStart t2; ThreadJoin t2; ThreadDelete t2] /\
    thread (lb w') = None.
Proof.
  unfold start. rewrite !bind_assoc, bind_emit, bind_modify, bind_assoc,
    bind_emit, bind_modify.
  set (w2 := with_lb _ _).
  destruct (shutdown_returns w2) as (w' & E & _ & Hth & Hev).
  exists w'. split; [exact E|]. split; [|exact Hth].
  assert (Ht2 : trace w2 = trace w ++ [ThreadStart t1; ThreadStart t2]).
  { subst w2. cbn. rewrite <- app_assoc. reflexivity. }
  unfold emitted in *. 
  assert (Hle : exists evs, trace w' = trace w2 ++ evs).
  { pose proof (shutdown_trace_ext w2) as Hx. rewrite E in Hx. exact Hx. }
  destruct Hle as [evs Hevs]. rewrite Hevs, drop_app_length in Hev.
  rewrite Hevs, Ht2, <- app_assoc, drop_app_length, List.filter_app, Hev.
  reflexivity.
Qed.

(** X14: nothing resets the quit flag.  Once the loop has returned, a
    shutdown followed by a new [start] gives a thread whose loop returns at
    once, without a wait or any other event: the object cannot be
    restarted. *)
Theorem restart_does_nothing fuel w w1 t fuel' :
  mainLoop fuel w = (Ret tt, w1) ->
  exists w2 w3,
    shutdown w1 = (Ret tt, w2) /\
    start t w2 = (Ret tt, w3) /\
    mainLoop (S fuel') w3 = (Ret tt, w3).
Proof.
  intros E. pose proof (mainLoop_returns_quit _ _ _ E) as Hq.
  destruct (shutdown_returns w1) as (w2 & E2 & Hq2 & _).
  exists w2. eexists. split; [exact E2|]. split; [reflexivity|].
  cbn [mainLoop]. rewrite bind_gets. cbn. rewrite Hq2, Hq. reflexivity.
Qed.

End Restart.

(** A loop that returned because the exit pipe was readable, then a
    shutdown and a new start. *)
Lemma restart_does_nothing_witness :
  let w := world_of
             (set_thread (Some 50)
                (set_nEndpoints 1
                   (set_endpoints [10; 7; 7; 7] (fresh_object [100; 101]))))
             (kernel_of {[ 10 := [Conn 20%N] ]} None [PollEvents [1; 1]]) in
  exists w2 w3,
    @shutdown linux (snd (@mainLoop linux 1 w)) = (Ret tt, w2) /\
    start 51 w2 = (Ret tt, w3) /\
    @mainLoop linux 3 w3 = (Ret tt, w3).
Proof.
  intros w.
  apply (@restart_does_nothing linux 1 w (snd (@mainLoop linux 1 w)) 51 2).
  vm_compute. reflexivity.
Defined.

(** ** From registration to the wait *)

Section RegisterThenWait.
Context `{Platform}.

Lemma take_inserts {A} (l k : list A) n :
  (n + length k <= length l)%nat ->
  take (n + length k) (list_inserts n k l) = take n l ++ k.
Proof.
  intros Hl. apply list_eq. intros j.
  destruct (decide (j < n)%nat) as [Hj|Hj].
  - rewrite lookup_take_lt, list_lookup_inserts_lt by lia.
    rewrite lookup_app_l by (rewrite length_take; lia).
    rewrite lookup_take_lt by lia. reflexivity.
  - destruct (decide (j < n + length k)%nat) as [Hj'|Hj'].
    + rewrite lookup_take_lt, list_lookup_inserts by lia.
      rewrite lookup_app_r by (rewrite length_take; lia).
      rewrite length_take. f_equal. lia.
    + rewrite lookup_take_ge by lia. symmetry. apply lookup_ge_None_2.
      rewrite length_app, length_take. lia.
Qed.

(** X17: what is registered is what is watched.  After registrations made
    in a row (under the conditions of their success), the next primary wait
    watches the read end of the exit pipe, then the endpoints that were
    registered before, then the new ones in the order of the calls, and
    nothing else; it is the only event of [pollAllEndpoints], whatever the
    wake-up. *)
Theorem registered_endpoints_are_watched fds w :
  well_formed (lb w) ->
  nEndpoints (lb w) + Z.of_nat (length fds) <= 3 ->
  nEndpoints (lb w) + Z.of_nat (length fds) <= SERVER_KIT_MAX_SERVER_ENDPOINTS ->
  (forall fd, fd ∈ fds -> fcntl_fault (kernel w) !! fd = None) ->
  exists w',
    listen_all fds w = (Ret tt, w') /\
    watched (lb w') = watched (lb w) ++ fds /\
    emitted w' (snd (pollAllEndpoints w')) =
      [SysPoll (watched (lb w) ++ fds) (-1)].
Proof.
  intros Hwf H3 Hcap Hf.
  destruct (listen_all_spec fds w Hwf H3 Hcap Hf)
    as (w' & E & Hc & He & _ & _ & Hwf' & Hpipe).
  pose proof Hwf as (Hlen & _ & _ & Hn & _ & _).
  assert (Hw : watched (lb w') = watched (lb w) ++ fds).
  { unfold watched. rewrite Hpipe, Hc, He. cbn [app]. f_equal.
    replace (Z.to_nat (nEndpoints (lb w) + Z.of_nat (length fds)))
      with (Z.to_nat (nEndpoints (lb w)) + length fds)%nat by lia.
    apply take_inserts. lia. }
  exists w'. split; [exact E|]. split; [exact Hw|].
  pose proof (pollAllEndpoints_outcomes w' Hwf') as Ho. cbv zeta in Ho.
  rewrite Hw in Ho.
  destruct (wakeups (kernel w')) as [|[e|rs] rest]; rewrite Ho; emitted_now.
Qed.

End RegisterThenWait.

(** Two registrations on a balancer that holds one endpoint. *)
Lemma registered_endpoints_are_watched_witness :
  let w := world_of
             (set_nEndpoints 1 (set_endpoints [10; 7; 7; 7] (fresh_object [100])))
             (kernel_of ∅ None []) in
  exists w',
    @listen_all linux [11; 12] w = (Ret tt, w') /\
    watched (lb w') = [3; 10; 11; 12] /\
    emitted w' (snd (@pollAllEndpoints linux w')) = [SysPoll [3; 10; 11; 12] (-1)].
Proof.
  intros w. apply (@registered_endpoints_are_watched linux [11; 12] w).
  - repeat split; try reflexivity; vm_compute; congruence.
  - vm_compute. congruence.
  - vm_compute. congruence.
  - intros fd _. reflexivity.
Defined.
